(** * LC pupillometry study: scheduling core of the oddball experiment

    A shallow embedding of the scheduling functions of the experiment
    controller (frame clock, block planner, attention stimulus selector,
    block runner and practice gate) together with the properties the
    specification states about them.

    Conventions of the embedding.
    - Python [int] is [Z].
    - A Python [float] is an IEEE 754 binary64 number (module [Float],
      on the standard library's [SpecFloat]): sums, differences,
      products and quotients are rounded as Python rounds them, NaN and
      the infinities are values, and a float made an int raises as
      Python does. The frame clock, the practice gate and the session
      planner are embedded on these floats in [FloatFrameClock],
      [FloatPractice] and [FloatPlanner].
    - Where the code only compares floats or multiplies by zero (the
      random draws against a chance, the guards of the frame clock, a
      band around zero) a float is the rational [Q] it stands for; the
      modules [FrameClock], [Planner] and [Practice] read the code
      this way and carry the properties that no rounding can reach.
    - Python [str] is [string]; a Python list is a [list].
    - [random.random()] and [random.choice] read an explicit random
      source that is threaded through every call.
    - A Python exception is an explicit outcome [Raises e]; the two
      [while True] loops of the planner take a bound on the number of
      iterations and answer [Timeout] when it is exhausted. *)

From Stdlib Require Import ZArith QArith Qround Qabs List String Bool Lia Lqa.
From Stdlib Require Import Permutation SpecFloat.
Import ListNotations.

Open Scope Z_scope.

(* ================================================================== *)
(** * Outcomes of a call *)
(* ================================================================== *)

Inductive exn : Type :=
| IndexError          (* random.choice on an empty sequence *)
| ZeroDivisionError   (* integer or float floor division by zero *)
| NameError           (* use of a local variable that was never bound *)
| OverflowError       (* an infinite float, or too large an int, converted *)
| ValueError.         (* a NaN converted to an integer *)

Inductive run (A : Type) : Type :=
| Done (a : A)
| Raises (e : exn)
| Timeout.

Arguments Done {A} a.
Arguments Raises {A} e.
Arguments Timeout {A}.

Definition bind {A B : Type} (m : run A) (k : A -> run B) : run B :=
  match m with
  | Done a => k a
  | Raises e => Raises e
  | Timeout => Timeout
  end.

Notation "'let*' x ':=' m 'in' k" := (bind m (fun x => k))
  (at level 10, x name, m at level 100, k at level 200).

Notation "'let*' ' pat ':=' m 'in' k" :=
  (bind m (fun x => match x with pat => k end))
  (at level 10, pat pattern, m at level 100, k at level 200).

Definition failed {A : Type} (m : run A) : Prop :=
  exists e, m = Raises e.

(* ================================================================== *)
(** * Rational helpers *)
(* ================================================================== *)

Definition Qltb (x y : Q) : bool := negb (Qle_bool y x).

(* ================================================================== *)
(** * The random source *)
(* ================================================================== *)

Module Random.

(** The generator's future answers: [uniform n] is the float that the
    [n]-th draw returns when that draw is [random.random()], and
    [below n] the raw integer from which the [n]-th draw picks an index
    when that draw is [random.choice]. [pos] counts the draws made. *)
Record rng : Type := mkRng {
  uniform : nat -> Q;
  below : nat -> nat;
  pos : nat
}.

Definition advance (g : rng) : rng :=
  mkRng (uniform g) (below g) (S (pos g)).

(** [random.random()] *)
Definition random (g : rng) : Q * rng :=
  (uniform g (pos g), advance g).

(** [random.choice(seq)]: [IndexError] on an empty sequence, otherwise
    the element at an index below [len(seq)]. *)
Definition choice {A : Type} (seq : list A) (g : rng) : run (A * rng) :=
  match nth_error seq (below g (pos g) mod List.length seq)%nat with
  | Some a => Done (a, advance g)
  | None => Raises IndexError
  end.

(** Every float the generator can return lies in [[0, 1)]. *)
Definition unit_range (g : rng) : Prop :=
  forall n, (0 <= uniform g n)%Q /\ (uniform g n < 1)%Q.

(** The generator returns a float below [p] again and again: the event
    of probability one under which a geometric loop with success
    chance [p] ends. *)
Definition recurrent (p : Q) (g : rng) : Prop :=
  forall n, exists m, (n <= m)%nat /\ (uniform g m < p)%Q.

Fixpoint skip (k : nat) (g : rng) : rng :=
  match k with
  | O => g
  | S k' => skip k' (advance g)
  end.

End Random.

Import Random.

(* ================================================================== *)
(** * Frame clock (calculate_frame_periods.py) *)
(* ================================================================== *)

Module FrameClock.

(** Python 3 [round(x)] of a float to an int: nearest integer, ties to
    the even neighbour. *)
Definition py_round (x : Q) : Z :=
  let f := Qfloor x in
  match Qcompare (x - inject_Z f) (1 # 2) with
  | Lt => f
  | Gt => f + 1
  | Eq => if Z.even f then f else f + 1
  end.

(** [get_nearest_frame(desired_duration_sec, fps)]; the two logger
    calls leave the returned value untouched and are not modelled. *)
Definition get_nearest_frame (desired_duration_sec fps : Q) : Z :=
  if Qle_bool fps 0 then 0
  else if Qltb desired_duration_sec 0 then 0
  else
    let ideal_frames := (desired_duration_sec * fps)%Q in
    let n_frames := py_round ideal_frames in
    n_frames.

End FrameClock.

(* ================================================================== *)
(** * Configured values (config.py) *)
(* ================================================================== *)

Module Config.

Definition FPS : Q := 9993 # 100.

Definition STANDARD_COLOUR : Q * Q * Q := (-(1 # 2), -(1 # 2), -(1 # 2))%Q.
Definition RESPONSE_COLOUR : Q * Q * Q := (0, 0, 1)%Q.

Definition TARGET_LETTER : string := "X".
Definition DISTRACTOR_LETTERS : list string :=
  ["Z"; "L"; "N"; "T"]%string.
Definition TARGET_PROB_INCREASE_THRESHOLD : Z := -4.

Definition MAX_SESSION_TIME : Q := 6.
Definition MIN_STANDARDS : Z := 2.

Definition INTERIM_DURATION : Q := 2.
Definition MAIN_STIM_DURATION : Q := 150 # 1000.
Definition ATTENTION_DURATION : Q := 2 # 10.
Definition RESPONSE_DELAY : Z := 10.

Definition CHANCE_OF_ODDBALL : Q := 2 # 10.
Definition CHANCE_OF_PRIMARY_ODDBALL : Q := 75 # 100.
Definition CHANCE_OF_FIXATION_CHANGE : Q := 1 # 10.

Definition PRACTICE_CHANCE_OF_FIXATION_CHANGE : Q := 4 # 10.
Definition ACCEPTABLE_ACCURACY : Q := 7 # 10.
Definition PRACTICE_DURATION : Q := 1.

End Config.

(* ================================================================== *)
(** * Block planner (plan_blocks_and_sessions.py) *)
(* ================================================================== *)

Module Planner.

Definition block : Type := list string.

(** The [while True] loop of [create_block]: one draw per iteration. *)
Fixpoint create_block_loop (chance_of_oddball : Q) (fuel : nat)
         (blk : block) (g : rng) : run (block * rng) :=
  match fuel with
  | O => Timeout
  | S fuel' =>
      let (rand, g') := random g in
      if Qltb rand chance_of_oddball
      then Done (blk ++ ["o"%string], g')
      else create_block_loop chance_of_oddball fuel'
                             (blk ++ ["s"%string]) g'
  end.

(** [create_block(min_standards, chance_of_oddball)];
    [range(min_standards)] is empty for a negative argument. *)
Definition create_block (min_standards : Z) (chance_of_oddball : Q)
           (fuel : nat) (g : rng) : run (block * rng) :=
  let blk := repeat "s"%string (Z.to_nat min_standards) in
  create_block_loop chance_of_oddball fuel blk g.

(** [len(block) * trial_duration] *)
Definition block_duration (trial_duration : Q) (b : block) : Q :=
  (inject_Z (Z.of_nat (List.length b)) * trial_duration)%Q.

(** Phase 1 of [populate_session]: accept random blocks while they
    fit. Returns the accepted blocks and their duration. *)
Fixpoint phase1 (max_ses_seconds trial_duration : Q) (min_standards : Z)
         (chance_of_oddball : Q) (fuel bfuel : nat)
         (session_blocks : list block) (estimated_duration : Q)
         (g : rng) : run (list block * Q * rng) :=
  match fuel with
  | O => Timeout
  | S fuel' =>
      let* '(new_block, g') :=
        create_block min_standards chance_of_oddball bfuel g in
      let block_duration := block_duration trial_duration new_block in
      let potential_total_duration :=
        (estimated_duration + block_duration)%Q in
      if Qle_bool potential_total_duration max_ses_seconds
      then phase1 max_ses_seconds trial_duration min_standards
                  chance_of_oddball fuel' bfuel
                  (session_blocks ++ [new_block])
                  (estimated_duration + block_duration)%Q g'
      else Done (session_blocks, estimated_duration, g')
  end.

(** [["s"] * n + ["o"]]; a negative multiplier gives the empty list. *)
Definition filler_block (num_standards_in_final : Z) : block :=
  repeat "s"%string (Z.to_nat num_standards_in_final) ++ ["o"%string].

(** [populate_session(max_session_time_min, attention_duration_sec,
    interim_duration_sec, min_standards, chance_of_oddball)].
    [fuel] bounds both loops. *)
Definition populate_session (max_session_time_min attention_duration_sec
           interim_duration_sec : Q) (min_standards : Z)
           (chance_of_oddball : Q) (fuel : nat) (g : rng)
  : run (list block * Q * rng) :=
  let max_ses_seconds := (max_session_time_min * 60)%Q in
  let trial_duration := (attention_duration_sec + interim_duration_sec)%Q in
  let* '(session_blocks, estimated_duration, g') :=
    phase1 max_ses_seconds trial_duration min_standards chance_of_oddball
           fuel fuel [] 0%Q g in
  let remaining_time := (max_ses_seconds - estimated_duration)%Q in
  if Qeq_bool trial_duration 0 then Raises ZeroDivisionError
  else
    let max_final_block_length := Qfloor (remaining_time / trial_duration) in
    let min_valid_block_length := min_standards + 1 in
    if min_valid_block_length <=? max_final_block_length
    then
      let num_standards_in_final := max_final_block_length - 1 in
      let final_block := filler_block num_standards_in_final in
      Done (session_blocks ++ [final_block],
            (estimated_duration
             + block_duration trial_duration final_block)%Q, g')
    else Done (session_blocks, estimated_duration, g').

End Planner.

(* ================================================================== *)
(** * Attention stimulus selector (block_handler.py) *)
(* ================================================================== *)

Module Selector.

Definition colour : Type := (Q * Q * Q)%type.

(** The fixation object: a PsychoPy stimulus of which the selector
    writes [color] (attend) or reads and writes [text] (divert). *)
Record fixation : Type := mkFixation {
  color : colour;
  text : string
}.

Definition set_color (c : colour) (f : fixation) : fixation :=
  mkFixation c (text f).

Definition set_text (t : string) (f : fixation) : fixation :=
  mkFixation (color f) t.

(** [x in l] for [x] a str or [None] and [l] a list of str. *)
Definition str_in (x : option string) (l : list string) : bool :=
  match x with
  | None => false
  | Some s => existsb (String.eqb s) l
  end.

(** [l.remove(s)]: drops the first element equal to [s]. *)
Fixpoint remove_first (s : string) (l : list string) : list string :=
  match l with
  | [] => []
  | h :: t => if String.eqb h s then t else h :: remove_first s t
  end.

Definition list_remove (x : option string) (l : list string)
  : list string :=
  match x with
  | None => l
  | Some s => remove_first s l
  end.

(** Lines 23-28 of [get_letter]: the candidates before the previous
    letter is taken out. *)
Definition candidate_letters (allow_target : bool) (target_letter : string)
           (distractor_letters : list string)
           (increase_target_prob_threshold delay_countdown : Z)
  : list string :=
  let possible_choices := distractor_letters in
  if allow_target then
    let possible_choices := possible_choices ++ [target_letter] in
    if delay_countdown <=? increase_target_prob_threshold
    then possible_choices ++ [target_letter]
    else possible_choices
  else possible_choices.

(** [get_letter] of block_handler.py. *)
Definition get_letter (allow_target : bool) (target_letter : string)
           (distractor_letters : list string)
           (increase_target_prob_threshold delay_countdown : Z)
           (avoid_letter : option string) (g : rng)
  : run (string * rng) :=
  let possible_choices :=
    candidate_letters allow_target target_letter distractor_letters
                      increase_target_prob_threshold delay_countdown in
  let temp_choices := possible_choices in
  let possible_choices :=
    if str_in avoid_letter temp_choices
    then list_remove avoid_letter temp_choices
    else possible_choices in
  choice possible_choices g.

(** [numpy.arange(a, b)] on integers. *)
Definition arange (a b : Z) : list Z :=
  map (fun i => a + Z.of_nat i) (seq 0 (Z.to_nat (b - a))).

Definition idx_in (i : Z) (idxs : list Z) : bool :=
  existsb (Z.eqb i) idxs.

(** The three-way test of the divert branch (lines 70, 76 and 82):
    the [allow_target] argument of the one [get_letter] call that
    runs. *)
Definition allow_target_for (trial_idx : Z)
           (acceptable_target_idxs : list Z) (delay_countdown : Z)
  : bool :=
  if negb (idx_in trial_idx acceptable_target_idxs) then false
  else if 0 <=? delay_countdown then false
  else true.

(** What [determine_attention_stimulus] returns. *)
Record selection : Type := mkSelection {
  sel_fixation : fixation;
  sel_targets : Z;
  sel_countdown : Z;
  sel_is_target : bool;
  sel_letter : string
}.

Definition determine_attention_stimulus
           (condition : string) (trial_idx : Z)
           (acceptable_target_idxs : list Z) (fixation_obj : fixation)
           (norm_colour att_colour : colour) (colour_change_chance : Q)
           (target_letter : string) (distractor_letters : list string)
           (n_attention_targets defined_response_delay delay_countdown
            prob_threshold : Z) (g : rng)
  : run (selection * rng) :=
  let finish fixation_obj n_attention_targets delay_countdown
             is_att_target letter_used g :=
    Done (mkSelection fixation_obj n_attention_targets
                      (delay_countdown - 1) is_att_target letter_used, g) in
  if String.eqb condition "attend" then
    if negb (idx_in trial_idx acceptable_target_idxs) then
      finish (set_color norm_colour fixation_obj) n_attention_targets
             delay_countdown false EmptyString g
    else if 0 <? delay_countdown then
      finish (set_color norm_colour fixation_obj) n_attention_targets
             delay_countdown false EmptyString g
    else
      let (r, g') := random g in
      if Qltb r colour_change_chance then
        finish (set_color att_colour fixation_obj)
               (n_attention_targets + 1)
               (defined_response_delay + 1) true EmptyString g'
      else
        finish (set_color norm_colour fixation_obj) n_attention_targets
               delay_countdown false EmptyString g'
  else if String.eqb condition "divert" then
    let allow_target :=
      allow_target_for trial_idx acceptable_target_idxs delay_countdown in
    let* '(letter, g') :=
      get_letter allow_target target_letter distractor_letters
                 prob_threshold delay_countdown
                 (Some (text fixation_obj)) g in
    let fixation_obj := set_text letter fixation_obj in
    if String.eqb (text fixation_obj) target_letter then
      finish fixation_obj (n_attention_targets + 1) (2 + 1) true
             (text fixation_obj) g'
    else
      finish fixation_obj n_attention_targets delay_countdown false
             (text fixation_obj) g'
  else
    finish fixation_obj n_attention_targets delay_countdown false
           EmptyString g.

(** The divert branch from its candidates on (lines 29-37 of
    [get_letter], lines 84-98 of [determine_attention_stimulus]): the
    letter on show is taken out when it is among the candidates, one
    of the letters left is chosen and shown, and it is a target when it
    is the target letter. *)
Definition choose_among (candidates : list string)
           (fixation_obj : fixation) (target_letter : string)
           (n_attention_targets delay_countdown : Z) (g : rng)
  : run (selection * rng) :=
  let pool :=
    if str_in (Some (text fixation_obj)) candidates
    then list_remove (Some (text fixation_obj)) candidates
    else candidates in
  let* '(letter, g') := choice pool g in
  let fixation_obj := set_text letter fixation_obj in
  if String.eqb letter target_letter then
    Done (mkSelection fixation_obj (n_attention_targets + 1) (2 + 1 - 1)
                      true letter, g')
  else
    Done (mkSelection fixation_obj n_attention_targets
                      (delay_countdown - 1) false letter, g').

(** Successive calls of the selector, as the runner makes them: each
    call is given the fixation object, target count and countdown that
    the call before returned. [calls] lists the trial index and the
    eligible indices of every call; the answer lists, call by call,
    whether a target was produced, and gives the object, count and
    countdown after the last call. *)
Fixpoint successive_calls
         (condition : string) (norm_colour att_colour : colour)
         (colour_change_chance : Q) (target_letter : string)
         (distractor_letters : list string)
         (defined_response_delay prob_threshold : Z)
         (calls : list (Z * list Z))
         (fixation_obj : fixation) (n_attention_targets delay_countdown : Z)
         (g : rng) : run (list bool * (fixation * Z * Z) * rng) :=
  match calls with
  | [] => Done ([], (fixation_obj, n_attention_targets, delay_countdown), g)
  | (trial_idx, acceptable_target_idxs) :: rest =>
      let* '(x, g') :=
        determine_attention_stimulus
          condition trial_idx acceptable_target_idxs fixation_obj
          norm_colour att_colour colour_change_chance target_letter
          distractor_letters n_attention_targets defined_response_delay
          delay_countdown prob_threshold g in
      let* '(flags, final, g'') :=
        successive_calls
          condition norm_colour att_colour colour_change_chance
          target_letter distractor_letters defined_response_delay
          prob_threshold rest (sel_fixation x) (sel_targets x)
          (sel_countdown x) g' in
      Done (sel_is_target x :: flags, final, g'')
  end.

End Selector.

(* ================================================================== *)
(** * The older letter rule (trial_logic.py) *)
(* ================================================================== *)

Module TrialLogic.

Import Selector.

(** [get_letter] of trial_logic.py: the previous letter is taken out
    only when another candidate stays. The two [print] calls are not
    modelled. *)
Definition get_letter (allow_targets : bool) (avoid_letter : option string)
           (target_letter : string) (distractor_letters : list string)
           (g : rng) : run (string * rng) :=
  let full :=
    if allow_targets then distractor_letters ++ [target_letter]
    else distractor_letters in
  let possible_choices := full in
  let temp_choices := possible_choices in
  let possible_choices :=
    if str_in avoid_letter temp_choices then
      if (1 <? Z.of_nat (List.length temp_choices))
      then list_remove avoid_letter temp_choices
      else possible_choices
    else if (Z.of_nat (List.length possible_choices) =? 0) then full
    else possible_choices in
  match possible_choices with
  | [] => Done ("?"%string, g)
  | _ => choice possible_choices g
  end.

End TrialLogic.

(* ================================================================== *)
(** * Trial and block runner (block_handler.py, basic_helpers.py) *)
(* ================================================================== *)

(** [for i in range(n): s = body(i, s)], stopping at the first
    exception. *)
Fixpoint for_from {S : Type} (body : Z -> S -> run S) (i : Z) (n : nat)
         (s : S) : run S :=
  match n with
  | O => Done s
  | S n' => let* s' := body i s in for_from body (i + 1) n' s'
  end.

Definition for_range {S : Type} (n : Z) (body : Z -> S -> run S) (s : S)
  : run S :=
  for_from body 0 (Z.to_nat n) s.

(** Python [a // b] on integers. *)
Definition floordiv (a b : Z) : run Z :=
  if b =? 0 then Raises ZeroDivisionError else Done (a / b).

Module Runner.

Import Selector.

(** Handle of a PsychoPy stimulus object. *)
Definition stimulus : Type := string.

(** The text of a tracker message, field by field:
    [f"{session+1}_{block+1}_{trial+1}, T:{time:.4f}, Type: ..., ..."]. *)
Record message : Type := mkMessage {
  msg_indices : list Z;
  msg_time : option Q;
  msg_fields : list (string * string)
}.

Inductive event : Type :=
| DrawStim (obj : stimulus)                       (* trial_stim.draw() *)
| DrawFixation (f : fixation)                     (* fixation_obj.draw() *)
| Flip (t : Q)                                    (* win.flip() gave t *)
| SendMessage (identifier : string) (m : message) (* el_tracker.sendMessage *)
| SendVariable (identifier : string) (m : message)(* the "!V" form *)
| LogInfo (identifier : string) (m : message)     (* logger.info *)
| LogError (text : string).                       (* logger.error *)

(** What the outside answers: the time each [win.flip()] returns, the
    keys each [getKeys] poll returns, the status each [isRecording()]
    returns and the time each clock reading returns, in call order. *)
Record world : Type := mkWorld {
  flip_time : nat -> Q;
  keys_at : nat -> list (string * Q);
  recording_at : nat -> Z;
  clock_at : nat -> Q
}.

(** [pylink.TRIAL_OK] *)
Definition TRIAL_OK : Z := 0.

(** The arguments of [run_block] that no statement of it assigns. *)
Record params : Type := mkParams {
  condition : string;
  norm_colour : colour;
  att_colour : colour;
  rare_odd_threshold : Q;
  standard_stim_obj : stimulus;
  common_odd_obj : stimulus;
  rare_odd_obj : stimulus;
  standard_stim_name : string;
  common_odd_name : string;
  rare_odd_name : string;
  attention_frames : Z;
  main_stim_frames : Z;
  interim_frames : Z;
  colour_change_chance : Q;
  target_letter : string;
  distractor_letters : list string;
  defined_response_delay : Z;
  prob_threshold : Z;
  session_counter : Z;
  block_counter : Z;
  practice : bool
}.

(** The state a run of [run_block] reads and writes: the random
    source, how many flips, polls, status queries and clock readings
    were made, what was done so far, and the local variables. *)
Record state : Type := mkState {
  gen : rng;
  flips : nat;
  polls : nat;
  queries : nat;
  readings : nat;
  trace : list event;
  n_attention_targets : Z;
  n_attention_responses : Z;
  delay_countdown : Z;
  fixation_obj : fixation;
  trial_stim : option stimulus;
  oddball_name : option string;
  is_att_target : bool;
  att_letter : string;
  keypress_times : list Q
}.

Definition emit (e : event) (s : state) : state :=
  mkState (gen s) (flips s) (polls s) (queries s) (readings s)
          (trace s ++ [e])
          (n_attention_targets s) (n_attention_responses s)
          (delay_countdown s) (fixation_obj s) (trial_stim s)
          (oddball_name s) (is_att_target s) (att_letter s)
          (keypress_times s).

Definition with_counters (g : rng) (f p q r : nat) (s : state) : state :=
  mkState g f p q r (trace s)
          (n_attention_targets s) (n_attention_responses s)
          (delay_countdown s) (fixation_obj s) (trial_stim s)
          (oddball_name s) (is_att_target s) (att_letter s)
          (keypress_times s).

Definition with_gen (g : rng) (s : state) : state :=
  with_counters g (flips s) (polls s) (queries s) (readings s) s.

Definition with_stim (obj : option stimulus) (name : option string)
           (s : state) : state :=
  mkState (gen s) (flips s) (polls s) (queries s) (readings s) (trace s)
          (n_attention_targets s) (n_attention_responses s)
          (delay_countdown s) (fixation_obj s) obj name
          (is_att_target s) (att_letter s) (keypress_times s).

Definition with_keypress (responses : Z) (times : list Q) (s : state)
  : state :=
  mkState (gen s) (flips s) (polls s) (queries s) (readings s) (trace s)
          (n_attention_targets s) responses
          (delay_countdown s) (fixation_obj s) (trial_stim s)
          (oddball_name s) (is_att_target s) (att_letter s) times.

Definition with_selection (x : selection) (g : rng) (s : state) : state :=
  mkState g (flips s) (polls s) (queries s) (readings s) (trace s)
          (sel_targets x) (n_attention_responses s)
          (sel_countdown x) (sel_fixation x) (trial_stim s)
          (oddball_name s) (sel_is_target x) (sel_letter x)
          (keypress_times s).

(** [win.flip()] *)
Definition flip (w : world) (s : state) : Q * state :=
  let t := flip_time w (flips s) in
  (t, emit (Flip t)
           (with_counters (gen s) (S (flips s)) (polls s) (queries s)
                          (readings s) s)).

(** [psychopy.event.getKeys(timeStamped=...)] *)
Definition getKeys (w : world) (s : state) : list (string * Q) * state :=
  (keys_at w (polls s),
   with_counters (gen s) (flips s) (S (polls s)) (queries s)
                 (readings s) s).

(** [el_tracker.isRecording()] *)
Definition isRecording (w : world) (s : state) : Z * state :=
  (recording_at w (queries s),
   with_counters (gen s) (flips s) (polls s) (S (queries s))
                 (readings s) s).

(** [psychopy.core.monotonicClock.getTime()] *)
Definition getTime (w : world) (s : state) : Q * state :=
  (clock_at w (readings s),
   with_counters (gen s) (flips s) (polls s) (queries s)
                 (S (readings s)) s).

(** [msg_eyetracker] of basic_helpers.py. *)
Definition msg_eyetracker (msg_identifier : string) (m : message)
           (log_msg create_var : bool) (s : state) : state :=
  let s := emit (SendMessage msg_identifier m) s in
  let s := if log_msg then emit (LogInfo msg_identifier m) s else s in
  if create_var then emit (SendVariable msg_identifier m) s else s.

Definition trial_indices (p : params) (trial_counter : Z) : list Z :=
  [session_counter p + 1; block_counter p + 1; trial_counter + 1].

(** [standard_stim_name if trial_type == 's' else oddball_name] *)
Definition shown_name (p : params) (trial_type : string) (s : state)
  : run string :=
  if String.eqb trial_type "s" then Done (standard_stim_name p)
  else match oddball_name s with
       | Some n => Done n
       | None => Raises NameError
       end.

Definition attention_fields (s : state) : list (string * string) :=
  [("Attention_type", if is_att_target s then "Target" else "Normal");
   ("Letter", if String.eqb (att_letter s) "" then "None"
              else att_letter s)]%string.

(** The recording check that opens every frame. *)
Definition check_recording (w : world) (p : params) (s : state) : state :=
  if practice p then s
  else
    let (eyelink_status, s) := isRecording w s in
    if negb (eyelink_status =? TRIAL_OK)
    then emit (LogError "Eye-tracker recording has stopped unexpectedly.") s
    else s.

(** One key of the polled list. *)
Definition handle_key (p : params) (trial_counter : Z) (s : state)
           (key : string * Q) : state :=
  let (key_name, key_press_time) := key in
  let report identifier s :=
    if practice p then s
    else msg_eyetracker identifier
           (mkMessage (trial_indices p trial_counter) (Some key_press_time)
                      [("Key"%string, key_name)])
           true false s in
  if String.eqb key_name "space" then
    let s := with_keypress (n_attention_responses s + 1)
                           (keypress_times s ++ [key_press_time]) s in
    report "KEY_RESPONSE"%string s
  else
    let s := with_keypress (n_attention_responses s)
                           (keypress_times s ++ [key_press_time]) s in
    report "UNEXPECTED_KEY_RESPONSE"%string s.

Definition poll_keys (w : world) (p : params) (trial_counter : Z)
           (s : state) : state :=
  let (keys, s) := getKeys w s in
  fold_left (handle_key p trial_counter) keys s.

(** Lines 187-189: the primary stimulus is drawn during its own
    frames. *)
Definition draw_stimulus (p : params) (frameN : Z) (s : state) : run state :=
  if frameN <? main_stim_frames p then
    match trial_stim s with
    | Some obj => Done (emit (DrawStim obj) s)
    | None => Raises NameError
    end
  else Done s.

(** Lines 197-219: the two onset messages after the first flip. *)
Definition report_onsets (p : params) (trial_counter : Z)
           (trial_type : string) (frameN : Z) (current_flip_time : Q)
           (s : state) : run state :=
  if negb (practice p) && (frameN =? 0) then
    let* name := shown_name p trial_type s in
    let s := msg_eyetracker "MAIN_STIM_ONSET"
               (mkMessage (trial_indices p trial_counter)
                          (Some current_flip_time)
                          [("Type", trial_type); ("Stim", name)]%string)
               true false s in
    Done (msg_eyetracker "FIXATION_STIM_ONSET"
            (mkMessage (trial_indices p trial_counter)
                       (Some current_flip_time)
                       (("Type"%string, trial_type) :: attention_fields s))
            true false s)
  else Done s.

(** Lines 255-265: the offset message. *)
Definition report_offset (p : params) (trial_counter : Z)
           (trial_type : string) (frameN : Z) (current_flip_time : Q)
           (s : state) : run state :=
  if negb (practice p) && (frameN =? main_stim_frames p) then
    let* name := shown_name p trial_type s in
    Done (msg_eyetracker "MAIN_STIM_OFFSET"
            (mkMessage (trial_indices p trial_counter)
                       (Some current_flip_time)
                       [("Type", trial_type); ("Stim", name)]%string)
            true false s)
  else Done s.

(** Body of the frame loop of the stimulus phase (lines 177-267). *)
Definition stimulus_frame (w : world) (p : params) (trial_counter : Z)
           (trial_type : string) (frameN : Z) (s : state) : run state :=
  let s := check_recording w p s in
  let* s := draw_stimulus p frameN s in
  let s := emit (DrawFixation (fixation_obj s)) s in
  let (current_flip_time, s) := flip w s in
  let* s :=
    report_onsets p trial_counter trial_type frameN current_flip_time s in
  let s := poll_keys w p trial_counter s in
  report_offset p trial_counter trial_type frameN current_flip_time s.

(** Lines 312-324: the onset message of an interim chunk. *)
Definition report_probe_onset (p : params) (trial_counter : Z)
           (trial_type : string) (frameN : Z) (current_flip_time : Q)
           (s : state) : state :=
  if negb (practice p) && (frameN =? 0) then
    msg_eyetracker "FIXATION_STIM_ONSET"
      (mkMessage (trial_indices p trial_counter)
                 (Some current_flip_time)
                 (("Type"%string, trial_type)
                    :: attention_fields s ++ [("FrameN", "0")]%string))
      true false s
  else s.

(** Body of the frame loop of an interim chunk (lines 297-357). *)
Definition interim_frame (w : world) (p : params) (trial_counter : Z)
           (trial_type : string) (frameN : Z) (s : state) : run state :=
  let s := check_recording w p s in
  let s := emit (DrawFixation (fixation_obj s)) s in
  let (current_flip_time, s) := flip w s in
  let s :=
    report_probe_onset p trial_counter trial_type frameN
                       current_flip_time s in
  Done (poll_keys w p trial_counter s).

(** The call of [determine_attention_stimulus] with the runner's
    variables, and the assignment of its five results. *)
Definition select (p : params) (trial_counter : Z)
           (acceptable_target_idxs : list Z) (s : state) : run state :=
  let* '(x, g) :=
    determine_attention_stimulus
      (condition p) trial_counter acceptable_target_idxs (fixation_obj s)
      (norm_colour p) (att_colour p) (colour_change_chance p)
      (target_letter p) (distractor_letters p) (n_attention_targets s)
      (defined_response_delay p) (delay_countdown s) (prob_threshold p)
      (gen s) in
  Done (with_selection x g s).

(** A tracker message stamped with a fresh clock reading, sent unless
    in practice. *)
Definition clock_message (w : world) (p : params) (identifier : string)
           (trial_counter : Z) (trial_type : string) (create_var : bool)
           (s : state) : state :=
  if practice p then s
  else
    let (t, s) := getTime w s in
    msg_eyetracker identifier
      (mkMessage (trial_indices p trial_counter) (Some t)
                 [("Type"%string, trial_type)])
      true create_var s.

(** The choice of the trial's stimulus (lines 153-165). *)
Definition choose_stimulus (p : params) (trial_type : string) (s : state)
  : state :=
  if String.eqb trial_type "s" then
    with_stim (Some (standard_stim_obj p)) (oddball_name s) s
  else if String.eqb trial_type "o" then
    let (r, g) := random (gen s) in
    let s := with_gen g s in
    if Qltb (rare_odd_threshold p) r
    then with_stim (Some (rare_odd_obj p)) (Some (rare_odd_name p)) s
    else with_stim (Some (common_odd_obj p)) (Some (common_odd_name p)) s
  else emit (LogError "Unknown trial type defined in the block") s.

(** The stimulus phase of a trial: the frame loop of lines 177-267. *)
Definition stimulus_phase (w : world) (p : params) (trial_counter : Z)
           (trial_type : string) (s : state) : run state :=
  for_range (attention_frames p)
            (stimulus_frame w p trial_counter trial_type) s.

(** One interim chunk: a selection, then its frame loop. *)
Definition interim_chunk (w : world) (p : params) (trial_counter : Z)
           (trial_type : string) (acceptable_target_idxs : list Z)
           (interim_subloop : Z) (s : state) : run state :=
  let* s := select p trial_counter acceptable_target_idxs s in
  for_range (attention_frames p)
            (interim_frame w p trial_counter trial_type) s.

(** Body of the loop over the trials of the block (lines 129-368). *)
Definition run_trial (w : world) (p : params) (block_len : Z)
           (trial_counter : Z) (trial_type : string) (s : state)
  : run state :=
  let s := clock_message w p "TRIALID" trial_counter trial_type true s in
  let s := with_keypress (n_attention_responses s) [] s in
  let acceptable_target_idxs := arange 1 (block_len - 2) in
  let s := choose_stimulus p trial_type s in
  let* s := select p trial_counter acceptable_target_idxs s in
  let* s := stimulus_phase w p trial_counter trial_type s in
  let s :=
    clock_message w p "INTERIM_START" trial_counter trial_type false s in
  let* num_of_subloops :=
    floordiv (interim_frames p) (attention_frames p) in
  let* s :=
    for_range num_of_subloops
              (interim_chunk w p trial_counter trial_type
                             acceptable_target_idxs) s in
  Done (clock_message w p "INTERIM_END" trial_counter trial_type false s).

(** [for trial_counter, trial_type in enumerate(block)] *)
Fixpoint run_trials (w : world) (p : params) (block_len : Z)
         (trial_counter : Z) (rest : list string) (s : state)
  : run state :=
  match rest with
  | [] => Done s
  | trial_type :: rest' =>
      let* s' := run_trial w p block_len trial_counter trial_type s in
      run_trials w p block_len (trial_counter + 1) rest' s'
  end.

(** The state in which [run_block] starts: the caller's random source,
    devices, fixation object and countdown; both counts at zero; the
    locals of the loop body not bound yet. *)
Definition enter (g : rng) (f q r k : nat) (tr : list event)
           (fixation_obj : fixation) (delay_countdown : Z) : state :=
  mkState g f q r k tr 0 0 delay_countdown fixation_obj None None
          false EmptyString [].

(** [run_block]; the returned triple is
    [(n_attention_targets s, n_attention_responses s, delay_countdown s)]
    of the final state. *)
Definition run_block (w : world) (p : params) (block : list string)
           (s0 : state) : run state :=
  let s := enter (gen s0) (flips s0) (polls s0) (queries s0) (readings s0)
                 (trace s0) (fixation_obj s0) (delay_countdown s0) in
  let s :=
    if practice p then s
    else msg_eyetracker "BLOCK_START"
           (mkMessage [session_counter p + 1; block_counter p + 1] None [])
           true false s in
  run_trials w p (Z.of_nat (List.length block)) 0 block s.

End Runner.

(* ================================================================== *)
(** * Practice gate (run_practice.py) *)
(* ================================================================== *)

Module Practice.

(** Lines 86-89: how many responses the participant should have
    given. A condition that is neither string leaves
    [expected_responses] unbound. *)
Definition expected_responses (practice_condition : string)
           (n_targets : Z) : run Z :=
  if String.eqb practice_condition "attend" then Done n_targets
  else if String.eqb practice_condition "divert" then Done (n_targets / 3)
  else Raises NameError.

Definition lower_bound (expected_responses : Z)
           (accepted_response_accuracy : Q) : Z :=
  Qfloor (inject_Z expected_responses * accepted_response_accuracy).

Definition upper_bound (expected_responses : Z)
           (accepted_response_accuracy : Q) : Z :=
  Qceiling (inject_Z expected_responses
            * (2 - accepted_response_accuracy)).

(** Lines 86-111: the verdict from the two totals of the practice
    blocks. *)
Definition practice_gate (practice_condition : string)
           (n_targets n_responses : Z) (accepted_response_accuracy : Q)
  : run bool :=
  let* expected_responses :=
    expected_responses practice_condition n_targets in
  let lower_bound := lower_bound expected_responses
                                 accepted_response_accuracy in
  let upper_bound := upper_bound expected_responses
                                 accepted_response_accuracy in
  if (lower_bound <=? n_responses) && (n_responses <=? upper_bound)
  then Done true
  else Done false.

(** The loop over the practice blocks (lines 53-84): every block runs
    with [practice=True] and its own [block_counter]; targets and key
    presses add up and the countdown carries over. *)
Fixpoint practice_blocks (w : Runner.world)
         (p : Z -> Runner.params) (block_counter : Z)
         (s_blocks : list (list string)) (n_responses n_targets : Z)
         (s : Runner.state) : run (Z * Z * Runner.state) :=
  match s_blocks with
  | [] => Done (n_responses, n_targets, s)
  | block :: rest =>
      let* s' := Runner.run_block w (p block_counter) block s in
      practice_blocks w p (block_counter + 1) rest
                      (n_responses + Runner.n_attention_responses s')
                      (n_targets + Runner.n_attention_targets s') s'
  end.

(** The verdict of [run_practice] from the run number and the totals:
    past the first run the practice is skipped and counts as
    passed. *)
Definition practice_complete (experiment_run_number : Z)
           (practice_condition : string) (n_targets n_responses : Z)
           (accepted_response_accuracy : Q) : run bool :=
  if experiment_run_number <=? 1 then
    practice_gate practice_condition n_targets n_responses
                  accepted_response_accuracy
  else Done true.

End Practice.

(* ================================================================== *)
(** * Shapes and concrete inputs used in the statements *)
(* ================================================================== *)

Module Scenarios.

Import Planner Selector Config.

Local Open Scope string_scope.
Local Open Scope list_scope.

(** Standards, then one oddball. *)
Definition standards_then_oddball (n : nat) : block :=
  repeat "s" n ++ ["o"].

(** A source whose first three draws are 0.5 and whose later draws are
    0.1: with two leading standards and chance 0.2 the block is
    s s s s s o. *)
Definition late_hit : rng :=
  mkRng (fun n => if (n <? 3)%nat then 1 # 2 else 1 # 10)
        (fun _ => 0%nat) 0.

(** A source whose every draw is 0: each block stops at its first
    draw. *)
Definition always_hit : rng := mkRng (fun _ => 0%Q) (fun _ => 0%nat) 0.

(** A source whose raw integers are all 4. *)
Definition fifth : rng := mkRng (fun _ => 0%Q) (fun _ => 4%nat) 0.

(** A source whose raw integers are all 5. *)
Definition sixth : rng := mkRng (fun _ => 0%Q) (fun _ => 5%nat) 0.

(** A circle of the standard colour. *)
Definition grey_circle : fixation := mkFixation STANDARD_COLOUR " ".

(** The block of the end-to-end scenario. *)
Definition block5 : block := ["s"; "s"; "s"; "s"; "o"].

(** The arguments [main.py] passes to [run_block] in the attend
    condition, with an attention chunk of 5 frames, a primary stimulus
    of 3 frames and an interim of 10 frames. *)
Definition attend_params (practice : bool) : Runner.params :=
  Runner.mkParams
    "attend" STANDARD_COLOUR RESPONSE_COLOUR CHANCE_OF_PRIMARY_ODDBALL
    "coarse_gabor" "fine_gabor" "noise_disk"
    "coarse gabor" "fine gabor" "noise disk"
    5 3 10
    CHANCE_OF_FIXATION_CHANGE TARGET_LETTER DISTRACTOR_LETTERS
    RESPONSE_DELAY TARGET_PROB_INCREASE_THRESHOLD 0 0 practice.

(** The same arguments with an attention chunk of no frame. *)
Definition zero_chunk_params : Runner.params :=
  Runner.mkParams
    "attend" STANDARD_COLOUR RESPONSE_COLOUR CHANCE_OF_PRIMARY_ODDBALL
    "coarse_gabor" "fine_gabor" "noise_disk"
    "coarse gabor" "fine gabor" "noise disk"
    0 0 0
    CHANCE_OF_FIXATION_CHANGE TARGET_LETTER DISTRACTOR_LETTERS
    RESPONSE_DELAY TARGET_PROB_INCREASE_THRESHOLD 0 0 false.

(** A display at 100 Hz, a tracker that records, and no key press. *)
Definition quiet_world : Runner.world :=
  Runner.mkWorld (fun n => inject_Z (Z.of_nat n) / 100)%Q
                 (fun _ => [])
                 (fun _ => Runner.TRIAL_OK)
                 (fun n => inject_Z (Z.of_nat n))%Q.

(** The same, with the escape key pressed during the first frame. *)
Definition escape_world : Runner.world :=
  Runner.mkWorld (fun n => inject_Z (Z.of_nat n) / 100)%Q
                 (fun n => match n with
                           | O => [("escape", 1 # 200)]
                           | _ => []
                           end)
                 (fun _ => Runner.TRIAL_OK)
                 (fun n => inject_Z (Z.of_nat n))%Q.

(** The state in which [main.py] makes its first call of [run_block]:
    nothing drawn yet, the grey circle, the configured countdown. *)
Definition first_call (g : rng) : Runner.state :=
  Runner.enter g 0 0 0 0 [] grey_circle RESPONSE_DELAY.

End Scenarios.

(* ================================================================== *)
(** * What a run shows *)
(* ================================================================== *)

Module Observations.

Import Selector Runner.

Local Open Scope string_scope.
Local Open Scope list_scope.

(** What of a run is visible on the display or marks the end of the
    primary stimulus: a draw of the primary stimulus, a draw of the
    attention probe, a commit with its time, an offset marker with the
    time it carries. *)
Inductive vis : Type :=
| VStim (obj : stimulus)
| VProbe
| VFlip (t : Q)
| VOffset (t : option Q).

Definition visual (e : event) : list vis :=
  match e with
  | DrawStim obj => [VStim obj]
  | DrawFixation _ => [VProbe]
  | Flip t => [VFlip t]
  | SendMessage identifier m =>
      if String.eqb identifier "MAIN_STIM_OFFSET"
      then [VOffset (msg_time m)] else []
  | _ => []
  end.

Definition visual_trace (tr : list event) : list vis := flat_map visual tr.

Definition is_offset (v : vis) : bool :=
  match v with VOffset _ => true | _ => false end.

(** Number of offset markers. *)
Definition offsets (l : list vis) : nat := List.length (filter is_offset l).

(** Number of draws of the primary stimulus. *)
Definition stim_draws (l : list vis) : nat :=
  List.length (filter (fun v => match v with VStim _ => true | _ => false end)
                      l).

(** The frame of index [frame_index] of a stimulus phase, committed at
    time [t], in the words of the specification: the primary stimulus
    is drawn while [frame_index < main_stim_frames], the probe is drawn
    always, the frame is committed, and outside practice the commit of
    index [main_stim_frames] is followed by the offset marker with the
    time of that commit. *)
Definition expected_frame (p : params) (stim : option stimulus) (t : Q)
           (frame_index : Z) : list vis :=
  (if (frame_index <? main_stim_frames p)%Z
   then match stim with Some obj => [VStim obj] | None => [] end
   else [])
    ++ [VProbe; VFlip t]
    ++ (if negb (practice p) && (frame_index =? main_stim_frames p)%Z
        then [VOffset (Some t)] else []).

(** [n] successive frames of a stimulus phase, the first of index [i]
    and committed by the flip number [k]. *)
Fixpoint expected_frames (w : world) (p : params) (stim : option stimulus)
         (k : nat) (i : Z) (n : nat) : list vis :=
  match n with
  | O => []
  | S n' => expected_frame p stim (flip_time w k) i
              ++ expected_frames w p stim (S k) (i + 1)%Z n'
  end.

(** [n] successive frames that show the probe alone. *)
Fixpoint probe_frames (w : world) (k : nat) (n : nat) : list vis :=
  match n with
  | O => []
  | S n' => [VProbe; VFlip (flip_time w k)] ++ probe_frames w (S k) n'
  end.

(** The run went from [s] to [s'] committing [k] frames and showing
    [d]. *)
Definition shows (d : list vis) (k : nat) (s s' : state) : Prop :=
  flips s' = (flips s + k)%nat
  /\ visual_trace (trace s') = visual_trace (trace s) ++ d.

(** The same, with the stimulus variables left as they were. *)
Definition extends (d : list vis) (k : nat) (s s' : state) : Prop :=
  flips s' = (flips s + k)%nat
  /\ trial_stim s' = trial_stim s
  /\ oddball_name s' = oddball_name s
  /\ visual_trace (trace s') = visual_trace (trace s) ++ d.

(** An offset marker is due in every trial: the run is no practice and
    [main_stim_frames] is the index of a frame of the stimulus phase. *)
Definition offset_due (p : params) : bool :=
  negb (practice p)
  && ((0 <=? main_stim_frames p)%Z
      && (main_stim_frames p <? attention_frames p)%Z).

(** The trial type is one the runner knows. *)
Definition known_type (trial_type : string) : Prop :=
  trial_type = "s" \/ trial_type = "o".

(** The variables that the frame loop of a trial of type [trial_type]
    reads are bound. *)
Definition stimulus_bound (trial_type : string) (s : state) : Prop :=
  trial_stim s <> None /\ (trial_type = "s" \/ oddball_name s <> None).

(** Frames that one trial commits. *)
Definition frames_per_trial (p : params) : nat :=
  (Z.to_nat (attention_frames p)
   + Z.to_nat (interim_frames p / attention_frames p)
     * Z.to_nat (attention_frames p))%nat.

(** A trial of the end-to-end scenario whose first frame is the flip
    number [k]: five frames of stimulus phase, the stimulus on the first
    three, the offset marker after the fourth commit; then ten frames
    of interim. *)
Definition scenario_trial (w : world) (obj : stimulus) (k : nat)
  : list vis :=
  [VStim obj; VProbe; VFlip (flip_time w k);
   VStim obj; VProbe; VFlip (flip_time w (k + 1));
   VStim obj; VProbe; VFlip (flip_time w (k + 2));
   VProbe; VFlip (flip_time w (k + 3));
   VOffset (Some (flip_time w (k + 3)));
   VProbe; VFlip (flip_time w (k + 4))]
    ++ probe_frames w (k + 5) 10.

(** The five trials of the scenario: four standards and the common
    oddball. *)
Definition scenario_run (w : world) : list vis :=
  scenario_trial w "coarse_gabor" 0
    ++ scenario_trial w "coarse_gabor" 15
    ++ scenario_trial w "coarse_gabor" 30
    ++ scenario_trial w "coarse_gabor" 45
    ++ scenario_trial w "fine_gabor" 60.

End Observations.

(* ================================================================== *)
(** * Shapes of plans *)
(* ================================================================== *)

Module Shapes.

Import Planner.

Local Open Scope string_scope.
Local Open Scope list_scope.

(** A block of at least [min_standards] standards and one oddball. *)
Definition well_formed (min_standards : Z) (b : block) : Prop :=
  exists k, b = repeat "s" (Z.to_nat min_standards + k) ++ ["o"].

(** Number of trials of a plan. *)
Definition trials (blocks : list block) : nat :=
  fold_right (fun b acc => (List.length b + acc)%nat) 0%nat blocks.

End Shapes.

(* ================================================================== *)
(** * What a run hears and tells *)
(* ================================================================== *)

Module Hearing.

Import Selector Runner.

Local Open Scope string_scope.
Local Open Scope list_scope.

(** Presses of the space bar in one polled list. *)
Definition count_space (keys : list (string * Q)) : Z :=
  Z.of_nat (List.length
              (filter (fun key => String.eqb (fst key) "space") keys)).

(** Presses of the space bar in the [k] polls from poll number [a]. *)
Fixpoint spaces (w : world) (a : nat) (k : nat) : Z :=
  match k with
  | O => 0
  | S k' => count_space (keys_at w a) + spaces w (S a) k'
  end.

(** An event that stays on the display computer: a draw, a commit or an
    entry of the error log, but nothing sent to the tracker and no
    record of such a message. *)
Definition local_only (e : event) : Prop :=
  match e with
  | SendMessage _ _ | SendVariable _ _ | LogInfo _ _ => False
  | _ => True
  end.

(** The run went from [s] to [s'] committing [df] frames, polling the
    keys [dp] times and asking the tracker for its status [dq] times;
    the response count grew by the space presses polled; in practice no
    clock was read and only local events were added. *)
Definition moved (p : params) (w : world) (df dp dq : nat)
           (s s' : state) : Prop :=
  flips s' = (flips s + df)%nat
  /\ polls s' = (polls s + dp)%nat
  /\ queries s' = (queries s + dq)%nat
  /\ n_attention_responses s'
     = (n_attention_responses s + spaces w (polls s) dp)%Z
  /\ (practice p = true -> readings s' = readings s)
  /\ exists d, trace s' = trace s ++ d
               /\ (practice p = true -> Forall local_only d).

(** Status queries per frame. *)
Definition queries_per_frame (p : params) : nat :=
  if practice p then 0%nat else 1%nat.

(** The variables of the attention task. *)
Definition attention (s : state) : Z * Z * fixation :=
  (n_attention_targets s, delay_countdown s, fixation_obj s).

End Hearing.

(* ================================================================== *)
(** * Key presses for the end-to-end runs *)
(* ================================================================== *)

Module Keyboards.

Import Runner.

Local Open Scope string_scope.
Local Open Scope list_scope.

(** A display at 100 Hz, a tracker that records, the space bar pressed
    during the frames 3 and 20, and the keys [a] and space during the
    frame 7. *)
Definition tapping_world : world :=
  mkWorld (fun n => inject_Z (Z.of_nat n) / 100)%Q
          (fun n => match n with
                    | 3%nat => [("space", 7 # 200)]
                    | 7%nat => [("a", 15 # 200); ("space", 31 # 400)]
                    | 20%nat => [("space", 41 # 200)]
                    | _ => []
                    end)
          (fun _ => TRIAL_OK)
          (fun n => inject_Z (Z.of_nat n))%Q.

End Keyboards.

(* ================================================================== *)
(** * Trials on which a target may appear *)
(* ================================================================== *)

Module Eligibility.

Import Runner.

(** Calls of the selector in one trial: one before the stimulus phase
    and one for every interim chunk. *)
Definition selections_per_trial (p : params) : nat :=
  S (Z.to_nat (interim_frames p / attention_frames p)).

(** [trial_counter in numpy.arange(1, block_len - 2)] *)
Definition eligible (block_len trial_counter : Z) : bool :=
  (1 <=? trial_counter) && (trial_counter <? block_len - 2).

(** Eligible trials among the [n] trials from [trial_counter] on. *)
Fixpoint eligible_trials (block_len trial_counter : Z) (n : nat) : nat :=
  match n with
  | O => 0
  | S n' =>
      (if eligible block_len trial_counter then 1 else 0)
      + eligible_trials block_len (trial_counter + 1) n'
  end.

(** From [s] to [s'] the selector was called [k] times on the trial
    [trial_counter]: the target count grew by at most [k], and by
    nothing on a trial that is not eligible, where the countdown lost
    one for every call. *)
Definition counted (block_len trial_counter : Z) (k : nat)
           (s s' : state) : Prop :=
  (n_attention_targets s <= n_attention_targets s'
   <= n_attention_targets s
      + (if eligible block_len trial_counter then Z.of_nat k else 0))
  /\ (eligible block_len trial_counter = false ->
      delay_countdown s' = delay_countdown s - Z.of_nat k).

End Eligibility.

(* ================================================================== *)
(** * Order of the sessions (main.py) *)
(* ================================================================== *)

Module SessionPlan.

Local Open Scope string_scope.
Local Open Scope list_scope.

(** Line 97. *)
Definition num_sessions (sessions_per_condition : Z) : Z :=
  sessions_per_condition * 2 * 2.

(** Lines 114 and 122: the two lists before they are shuffled. *)
Definition ses_options : list (list string) :=
  [["attend"; "attend"]; ["divert"; "divert"]].

Definition oddball_types : list string := ["fine gabor"; "noise disk"].

(** [l[i]] *)
Definition index {A : Type} (l : list A) (i : nat) : run A :=
  match nth_error l i with
  | Some a => Done a
  | None => Raises IndexError
  end.

(** Line 117, from the shuffled [ses_options]. *)
Definition ses_order (ses_options : list (list string)) : list string :=
  List.concat ses_options.

(** Line 125, from the shuffled [oddball_types]. *)
Definition oddball_order (oddball_types : list string)
  : run (list string) :=
  let* a := index oddball_types 0 in
  let* b := index oddball_types 1 in
  let* c := index oddball_types 0 in
  let* d := index oddball_types 1 in
  Done [a; b; c; d].

(** Line 385: the sessions that the main loop runs, each with its
    condition and its common oddball. *)
Definition sessions (ses_options : list (list string))
           (oddball_types : list string) : run (list (string * string)) :=
  let* oddball_order := oddball_order oddball_types in
  Done (combine (ses_order ses_options) oddball_order).

(** Lines 385 and 574: the loop over the sessions. Each session looks
    up its blocks in [run_sessions] by its number; what the session
    does with them is left out. *)
Fixpoint session_loop (run_sessions : list (list (list string)))
         (session_counter : nat) (todo : list (string * string))
  : run (list (string * string * list (list string))) :=
  match todo with
  | [] => Done []
  | (session_condition, main_oddball) :: rest =>
      let* blocks_in_session := index run_sessions session_counter in
      let* later := session_loop run_sessions (S session_counter) rest in
      Done ((session_condition, main_oddball, blocks_in_session) :: later)
  end.

(** The sessions that the main loop runs, from the two shuffled lists
    and the plans made for [range(num_sessions)]. *)
Definition main_sessions (ses_options : list (list string))
           (oddball_types : list string)
           (run_sessions : list (list (list string)))
  : run (list (string * string * list (list string))) :=
  let* todo := sessions ses_options oddball_types in
  session_loop run_sessions 0 todo.

(** Lines 390-397: the names of the common and of the rare oddball of
    a session; no assignment for an unknown type. *)
Definition assign_oddballs (main_oddball : string)
  : option (string * string) :=
  if String.eqb main_oddball "fine gabor"
  then Some ("fine gabor", "noise disk")
  else if String.eqb main_oddball "noise disk"
       then Some ("noise disk", "fine gabor")
       else None.

End SessionPlan.

(* ================================================================== *)
(** * Stimulus images (generate_main_stimuli.py, stimuli_utils.py) *)
(* ================================================================== *)

Module Stimuli.

Import FrameClock Selector.

Local Open Scope string_scope.
Local Open Scope list_scope.

(** A call returns or raises [ValueError]. *)
Inductive outcome (A : Type) : Type :=
| Ok (a : A)
| ValueError (message : string).

Arguments Ok {A} a.
Arguments ValueError {A} message.

Definition FINE_GABOR_FILENAME : string := "fine_gabor".
Definition COARSE_GABOR_FILENAME : string := "coarse_gabor".
Definition NOISE_DISK_FILENAME : string := "noise_disk".
Definition FREQ_COARSE_CPD : Q := 1.
Definition FREQ_FINE_CPD : Q := 2.

Definition allowed_types : list string :=
  ["gabor_coarse"; "gabor_fine"; "noise_disk"].

(** [needle in hay] on strings. *)
Fixpoint contains (needle hay : string) : bool :=
  String.prefix needle hay
  || match hay with
     | EmptyString => false
     | String _ rest => contains needle rest
     end.

(** The default file name: one of the configured names, or the name
    formatted from the size and the frequency. *)
Inductive filename : Type :=
| Configured (name : string)
| Formatted (size_deg freq_cpd : Q).

(** What the chain of tests on [stim_type] binds: [freq_cpd] (not bound
    for the noise disk) and [default_filename]. *)
Record kind : Type := mkKind {
  freq_cpd : option Q;
  default_filename : filename
}.

Definition or_default (gabor_freq_cpd : option Q) (default : Q) : Q :=
  match gabor_freq_cpd with
  | None => default
  | Some f => f
  end.

(** The tests on [stim_type] that open [generate_stimulus], the same in
    both files. *)
Definition select_type (stim_type : string) (size_deg : Q)
           (gabor_freq_cpd : option Q) : outcome kind :=
  if negb (existsb (String.eqb stim_type) allowed_types) then
    ValueError
      "stim_type must be one of: ['gabor_coarse', 'gabor_fine', 'noise_disk']"
  else if String.eqb stim_type "gabor_coarse" then
    Ok (mkKind (Some (or_default gabor_freq_cpd FREQ_COARSE_CPD))
               (Configured COARSE_GABOR_FILENAME))
  else if String.eqb stim_type "gabor_fine" then
    Ok (mkKind (Some (or_default gabor_freq_cpd FREQ_FINE_CPD))
               (Configured FINE_GABOR_FILENAME))
  else
    match contains "gabor" stim_type, gabor_freq_cpd with
    | true, Some f => Ok (mkKind (Some f) (Formatted size_deg f))
    | _, _ =>
        if String.eqb stim_type "noise_disk" then
          Ok (mkKind None (Configured NOISE_DISK_FILENAME))
        else
          ValueError "Invalid configuration for stim_type and gabor_freq_cpd."
    end.

(** The side of the image in pixels, made odd. *)
Definition size_pix (size_deg pixels_per_degree : Q) : Z :=
  let size_pix := py_round (size_deg * pixels_per_degree) in
  if (size_pix mod 2 =? 0)%Z then size_pix + 1 else size_pix.

(** [np.arange(size_pix) - size_pix // 2] *)
Definition axis_pix (size_pix : Z) : list Z :=
  map (fun i => i - size_pix / 2) (arange 0 size_pix).

End Stimuli.

(* ================================================================== *)
(** * Python floats (IEEE 754 binary64) *)
(* ================================================================== *)

Module Float.

(** A Python [float] is a binary64 number: zero, infinity, NaN, or
    [(-1)^s * m * 2^e]. Sums, differences, products and quotients are
    the correctly rounded ones (to nearest, ties to even) of the
    standard library's specification at precision 53. *)
Definition float : Type := spec_float.
Definition prec : Z := 53.
Definition emax : Z := 1024.

Definition fadd (x y : float) : float := SFadd prec emax x y.
Definition fsub (x y : float) : float := SFsub prec emax x y.
Definition fmul (x y : float) : float := SFmul prec emax x y.
Definition fdiv (x y : float) : float := SFdiv prec emax x y.

(** [x < y], [x <= y] and [x == y]: false as soon as one side is
    NaN. *)
Definition flt (x y : float) : bool := SFltb x y.
Definition fle (x y : float) : bool := SFleb x y.
Definition feq (x y : float) : bool := SFeqb x y.

Definition zero : float := S754_zero false.
Definition nan : float := S754_nan.

(** The float of an integer constant of the program. *)
Definition const (n : Z) : float := binary_normalize prec emax n 0 false.

(** The float that the decimal literal of value [n / d] denotes: the
    nearest float, which is the rounded quotient of the two
    integers. *)
Definition literal (n d : Z) : float := fdiv (const n) (const d).

(** The conversion of a Python int to a float, as in [n * x]: the
    nearest float, or [OverflowError] when the int is too large. *)
Definition of_int (n : Z) : run float :=
  match const n with
  | S754_infinity _ => Raises OverflowError
  | x => Done x
  end.

(** The number that a finite float stands for. *)
Definition rational (s : bool) (m : positive) (e : Z) : Q :=
  inject_Z (cond_Zopp s (Zpos m)) * Qpower 2 e.

Definition value (x : float) : option Q :=
  match x with
  | S754_zero _ => Some 0%Q
  | S754_finite s m e => Some (rational s m e)
  | _ => None
  end.

(** Integer part towards zero. *)
Definition truncate (q : Q) : Z :=
  if Qle_bool 0 q then Qfloor q else Qceiling q.

(** A float made an int by the rounding [rounding] of its value:
    [ValueError] for NaN and [OverflowError] for an infinity. *)
Definition to_int (rounding : Q -> Z) (x : float) : run Z :=
  match x with
  | S754_nan => Raises ValueError
  | S754_infinity _ => Raises OverflowError
  | S754_zero _ => Done (rounding 0%Q)
  | S754_finite s m e => Done (rounding (rational s m e))
  end.

(** [math.floor(x)], [math.ceil(x)], [round(x)] and [int(x)]. *)
Definition floor (x : float) : run Z := to_int Qfloor x.
Definition ceil (x : float) : run Z := to_int Qceiling x.
Definition round (x : float) : run Z := to_int FrameClock.py_round x.
Definition int (x : float) : run Z := to_int truncate x.

(** C's [floor] on floats. *)
Definition ffloor (x : float) : float :=
  match x with
  | S754_finite s m e =>
      let n := Qfloor (rational s m e) in
      if n =? 0 then S754_zero s else const n
  | _ => x
  end.

(** C's [fmod]: the remainder of the division of the magnitudes, with
    the sign of [x]; it is exact. *)
Definition fmod (x y : float) : float :=
  match x, y with
  | S754_nan, _ | _, S754_nan => S754_nan
  | S754_infinity _, _ => S754_nan
  | _, S754_zero _ => S754_nan
  | S754_zero _, _ => x
  | S754_finite _ _ _, S754_infinity _ => x
  | S754_finite sx mx ex, S754_finite sy my ey =>
      let e := Z.min ex ey in
      let a := Zpos mx * 2 ^ (ex - e) in
      let b := Zpos my * 2 ^ (ey - e) in
      match a mod b with
      | 0 => S754_zero sx
      | r => binary_normalize prec emax (cond_Zopp sx r) e false
      end
  end.

(** A float in a C condition: true unless it is a zero. *)
Definition nonzero (x : float) : bool := negb (feq x zero).

(** [copysign(0.0, x)] *)
Definition copysign_zero (x : float) : float :=
  match x with
  | S754_zero s | S754_infinity s | S754_finite s _ _ => S754_zero s
  | S754_nan => S754_zero false
  end.

(** [vx // wx] on floats, as CPython computes it: the quotient of
    [vx - fmod(vx, wx)] by [wx], corrected for the sign of the
    remainder and snapped to the nearest integral float. *)
Definition floordiv (vx wx : float) : run float :=
  if feq wx zero then Raises ZeroDivisionError
  else
    let md := fmod vx wx in
    let div := fdiv (fsub vx md) wx in
    let div :=
      if nonzero md && negb (Bool.eqb (flt wx zero) (flt md zero))
      then fsub div (const 1)
      else div in
    if nonzero div then
      let floordiv := ffloor div in
      if flt (literal 1 2) (fsub div floordiv)
      then Done (fadd floordiv (const 1))
      else Done floordiv
    else Done (copysign_zero (fdiv vx wx)).

End Float.

(* ================================================================== *)
(** * Frame clock on floats (calculate_frame_periods.py) *)
(* ================================================================== *)

Module FloatFrameClock.

Import Float.

(** [get_nearest_frame(desired_duration_sec, fps)] on floats; an int
    argument stands for the float it converts to. *)
Definition get_nearest_frame (desired_duration_sec fps : float) : run Z :=
  if fle fps zero then Done 0
  else if flt desired_duration_sec zero then Done 0
  else
    let ideal_frames := fmul desired_duration_sec fps in
    let* n_frames := round ideal_frames in
    Done n_frames.

End FloatFrameClock.

(* ================================================================== *)
(** * Practice gate on floats (run_practice.py) *)
(* ================================================================== *)

Module FloatPractice.

Import Float.

(** [floor(expected_responses * accepted_response_accuracy)] *)
Definition lower_bound (expected_responses : Z)
           (accepted_response_accuracy : float) : run Z :=
  let* e := of_int expected_responses in
  floor (fmul e accepted_response_accuracy).

(** [ceil(expected_responses * (2 - accepted_response_accuracy))] *)
Definition upper_bound (expected_responses : Z)
           (accepted_response_accuracy : float) : run Z :=
  let* e := of_int expected_responses in
  ceil (fmul e (fsub (const 2) accepted_response_accuracy)).

(** Lines 86-111 of [run_practice]. *)
Definition practice_gate (practice_condition : string)
           (n_targets n_responses : Z) (accepted_response_accuracy : float)
  : run bool :=
  let* expected_responses :=
    Practice.expected_responses practice_condition n_targets in
  let* lower_bound := lower_bound expected_responses
                                  accepted_response_accuracy in
  let* upper_bound := upper_bound expected_responses
                                  accepted_response_accuracy in
  if (lower_bound <=? n_responses) && (n_responses <=? upper_bound)
  then Done true
  else Done false.

End FloatPractice.

(* ================================================================== *)
(** * Session planner on floats (plan_blocks_and_sessions.py) *)
(* ================================================================== *)

Module FloatPlanner.

Import Float Planner.

(** [len(block) * trial_duration] *)
Definition block_duration (trial_duration : float) (b : block)
  : run float :=
  let* n := of_int (Z.of_nat (List.length b)) in
  Done (fmul n trial_duration).

(** Phase 1 of [populate_session]: random blocks are accepted while
    the float total stays within the budget. *)
Fixpoint phase1 (max_ses_seconds trial_duration : float)
         (min_standards : Z) (chance_of_oddball : Q) (fuel bfuel : nat)
         (session_blocks : list block) (estimated_duration : float)
         (g : rng) : run (list block * float * rng) :=
  match fuel with
  | O => Timeout
  | S fuel' =>
      let* '(new_block, g') :=
        create_block min_standards chance_of_oddball bfuel g in
      let* block_duration := block_duration trial_duration new_block in
      let potential_total_duration :=
        fadd estimated_duration block_duration in
      if fle potential_total_duration max_ses_seconds
      then phase1 max_ses_seconds trial_duration min_standards
                  chance_of_oddball fuel' bfuel
                  (session_blocks ++ [new_block])
                  (fadd estimated_duration block_duration) g'
      else Done (session_blocks, estimated_duration, g')
  end.

(** [populate_session] on floats. [estimated_duration] starts as the
    int 0, which stands for the float 0.0; [fuel] bounds both
    loops. *)
Definition populate_session (max_session_time_min attention_duration_sec
           interim_duration_sec : float) (min_standards : Z)
           (chance_of_oddball : Q) (fuel : nat) (g : rng)
  : run (list block * float * rng) :=
  let max_ses_seconds := fmul max_session_time_min (const 60) in
  let trial_duration := fadd attention_duration_sec interim_duration_sec in
  let* '(session_blocks, estimated_duration, g') :=
    phase1 max_ses_seconds trial_duration min_standards chance_of_oddball
           fuel fuel [] zero g in
  let remaining_time := fsub max_ses_seconds estimated_duration in
  let* quotient := floordiv remaining_time trial_duration in
  let* max_final_block_length := int quotient in
  let min_valid_block_length := min_standards + 1 in
  if min_valid_block_length <=? max_final_block_length
  then
    let num_standards_in_final := max_final_block_length - 1 in
    let final_block := filler_block num_standards_in_final in
    let* final_duration := block_duration trial_duration final_block in
    Done (session_blocks ++ [final_block],
          fadd estimated_duration final_duration, g')
  else Done (session_blocks, estimated_duration, g').




End FloatPlanner.

(* ================================================================== *)
(** * Facts about the helpers *)
(* ================================================================== *)

Lemma Done_inj {A : Type} (a b : A) : Done a = Done b -> a = b.
Proof. intros H. now inversion H. Qed.

Lemma Qltb_lt (x y : Q) : Qltb x y = true <-> (x < y)%Q.
Proof.
  unfold Qltb. rewrite negb_true_iff. split.
  - intros H. apply Qnot_le_lt. intros Hle.
    apply Qle_bool_iff in Hle. congruence.
  - intros H. destruct (Qle_bool y x) eqn:E; [|reflexivity].
    apply Qle_bool_iff in E. exfalso. eapply Qlt_not_le; eauto.
Qed.

Lemma Qltb_ge (x y : Q) : Qltb x y = false <-> (y <= x)%Q.
Proof.
  unfold Qltb. rewrite negb_false_iff. apply Qle_bool_iff.
Qed.

Lemma Qle_bool_gt (x y : Q) : Qle_bool x y = false <-> (y < x)%Q.
Proof.
  rewrite <- Qltb_lt. unfold Qltb. now rewrite negb_true_iff.
Qed.

Lemma inject_Z_succ (z : Z) : (inject_Z (z + 1) == inject_Z z + 1)%Q.
Proof. now rewrite inject_Z_plus. Qed.

Lemma Qfloor_bounds (x : Q) :
  (inject_Z (Qfloor x) <= x)%Q /\ (x < inject_Z (Qfloor x) + 1)%Q.
Proof.
  split; [apply Qfloor_le|].
  rewrite <- inject_Z_succ. apply Qlt_floor.
Qed.

Lemma Qceiling_bounds (x : Q) :
  (inject_Z (Qceiling x) - 1 < x)%Q /\ (x <= inject_Z (Qceiling x))%Q.
Proof.
  split; [|apply Qle_ceiling].
  pose proof (Qceiling_lt x) as H.
  unfold Z.sub in H. rewrite inject_Z_plus in H.
  change (inject_Z (- (1))) with (-1 # 1)%Q in H. lra.
Qed.

Lemma Qfloor_nonneg (x : Q) : (0 <= x)%Q -> 0 <= Qfloor x.
Proof.
  intros H. destruct (Qfloor_bounds x) as [_ Hhi].
  assert (inject_Z (-1) < inject_Z (Qfloor x))%Q as B.
  { change (inject_Z (-1)) with (-1 # 1)%Q. lra. }
  rewrite <- Zlt_Qlt in B. lia.
Qed.

Lemma Qfloor_zero (x : Q) : (0 <= x)%Q -> (x < 1)%Q -> Qfloor x = 0.
Proof.
  intros H0 H1. pose proof (Qfloor_nonneg x H0) as Hn.
  destruct (Qfloor_bounds x) as [Hlo _].
  assert (inject_Z (Qfloor x) < inject_Z 1)%Q as A.
  { change (inject_Z 1) with 1%Q. lra. }
  rewrite <- Zlt_Qlt in A. lia.
Qed.

(* ================================================================== *)
(** * Frame clock *)
(* ================================================================== *)

Module FrameClockFacts.

Import FrameClock.


(** Below one half the rounding is to zero. *)
Lemma py_round_small (x : Q) :
  (0 <= x)%Q -> (x < 1 # 2)%Q -> py_round x = 0.
Proof.
  intros H0 H1. unfold py_round.
  assert (Hf : Qfloor x = 0) by (apply Qfloor_zero; lra).
  rewrite Hf.
  assert (E : Qcompare (x - inject_Z 0) (1 # 2) = Lt).
  { apply -> Qlt_alt. change (inject_Z 0) with 0%Q. lra. }
  now rewrite E.
Qed.

Lemma get_nearest_frame_bad_fps (d fps : Q) :
  (fps <= 0)%Q -> get_nearest_frame d fps = 0.
Proof.
  intros H. unfold get_nearest_frame.
  apply Qle_bool_iff in H. now rewrite H.
Qed.

Lemma get_nearest_frame_negative (d fps : Q) :
  (d < 0)%Q -> get_nearest_frame d fps = 0.
Proof.
  intros H. unfold get_nearest_frame.
  destruct (Qle_bool fps 0); [reflexivity|].
  apply Qltb_lt in H. now rewrite H.
Qed.

End FrameClockFacts.

(* ================================================================== *)
(** * Practice gate *)
(* ================================================================== *)

Module PracticeFacts.

Import Practice.


End PracticeFacts.

(* ================================================================== *)
(** * Block planner: the shape of a block *)
(* ================================================================== *)

Module PlannerFacts.

Import Planner Scenarios.

Local Open Scope string_scope.
Local Open Scope list_scope.

Lemma uniform_skip (k : nat) (g : rng) : uniform (skip k g) = uniform g.
Proof.
  revert g. induction k as [|k IH]; intros g; simpl; [reflexivity|].
  now rewrite IH.
Qed.

Lemma pos_skip (k : nat) (g : rng) : pos (skip k g) = (pos g + k)%nat.
Proof.
  revert g. induction k as [|k IH]; intros g; simpl; [lia|].
  rewrite IH. simpl. lia.
Qed.

Lemma recurrent_skip (p : Q) (k : nat) (g : rng) :
  recurrent p g -> recurrent p (skip k g).
Proof. unfold recurrent. now rewrite uniform_skip. Qed.

Lemma standards_then_oddball_length (n : nat) :
  List.length (standards_then_oddball n) = S n.
Proof.
  unfold standards_then_oddball.
  rewrite length_app, repeat_length. simpl. lia.
Qed.

Lemma standards_then_oddball_nth (n i : nat) :
  nth_error (standards_then_oddball n) i
  = if (i <? n)%nat then Some "s"
    else if (i =? n)%nat then Some "o" else None.
Proof.
  unfold standards_then_oddball.
  destruct (i <? n)%nat eqn:E.
  - apply Nat.ltb_lt in E.
    rewrite nth_error_app1 by (now rewrite repeat_length).
    apply nth_error_repeat. exact E.
  - apply Nat.ltb_ge in E.
    rewrite nth_error_app2 by (now rewrite repeat_length).
    rewrite repeat_length.
    destruct (i =? n)%nat eqn:E2.
    + apply Nat.eqb_eq in E2. subst. now rewrite Nat.sub_diag.
    + apply Nat.eqb_neq in E2.
      destruct (i - n)%nat as [|j] eqn:E3; [lia|].
      simpl. now destruct j.
Qed.

Lemma standards_then_oddball_count (n : nat) :
  count_occ string_dec (standards_then_oddball n) "o" = 1%nat.
Proof.
  unfold standards_then_oddball. rewrite count_occ_app.
  replace (count_occ string_dec (repeat "s" n) "o") with 0%nat.
  - reflexivity.
  - symmetry. apply count_occ_not_In. intros H.
    apply repeat_spec in H. discriminate.
Qed.

(** Whatever the loop returns is its start followed by standards and
    one oddball. *)
Lemma create_block_loop_done (chance : Q) (fuel : nat) :
  forall (blk : block) (g : rng) (b : block) (g' : rng),
    create_block_loop chance fuel blk g = Done (b, g') ->
    exists k, b = blk ++ standards_then_oddball k.
Proof.
  induction fuel as [|fuel IH]; intros blk g b g' H; simpl in H.
  - discriminate.
  - destruct (Qltb (uniform g (pos g)) chance).
    + inversion H; subst. now exists 0%nat.
    + apply IH in H. destruct H as [k ->]. exists (S k).
      unfold standards_then_oddball. simpl.
      now rewrite <- app_assoc.
Qed.

(** The loop raises nothing. *)
Lemma create_block_loop_no_exception (chance : Q) (fuel : nat) :
  forall (blk : block) (g : rng) (e : exn),
    create_block_loop chance fuel blk g <> Raises e.
Proof.
  induction fuel as [|fuel IH]; intros blk g e; simpl.
  - discriminate.
  - destruct (Qltb (uniform g (pos g)) chance); [discriminate|apply IH].
Qed.

(** If a draw below the chance lies [d] draws ahead, the loop returns
    after at most [d + 1] draws, and the same block for every larger
    bound on its iterations. *)
Lemma create_block_loop_ends (chance : Q) (d : nat) :
  forall (g : rng),
    (uniform g (pos g + d) < chance)%Q ->
    exists k, (k <= d)%nat /\
      forall (fuel : nat) (blk : block), (k < fuel)%nat ->
        create_block_loop chance fuel blk g
        = Done (blk ++ standards_then_oddball k, skip (S k) g).
Proof.
  induction d as [|d IH]; intros g Hd.
  - exists 0%nat. split; [lia|]. intros [|fuel] blk Hf; [lia|].
    simpl. rewrite Nat.add_0_r in Hd. apply Qltb_lt in Hd.
    now rewrite Hd.
  - destruct (Qltb (uniform g (pos g)) chance) eqn:E.
    + exists 0%nat. split; [lia|]. intros [|fuel] blk Hf; [lia|].
      simpl. now rewrite E.
    + destruct (IH (advance g)) as (k & Hk & Hrun).
      { change (uniform g (S (pos g) + d) < chance)%Q.
        now replace (S (pos g) + d)%nat with (pos g + S d)%nat by lia. }
      exists (S k). split; [lia|]. intros [|fuel] blk Hf; [lia|].
      simpl. rewrite E. rewrite Hrun by lia.
      unfold standards_then_oddball. simpl.
      now rewrite <- app_assoc.
Qed.

Lemma create_block_ends (min_standards : Z) (chance : Q) (g : rng) :
  recurrent chance g ->
  exists k, forall fuel, (k < fuel)%nat ->
    create_block min_standards chance fuel g
    = Done (standards_then_oddball (Z.to_nat min_standards + k),
            skip (S k) g).
Proof.
  intros Hrec. destruct (Hrec (pos g)) as (m & Hm & Hlt).
  destruct (create_block_loop_ends chance (m - pos g) g) as (k & _ & Hrun).
  { now replace (pos g + (m - pos g))%nat with m by lia. }
  exists k. intros fuel Hf. unfold create_block.
  rewrite Hrun by exact Hf. unfold standards_then_oddball.
  now rewrite app_assoc, <- repeat_app.
Qed.

Lemma create_block_done (min_standards : Z) (chance : Q) (fuel : nat)
      (g : rng) (b : block) (g' : rng) :
  create_block min_standards chance fuel g = Done (b, g') ->
  exists k, b = standards_then_oddball (Z.to_nat min_standards + k).
Proof.
  unfold create_block. intros H.
  apply create_block_loop_done in H. destruct H as [k ->].
  exists k. unfold standards_then_oddball.
  now rewrite app_assoc, <- repeat_app.
Qed.

(** C5. For [min_standards >= 0] and [0 < oddball_chance <= 1], what
    [create_block] returns starts with [min_standards] standards, ends
    with an oddball that is its only oddball, and has no oddball before
    index [min_standards]. It raises nothing, and it does return as
    soon as the random source yields a draw below the chance. *)
Theorem create_block_shape (min_standards : Z) (oddball_chance : Q) :
  0 <= min_standards ->
  (0 < oddball_chance)%Q -> (oddball_chance <= 1)%Q ->
  (forall fuel g b g',
      create_block min_standards oddball_chance fuel g = Done (b, g') ->
      (forall i, (i < Z.to_nat min_standards)%nat ->
                 nth_error b i = Some "s")
      /\ nth_error b (List.length b - 1) = Some "o"
      /\ count_occ string_dec b "o" = 1%nat
      /\ (forall i, nth_error b i = Some "o" ->
                    i = (List.length b - 1)%nat
                    /\ min_standards <= Z.of_nat i))
  /\ (forall fuel g e,
         create_block min_standards oddball_chance fuel g <> Raises e)
  /\ (forall g, recurrent oddball_chance g ->
                exists fuel b g',
                  create_block min_standards oddball_chance fuel g
                  = Done (b, g')).
Proof.
  intros Hms Hpos Hle. split; [|split].
  - intros fuel g b g' H.
    apply create_block_done in H. destruct H as [k ->].
    rewrite standards_then_oddball_length.
    split; [|split; [|split]].
    + intros i Hi. rewrite standards_then_oddball_nth.
      now replace (i <? Z.to_nat min_standards + k)%nat with true
        by (symmetry; apply Nat.ltb_lt; lia).
    + rewrite standards_then_oddball_nth.
      replace (S (Z.to_nat min_standards + k) - 1)%nat
        with (Z.to_nat min_standards + k)%nat by lia.
      now rewrite Nat.ltb_irrefl, Nat.eqb_refl.
    + apply standards_then_oddball_count.
    + intros i Hi. rewrite standards_then_oddball_nth in Hi.
      destruct (i <? _)%nat; [discriminate|].
      destruct (i =? _)%nat eqn:E; [|discriminate].
      apply Nat.eqb_eq in E. lia.
  - intros fuel g e. apply create_block_loop_no_exception.
  - intros g Hrec.
    destruct (create_block_ends min_standards oddball_chance g Hrec)
      as (k & Hk).
    exists (S k). eexists. eexists. apply Hk. lia.
Qed.

Lemma create_block_shape_witness :
  create_block 2 (1 # 5) 10 late_hit
  = Done (["s"; "s"; "s"; "s"; "s"; "o"], skip 4 late_hit)
  /\ count_occ string_dec ["s"; "s"; "s"; "s"; "s"; "o"] "o" = 1%nat.
Proof.
  destruct (create_block_shape 2 (1 # 5)) as (Hshape & _);
    [lia | reflexivity | discriminate |].
  assert (create_block 2 (1 # 5) 10 late_hit
          = Done (["s"; "s"; "s"; "s"; "s"; "o"], skip 4 late_hit)) as H
      by reflexivity.
  split; [exact H|].
  exact (proj1 (proj2 (proj2 (Hshape _ _ _ _ H)))).
Defined.

End PlannerFacts.

(* ================================================================== *)
(** * Attention stimulus selector *)
(* ================================================================== *)

Module SelectorFacts.

Import Selector Config Scenarios.

Local Open Scope string_scope.
Local Open Scope list_scope.

Lemma idx_in_In (i : Z) (idxs : list Z) :
  idx_in i idxs = true <-> In i idxs.
Proof.
  unfold idx_in. rewrite existsb_exists. split.
  - intros (x & Hx & E). apply Z.eqb_eq in E. now subst.
  - intros H. exists i. split; [exact H|apply Z.eqb_refl].
Qed.

Lemma arange_In (a b i : Z) : In i (arange a b) <-> (a <= i < b)%Z.
Proof.
  unfold arange. rewrite in_map_iff. split.
  - intros (k & <- & Hk). apply in_seq in Hk. lia.
  - intros H. exists (Z.to_nat (i - a)). split; [lia|].
    apply in_seq. lia.
Qed.

(** The candidates, written out. *)
Lemma candidate_letters_spec (allow_target : bool) (target : string)
      (distractors : list string) (threshold countdown : Z) :
  candidate_letters allow_target target distractors threshold countdown
  = distractors
      ++ (if allow_target
          then target :: (if (countdown <=? threshold)%Z
                          then [target] else [])
          else []).
Proof.
  unfold candidate_letters.
  destruct allow_target; [|now rewrite app_nil_r].
  destruct (countdown <=? threshold)%Z; [|reflexivity].
  now rewrite <- app_assoc.
Qed.

(** The gate is open on an eligible trial whose countdown is below
    zero, and only then. *)
Lemma allow_target_for_spec (trial_idx : Z) (idxs : list Z)
      (countdown : Z) :
  allow_target_for trial_idx idxs countdown = true
  <-> In trial_idx idxs /\ (countdown < 0)%Z.
Proof.
  unfold allow_target_for. rewrite <- idx_in_In.
  destruct (idx_in trial_idx idxs); simpl.
  - destruct (0 <=? countdown)%Z eqn:E.
    + apply Z.leb_le in E. split; [discriminate|]. intros [_ H]. lia.
    + apply Z.leb_gt in E. split; [now split|reflexivity].
  - split; [discriminate|]. intros [H _]. discriminate.
Qed.

(** The divert branch passes the gate to [get_letter]: it chooses
    among the candidates of the gate, less the letter on show. *)
Lemma divert_chooses_from_candidates
      (idx : Z) (idxs : list Z) (fobj : fixation) (nc ac : colour)
      (ch : Q) (target : string) (distractors : list string)
      (n drd cd thr : Z) (g : rng) (x : selection) (g' : rng) :
  determine_attention_stimulus "divert" idx idxs fobj nc ac ch target
                               distractors n drd cd thr g = Done (x, g') ->
  In (sel_letter x)
     (candidate_letters (allow_target_for idx idxs cd) target distractors
                        thr cd).
Proof.
  unfold determine_attention_stimulus. cbn [String.eqb Ascii.eqb Bool.eqb].
  cbv beta iota. unfold get_letter, choice; cbn [text].
  set (cands := candidate_letters _ _ _ _ _).
  destruct (str_in (Some (Selector.text fobj)) cands) eqn:Ein.
  - destruct (nth_error _ _) as [letter|] eqn:En; cbn [bind];
      [|discriminate].
    apply nth_error_In in En.
    assert (In letter cands) as Hin.
    { clear - En. cbn [list_remove] in En.
      induction cands as [|h t IH]; simpl in En; [contradiction|].
      destruct (String.eqb h (Selector.text fobj)).
      - now right.
      - destruct En as [->|En]; [now left|right; auto]. }
    destruct (String.eqb _ target); intros H; inversion H; subst;
      exact Hin.
  - destruct (nth_error _ _) as [letter|] eqn:En; cbn [bind];
      [|discriminate].
    apply nth_error_In in En.
    destruct (String.eqb _ target); intros H; inversion H; subst;
      exact En.
Qed.

(** The divert branch chooses among its candidates. *)
Lemma divert_chooses_among
      (idx : Z) (idxs : list Z) (fobj : fixation) (nc ac : colour)
      (ch : Q) (target : string) (distractors : list string)
      (n drd cd thr : Z) (g : rng) :
  determine_attention_stimulus "divert" idx idxs fobj nc ac ch target
                               distractors n drd cd thr g
  = choose_among
      (distractors
         ++ (if allow_target_for idx idxs cd
             then target :: (if (cd <=? thr)%Z then [target] else [])
             else []))
      fobj target n cd g.
Proof.
  unfold determine_attention_stimulus, choose_among, get_letter.
  cbn [String.eqb Ascii.eqb Bool.eqb]. cbv beta iota zeta.
  rewrite candidate_letters_spec.
  set (cands := distractors ++ _).
  destruct (choice _ g) as [[letter g']| |]; reflexivity.
Qed.

(** With the shown letter not among the candidates, the raw integer
    [len(distractor_letters)] picks the first copy of the target. *)
Lemma choose_among_first_target
      (distractors copies : list string) (fobj : fixation)
      (target : string) (n cd : Z) (g : rng) :
  str_in (Some (Selector.text fobj)) (distractors ++ target :: copies)
  = false ->
  below g (pos g) = List.length distractors ->
  choose_among (distractors ++ target :: copies) fobj target n cd g
  = Done (mkSelection (set_text target fobj) (n + 1) 2 true target,
          advance g).
Proof.
  intros Hshown Hraw. unfold choose_among, choice. rewrite Hshown, Hraw.
  rewrite Nat.mod_small
    by (rewrite length_app; cbn [List.length]; lia).
  rewrite nth_error_app2 by lia. rewrite Nat.sub_diag.
  cbn [nth_error bind]. now rewrite String.eqb_refl.
Qed.

(** C1, as the code has it. In the divert condition the selector
    chooses its letter among the distractor letters, followed by the
    target letter once when targets are allowed for the call, and by a
    second copy when in addition the countdown is at or below the
    threshold; the letter on show is taken out first when it is among
    them. The gate is open exactly on an eligible trial with a
    countdown below zero. Under the configured letters and threshold
    (-4), with the gate open, the call chooses among Z L N T X X when
    the countdown is at most -4 and among Z L N T X otherwise. With the
    gate open and a letter on show that is no candidate, the raw
    integer [len(distractor_letters)] makes the call show the target
    letter, count a target and return the countdown 2. *)
Theorem divert_candidates
        (idx : Z) (idxs : list Z) (fobj : fixation) (nc ac : colour)
        (ch : Q) (target : string) (distractors : list string)
        (n drd cd thr : Z) (g : rng) :
  determine_attention_stimulus "divert" idx idxs fobj nc ac ch target
                               distractors n drd cd thr g
  = choose_among
      (distractors
         ++ (if allow_target_for idx idxs cd
             then target :: (if (cd <=? thr)%Z then [target] else [])
             else []))
      fobj target n cd g
  /\ (allow_target_for idx idxs cd = true
      <-> In idx idxs /\ (cd < 0)%Z)
  /\ (allow_target_for idx idxs cd = true ->
      determine_attention_stimulus
        "divert" idx idxs fobj nc ac ch TARGET_LETTER DISTRACTOR_LETTERS
        n drd cd TARGET_PROB_INCREASE_THRESHOLD g
      = choose_among
          (DISTRACTOR_LETTERS
             ++ (if (cd <=? -4)%Z
                 then [TARGET_LETTER; TARGET_LETTER]
                 else [TARGET_LETTER]))
          fobj TARGET_LETTER n cd g)
  /\ (allow_target_for idx idxs cd = true ->
      str_in (Some (Selector.text fobj)) (distractors ++ [target])
      = false ->
      below g (pos g) = List.length distractors ->
      determine_attention_stimulus "divert" idx idxs fobj nc ac ch target
                                   distractors n drd cd thr g
      = Done (mkSelection (set_text target fobj) (n + 1) 2 true target,
              advance g)).
Proof.
  split; [apply divert_chooses_among|].
  split; [apply allow_target_for_spec|]. split.
  - intros Hgate. rewrite divert_chooses_among, Hgate.
    unfold TARGET_PROB_INCREASE_THRESHOLD.
    now destruct (cd <=? -4)%Z.
  - intros Hgate Hshown Hraw. rewrite divert_chooses_among, Hgate.
    apply choose_among_first_target; [|exact Hraw].
    unfold str_in in *. rewrite existsb_app in *.
    apply orb_false_iff in Hshown as [Hd Ht].
    cbn [existsb] in *. rewrite orb_false_r in Ht.
    rewrite Hd, Ht. destruct (cd <=? thr)%Z; cbn [existsb orb];
      [now rewrite Ht|reflexivity].
Qed.

(** Trial 1 of a block of five, the grey circle on show, countdown -5
    and the raw integer 4: the call shows X, counts a target and
    returns the countdown 2. *)
Lemma divert_candidates_witness :
  determine_attention_stimulus
    "divert" 1 (arange 1 3) grey_circle STANDARD_COLOUR RESPONSE_COLOUR
    CHANCE_OF_FIXATION_CHANGE TARGET_LETTER DISTRACTOR_LETTERS 0
    RESPONSE_DELAY (-5) TARGET_PROB_INCREASE_THRESHOLD fifth
  = Done (mkSelection (set_text TARGET_LETTER grey_circle) (0 + 1) 2 true
                      TARGET_LETTER, advance fifth).
Proof.
  destruct (divert_candidates
              1 (arange 1 3) grey_circle STANDARD_COLOUR RESPONSE_COLOUR
              CHANCE_OF_FIXATION_CHANGE TARGET_LETTER DISTRACTOR_LETTERS
              0 RESPONSE_DELAY (-5) TARGET_PROB_INCREASE_THRESHOLD fifth)
    as (_ & _ & _ & H).
  apply H; reflexivity.
Defined.

(** Trial 1 of a block of five, countdown -1: the gate is open, and
    with the raw integer 5 the call shows Z, the first of the five
    candidates Z L N T X; among Z L N T X X it would show X. *)
Lemma divert_single_target_above_threshold :
  ~ (forall idx idxs fobj n drd cd g,
        allow_target_for idx idxs cd = true ->
        determine_attention_stimulus
          "divert" idx idxs fobj STANDARD_COLOUR RESPONSE_COLOUR
          CHANCE_OF_FIXATION_CHANGE TARGET_LETTER DISTRACTOR_LETTERS n
          drd cd TARGET_PROB_INCREASE_THRESHOLD g
        = choose_among
            (DISTRACTOR_LETTERS ++ [TARGET_LETTER; TARGET_LETTER])
            fobj TARGET_LETTER n cd g).
Proof.
  intros H.
  specialize (H 1%Z (arange 1 3) grey_circle 0%Z RESPONSE_DELAY (-1)%Z
                sixth eq_refl).
  vm_compute in H. discriminate.
Qed.

End SelectorFacts.

(* ================================================================== *)
(** * The countdown of the selector *)
(* ================================================================== *)

Module CountdownFacts.

Import Selector Config Scenarios.

Local Open Scope string_scope.
Local Open Scope list_scope.

Ltac selector_cases H :=
  unfold determine_attention_stimulus in H;
  repeat match type of H with
         | context [if ?b then _ else _] => destruct b eqn:?
         | context [let (_, _) := ?p in _] => destruct p eqn:?
         | context [bind ?m _] =>
             destruct m as [[? ?]| |] eqn:?; cbn [bind] in H
         end.

(** The countdown that a call returns is one less than the countdown
    after its target decision: the reset value when the call produced
    a target, the countdown it was given otherwise. *)
Lemma returned_countdown
      (condition : string) (idx : Z) (idxs : list Z) (fobj : fixation)
      (nc ac : colour) (ch : Q) (target : string)
      (distractors : list string) (n drd cd thr : Z) (g : rng)
      (x : selection) (g' : rng) :
  determine_attention_stimulus condition idx idxs fobj nc ac ch target
                               distractors n drd cd thr g = Done (x, g') ->
  sel_countdown x
  = ((if sel_is_target x
      then (if String.eqb condition "attend" then drd + 1 else 2 + 1)
      else cd) - 1)%Z.
Proof.
  intros H. selector_cases H; inversion H; subst; cbn; reflexivity.
Qed.

(** The attend branch raises nothing. *)
Lemma attend_returns
      (idx : Z) (idxs : list Z) (fobj : fixation) (nc ac : colour)
      (ch : Q) (target : string) (distractors : list string)
      (n drd cd thr : Z) (g : rng) :
  exists x g',
    determine_attention_stimulus "attend" idx idxs fobj nc ac ch target
                                 distractors n drd cd thr g = Done (x, g').
Proof.
  unfold determine_attention_stimulus.
  cbn [String.eqb Ascii.eqb Bool.eqb]. cbv beta iota.
  destruct (negb _); [eauto|]. destruct (0 <? cd)%Z; [eauto|].
  destruct (random g) as [r g1]. destruct (Qltb r ch); eauto.
Qed.

(** While the countdown is positive the attend branch shows the
    normal colour, draws nothing and produces no target. *)
Lemma attend_blocked
      (idx : Z) (idxs : list Z) (fobj : fixation) (nc ac : colour)
      (ch : Q) (target : string) (distractors : list string)
      (n drd cd thr : Z) (g : rng) :
  (0 < cd)%Z ->
  determine_attention_stimulus "attend" idx idxs fobj nc ac ch target
                               distractors n drd cd thr g
  = Done (mkSelection (set_color nc fobj) n (cd - 1) false "", g).
Proof.
  intros Hcd. unfold determine_attention_stimulus.
  cbn [String.eqb Ascii.eqb Bool.eqb]. cbv beta iota.
  destruct (negb _); [reflexivity|].
  now replace (0 <? cd)%Z with true by (symmetry; apply Z.ltb_lt; lia).
Qed.

(** At a countdown of zero or less, on an eligible trial, a draw
    below the chance produces a target. *)
Lemma attend_fires
      (idx : Z) (idxs : list Z) (fobj : fixation) (nc ac : colour)
      (ch : Q) (target : string) (distractors : list string)
      (n drd cd thr : Z) (g : rng) :
  In idx idxs -> (cd <= 0)%Z -> (uniform g (pos g) < ch)%Q ->
  determine_attention_stimulus "attend" idx idxs fobj nc ac ch target
                               distractors n drd cd thr g
  = Done (mkSelection (set_color ac fobj) (n + 1) (drd + 1 - 1) true "",
          advance g).
Proof.
  intros Hin Hcd Hdraw. unfold determine_attention_stimulus.
  cbn [String.eqb Ascii.eqb Bool.eqb]. cbv beta iota.
  apply SelectorFacts.idx_in_In in Hin. rewrite Hin. cbn [negb].
  replace (0 <? cd)%Z with false by (symmetry; apply Z.ltb_ge; lia).
  unfold random. apply Qltb_lt in Hdraw. now rewrite Hdraw.
Qed.

(** [k] successive attend calls from a countdown of at least [k]
    produce no target and leave the countdown [k] lower. *)
Lemma attend_blocked_calls
      (nc ac : colour) (ch : Q) (target : string)
      (distractors : list string) (drd thr : Z)
      (calls : list (Z * list Z)) :
  forall (fobj : fixation) (n cd : Z) (g : rng),
    (Z.of_nat (List.length calls) <= cd)%Z ->
    exists fobj',
      successive_calls "attend" nc ac ch target distractors drd thr
                       calls fobj n cd g
      = Done (repeat false (List.length calls),
              (fobj', n, (cd - Z.of_nat (List.length calls))%Z), g).
Proof.
  induction calls as [|[idx idxs] rest IH]; intros fobj n cd g Hlen.
  - exists fobj. simpl. now rewrite Z.sub_0_r.
  - cbn [List.length] in Hlen. rewrite Nat2Z.inj_succ in Hlen.
    cbn [successive_calls].
    rewrite attend_blocked by lia. cbn [bind].
    cbn [sel_fixation sel_targets sel_countdown sel_is_target].
    destruct (IH (set_color nc fobj) n (cd - 1)%Z g) as (fobj' & Hrest);
      [lia|].
    rewrite Hrest. cbn [bind]. exists fobj'.
    cbn [List.length repeat]. rewrite Nat2Z.inj_succ.
    now replace (cd - 1 - Z.of_nat (List.length rest))%Z
      with (cd - Z.succ (Z.of_nat (List.length rest)))%Z by lia.
Qed.

(** Calls made one after the other. *)
Lemma successive_calls_app
      (condition : string) (nc ac : colour) (ch : Q) (target : string)
      (distractors : list string) (drd thr : Z)
      (first second : list (Z * list Z)) :
  forall (fobj : fixation) (n cd : Z) (g : rng),
    successive_calls condition nc ac ch target distractors drd thr
                     (first ++ second) fobj n cd g
    = let* '(flags, (fobj1, n1, cd1), g1) :=
        successive_calls condition nc ac ch target distractors drd thr
                         first fobj n cd g in
      let* '(flags', final, g2) :=
        successive_calls condition nc ac ch target distractors drd thr
                         second fobj1 n1 cd1 g1 in
      Done (flags ++ flags', final, g2).
Proof.
  induction first as [|[idx idxs] rest IH]; intros fobj n cd g.
  - cbn [app successive_calls bind].
    destruct (successive_calls _ _ _ _ _ _ _ _ second fobj n cd g)
      as [[[flags final] g2]| |]; reflexivity.
  - cbn [app successive_calls].
    destruct (determine_attention_stimulus _ _ _ _ _ _ _ _ _ _ _ _ _ _)
      as [[x g1]| |]; cbn [bind]; try reflexivity.
    rewrite IH.
    destruct (successive_calls _ _ _ _ _ _ _ _ rest _ _ _ g1)
      as [[[flags [[fobj1 n1] cd1]] g2]| |]; cbn [bind]; try reflexivity.
    destruct (successive_calls _ _ _ _ _ _ _ _ second fobj1 n1 cd1 g2)
      as [[[flags' final] g3]| |]; reflexivity.
Qed.

(** A target, then the calls that the reset blocks, then the next
    target. *)
Lemma attend_fire_block_fire
      (nc ac : colour) (ch : Q) (target : string)
      (distractors : list string) (drd thr : Z)
      (idx0 : Z) (idxs0 : list Z) (blocked : list (Z * list Z))
      (idx1 : Z) (idxs1 : list Z) (fobj : fixation) (n cd : Z) (g : rng) :
  In idx0 idxs0 -> (cd <= 0)%Z -> (uniform g (pos g) < ch)%Q ->
  Z.of_nat (List.length blocked) = drd ->
  In idx1 idxs1 -> (uniform g (S (pos g)) < ch)%Q ->
  exists fobj',
    successive_calls "attend" nc ac ch target distractors drd thr
                     ((idx0, idxs0) :: blocked ++ [(idx1, idxs1)])
                     fobj n cd g
    = Done (true :: repeat false (List.length blocked) ++ [true],
            (fobj', (n + 2)%Z, drd), advance (advance g)).
Proof.
  intros Hin0 Hcd Hdraw0 Hlen Hin1 Hdraw1.
  cbn [successive_calls].
  rewrite (attend_fires idx0 idxs0 fobj nc ac ch target distractors n drd
                        cd thr g Hin0 Hcd Hdraw0).
  cbn [bind sel_fixation sel_targets sel_countdown sel_is_target].
  rewrite successive_calls_app.
  destruct (attend_blocked_calls nc ac ch target distractors drd thr
                                 blocked (set_color ac fobj) (n + 1)%Z
                                 (drd + 1 - 1)%Z (advance g))
    as (fobj1 & Hblocked); [lia|].
  rewrite Hblocked. cbn [bind successive_calls].
  rewrite (attend_fires idx1 idxs1 fobj1 nc ac ch target distractors
                        (n + 1) drd
                        (drd + 1 - 1 - Z.of_nat (List.length blocked))
                        thr (advance g) Hin1);
    [|lia|exact Hdraw1].
  cbn [bind sel_fixation sel_targets sel_countdown sel_is_target].
  exists (set_color ac fobj1).
  replace (n + 1 + 1)%Z with (n + 2)%Z by lia.
  now replace (drd + 1 - 1)%Z with drd by lia.
Qed.

(** C2. Every call of the selector returns the countdown of after its
    target decision less one, whether or not the decision reset it.
    In the attend condition a call always returns; on an eligible
    trial, at a countdown of zero or less and with a draw below the
    chance, it produces a target, shows the response colour and
    returns [defined_response_delay], the reset value
    [defined_response_delay + 1] less one. Once the countdown was
    reset to [V] (so that the call returned [V - 1]), none of the next
    [V - 1] attend calls produces a target, whatever the trial indices
    and the random draws, and the call after them produces one again
    when its trial is eligible and its draw is below the chance. *)
Theorem countdown_decrement
        (norm_colour att_colour : colour) (colour_change_chance : Q)
        (target_letter : string) (distractor_letters : list string)
        (defined_response_delay prob_threshold : Z) :
  (forall condition idx idxs fobj n cd g x g',
      determine_attention_stimulus
        condition idx idxs fobj norm_colour att_colour
        colour_change_chance target_letter distractor_letters n
        defined_response_delay cd prob_threshold g = Done (x, g') ->
      sel_countdown x
      = ((if sel_is_target x
          then (if String.eqb condition "attend"
                then defined_response_delay + 1 else 2 + 1)
          else cd) - 1)%Z)
  /\ (forall idx idxs fobj n cd g,
         exists x g',
           determine_attention_stimulus
             "attend" idx idxs fobj norm_colour att_colour
             colour_change_chance target_letter distractor_letters n
             defined_response_delay cd prob_threshold g = Done (x, g')
           /\ (sel_is_target x = true ->
               sel_countdown x = defined_response_delay))
  /\ (forall idx idxs fobj n cd g,
         In idx idxs -> (cd <= 0)%Z ->
         (uniform g (pos g) < colour_change_chance)%Q ->
         determine_attention_stimulus
           "attend" idx idxs fobj norm_colour att_colour
           colour_change_chance target_letter distractor_letters n
           defined_response_delay cd prob_threshold g
         = Done (mkSelection (set_color att_colour fobj) (n + 1)
                             defined_response_delay true "",
                 advance g))
  /\ (forall V calls fobj n g,
         (Z.of_nat (List.length calls) <= V - 1)%Z ->
         exists fobj',
           successive_calls
             "attend" norm_colour att_colour colour_change_chance
             target_letter distractor_letters defined_response_delay
             prob_threshold calls fobj n (V - 1) g
           = Done (repeat false (List.length calls),
                   (fobj', n, (V - 1 - Z.of_nat (List.length calls))%Z),
                   g))
  /\ (forall idx0 idxs0 blocked idx1 idxs1 fobj n cd g,
         In idx0 idxs0 -> (cd <= 0)%Z ->
         (uniform g (pos g) < colour_change_chance)%Q ->
         Z.of_nat (List.length blocked) = defined_response_delay ->
         In idx1 idxs1 ->
         (uniform g (S (pos g)) < colour_change_chance)%Q ->
         exists fobj',
           successive_calls
             "attend" norm_colour att_colour colour_change_chance
             target_letter distractor_letters defined_response_delay
             prob_threshold
             ((idx0, idxs0) :: blocked ++ [(idx1, idxs1)]) fobj n cd g
           = Done (true :: repeat false (List.length blocked) ++ [true],
                   (fobj', (n + 2)%Z, defined_response_delay),
                   advance (advance g))).
Proof.
  split; [|split; [|split; [|split]]].
  - intros condition idx idxs fobj n cd g x g'.
    apply returned_countdown.
  - intros idx idxs fobj n cd g.
    destruct (attend_returns idx idxs fobj norm_colour att_colour
                             colour_change_chance target_letter
                             distractor_letters n defined_response_delay
                             cd prob_threshold g) as (x & g' & H).
    exists x, g'. split; [exact H|]. intros Ht.
    apply returned_countdown in H. rewrite Ht in H.
    cbn [String.eqb Ascii.eqb Bool.eqb] in H. lia.
  - intros idx idxs fobj n cd g Hin Hcd Hdraw.
    rewrite (attend_fires idx idxs fobj norm_colour att_colour
                          colour_change_chance target_letter
                          distractor_letters n defined_response_delay cd
                          prob_threshold g Hin Hcd Hdraw).
    do 3 f_equal. lia.
  - intros V calls fobj n g Hlen. now apply attend_blocked_calls.
  - intros idx0 idxs0 blocked idx1 idxs1 fobj n cd g.
    apply attend_fire_block_fire.
Qed.

(** At the configured delay of 10 and a countdown of 0, on eligible
    trials and with draws that would each fire: the first call
    produces a target and returns 10, the ten calls after it produce
    none, and the twelfth call produces the second target. *)
Lemma countdown_decrement_witness :
  exists fobj',
    successive_calls
      "attend" STANDARD_COLOUR RESPONSE_COLOUR CHANCE_OF_FIXATION_CHANGE
      TARGET_LETTER DISTRACTOR_LETTERS RESPONSE_DELAY
      TARGET_PROB_INCREASE_THRESHOLD
      ((1%Z, arange 1 3) :: repeat (1%Z, arange 1 3) 10
                         ++ [(1%Z, arange 1 3)])
      grey_circle 0 0 always_hit
    = Done (true :: repeat false 10 ++ [true],
            (fobj', 2%Z, 10%Z), advance (advance always_hit)).
Proof.
  destruct (countdown_decrement
              STANDARD_COLOUR RESPONSE_COLOUR CHANCE_OF_FIXATION_CHANGE
              TARGET_LETTER DISTRACTOR_LETTERS RESPONSE_DELAY
              TARGET_PROB_INCREASE_THRESHOLD) as (_ & _ & _ & _ & H).
  destruct (H 1%Z (arange 1 3) (repeat (1%Z, arange 1 3) 10) 1%Z
              (arange 1 3) grey_circle 0%Z 0%Z always_hit)
    as (fobj' & Hrun).
  - vm_compute. auto.
  - vm_compute. discriminate.
  - reflexivity.
  - reflexivity.
  - vm_compute. auto.
  - reflexivity.
  - exists fobj'. exact Hrun.
Defined.

End CountdownFacts.

(* ================================================================== *)
(** * The letter rule and the previous letter *)
(* ================================================================== *)

Module LetterFacts.

Import Selector Config Scenarios.

Local Open Scope string_scope.
Local Open Scope list_scope.

Lemma choice_nonempty {A : Type} (l : list A) (g : rng) :
  l <> [] -> exists a, choice l g = Done (a, advance g) /\ In a l.
Proof.
  intros Hne. unfold choice.
  destruct (nth_error l (below g (pos g) mod List.length l)) as [a|] eqn:E.
  - exists a. split; [reflexivity|]. eapply nth_error_In; eauto.
  - exfalso. apply nth_error_None in E.
    assert (List.length l <> 0)%nat as Hlen
        by (destruct l; [congruence|discriminate]).
    pose proof (Nat.mod_upper_bound (below g (pos g)) (List.length l)
                                    Hlen). lia.
Qed.

Lemma choice_empty {A : Type} (g : rng) :
  choice (@nil A) g = Raises IndexError.
Proof. unfold choice. now rewrite nth_error_nil. Qed.

Lemma remove_first_length (s : string) (l : list string) :
  str_in (Some s) l = true ->
  List.length l = S (List.length (remove_first s l)).
Proof.
  induction l as [|h t IH]; simpl; [discriminate|].
  rewrite (String.eqb_sym s h).
  destruct (String.eqb h s); simpl; [reflexivity|].
  intros H. now rewrite <- IH.
Qed.

(** The rule of trial_logic.py always returns a letter. *)
Lemma older_rule_returns (allow_targets : bool) (avoid : option string)
      (target : string) (distractors : list string) (g : rng) :
  exists letter g',
    TrialLogic.get_letter allow_targets avoid target distractors g
    = Done (letter, g').
Proof.
  unfold TrialLogic.get_letter.
  set (full := if allow_targets then distractors ++ [target]
               else distractors).
  match goal with
  | |- context [match ?c with [] => _ | _ :: _ => _ end] =>
      destruct c as [|h t] eqn:E
  end.
  - eauto.
  - destruct (choice_nonempty (h :: t) g) as (a & Ha & _);
      [discriminate|eauto].
Qed.

(** C3, at a single distractor letter that is also the letter on
    show. The rule of block_handler.py removes it, is left with no
    candidate and raises; the rule of trial_logic.py keeps it and
    returns it. *)
Theorem get_letter_empties_candidates (g : rng) :
  Selector.get_letter false "X" ["Z"] (-4) 0 (Some "Z") g
  = Raises IndexError
  /\ TrialLogic.get_letter false (Some "Z") "X" ["Z"] g
     = Done ("Z", advance g)
  /\ determine_attention_stimulus
       "divert" 0 (arange 1 3) (mkFixation STANDARD_COLOUR "Z")
       STANDARD_COLOUR RESPONSE_COLOUR CHANCE_OF_FIXATION_CHANGE
       "X" ["Z"] 0 RESPONSE_DELAY 0 TARGET_PROB_INCREASE_THRESHOLD g
     = Raises IndexError.
Proof.
  assert (Selector.get_letter false "X" ["Z"] (-4) 0 (Some "Z") g
          = Raises IndexError) as H.
  { unfold Selector.get_letter. cbn -[choice]. apply choice_empty. }
  split; [exact H|]. split.
  - unfold TrialLogic.get_letter. cbn -[choice].
    destruct (choice_nonempty ["Z"] g) as (a & Ha & [<-|[]]);
      [discriminate|exact Ha].
  - unfold determine_attention_stimulus.
    replace (allow_target_for 0 (arange 1 3) 0) with false
      by reflexivity.
    cbn -[Selector.get_letter].
    unfold TARGET_PROB_INCREASE_THRESHOLD. now rewrite H.
Qed.

(** With two copies of the target among the candidates only the first
    is removed: after an X the rule can return X again, although four
    other letters were left. *)
Lemma get_letter_repeats_doubled_target :
  Selector.get_letter true TARGET_LETTER DISTRACTOR_LETTERS
                      TARGET_PROB_INCREASE_THRESHOLD (-4) (Some "X") fifth
  = Done ("X", advance fifth).
Proof. reflexivity. Qed.

End LetterFacts.

(* ================================================================== *)
(** * The runner, step by step *)
(* ================================================================== *)

Module RunnerSteps.

Import Selector Runner Scenarios Observations.

Local Open Scope string_scope.
Local Open Scope list_scope.

Lemma visual_trace_app (a b : list event) :
  visual_trace (a ++ b) = visual_trace a ++ visual_trace b.
Proof. apply flat_map_app. Qed.

Lemma extends_refl (s : state) : extends [] 0 s s.
Proof.
  unfold extends. rewrite Nat.add_0_r, app_nil_r. repeat split.
Qed.

Lemma extends_trans (d1 d2 : list vis) (k1 k2 : nat) (s1 s2 s3 : state) :
  extends d1 k1 s1 s2 -> extends d2 k2 s2 s3 ->
  extends (d1 ++ d2) (k1 + k2) s1 s3.
Proof.
  intros (A1 & A2 & A3 & A4) (B1 & B2 & B3 & B4).
  unfold extends. rewrite B1, A1, B2, A2, B3, A3, B4, A4.
  rewrite app_assoc. repeat split. lia.
Qed.

Lemma extends_cast (d d' : list vis) (k k' : nat) (s s' : state) :
  extends d k s s' -> d = d' -> k = k' -> extends d' k' s s'.
Proof. now intros H <- <-. Qed.

Lemma emit_extends (e : event) (s : state) :
  extends (visual e) 0 s (emit e s).
Proof.
  unfold extends. cbn [emit flips trial_stim oddball_name trace].
  rewrite visual_trace_app. unfold visual_trace at 2.
  cbn [flat_map]. rewrite app_nil_r, Nat.add_0_r. repeat split.
Qed.

Lemma msg_eyetracker_extends (identifier : string) (m : message)
      (log_msg create_var : bool) (s : state) :
  extends (visual (SendMessage identifier m)) 0 s
          (msg_eyetracker identifier m log_msg create_var s).
Proof.
  unfold msg_eyetracker.
  pose proof (emit_extends (SendMessage identifier m) s) as H1.
  set (s1 := emit (SendMessage identifier m) s) in *.
  assert (extends [] 0 s1 (if log_msg
                           then emit (LogInfo identifier m) s1 else s1))
    as H2.
  { destruct log_msg; [apply (emit_extends (LogInfo identifier m))
                      |apply extends_refl]. }
  set (s2 := if log_msg then _ else _) in *.
  assert (extends [] 0 s2 (if create_var
                           then emit (SendVariable identifier m) s2
                           else s2)) as H3.
  { destruct create_var; [apply (emit_extends (SendVariable identifier m))
                         |apply extends_refl]. }
  eapply extends_cast.
  - eapply extends_trans; [exact H1|].
    eapply extends_trans; [exact H2|exact H3].
  - now rewrite !app_nil_r.
  - reflexivity.
Qed.

Lemma with_counters_extends (g : rng) (k q r : nat) (s : state) :
  extends [] 0 s (with_counters g (flips s) k q r s).
Proof.
  unfold extends. cbn. rewrite Nat.add_0_r, app_nil_r. repeat split.
Qed.

Lemma with_keypress_extends (n : Z) (times : list Q) (s : state) :
  extends [] 0 s (with_keypress n times s).
Proof.
  unfold extends. cbn. rewrite Nat.add_0_r, app_nil_r. repeat split.
Qed.

Lemma check_recording_extends (w : world) (p : params) (s : state) :
  extends [] 0 s (check_recording w p s).
Proof.
  unfold check_recording. destruct (practice p); [apply extends_refl|].
  unfold isRecording.
  pose proof (with_counters_extends (gen s) (polls s) (S (queries s))
                                    (readings s) s) as H1.
  destruct (negb _); [|exact H1].
  eapply extends_cast;
    [eapply extends_trans; [exact H1|apply emit_extends]
    |reflexivity|reflexivity].
Qed.

Lemma handle_key_extends (p : params) (trial_counter : Z) (s : state)
      (key : string * Q) :
  extends [] 0 s (handle_key p trial_counter s key).
Proof.
  unfold handle_key. destruct key as [key_name key_press_time].
  destruct (String.eqb key_name "space").
  - pose proof (with_keypress_extends
                  (n_attention_responses s + 1)
                  (keypress_times s ++ [key_press_time]) s) as H1.
    destruct (practice p); [exact H1|].
    eapply extends_cast;
      [eapply extends_trans; [exact H1|apply msg_eyetracker_extends]
      |reflexivity|reflexivity].
  - pose proof (with_keypress_extends
                  (n_attention_responses s)
                  (keypress_times s ++ [key_press_time]) s) as H1.
    destruct (practice p); [exact H1|].
    eapply extends_cast;
      [eapply extends_trans; [exact H1|apply msg_eyetracker_extends]
      |reflexivity|reflexivity].
Qed.

Lemma handle_keys_extends (p : params) (trial_counter : Z)
      (keys : list (string * Q)) :
  forall s, extends [] 0 s (fold_left (handle_key p trial_counter) keys s).
Proof.
  induction keys as [|key keys IH]; intros s; cbn [fold_left].
  - apply extends_refl.
  - eapply extends_cast;
      [eapply extends_trans; [apply handle_key_extends|apply IH]
      |reflexivity|reflexivity].
Qed.

Lemma poll_keys_extends (w : world) (p : params) (trial_counter : Z)
      (s : state) :
  extends [] 0 s (poll_keys w p trial_counter s).
Proof.
  unfold poll_keys, getKeys.
  eapply extends_cast;
    [eapply extends_trans;
     [apply (with_counters_extends (gen s) (S (polls s)) (queries s)
                                   (readings s) s)
     |apply handle_keys_extends]
    |reflexivity|reflexivity].
Qed.

Lemma flip_extends (w : world) (s : state) :
  fst (flip w s) = flip_time w (flips s)
  /\ extends [VFlip (flip_time w (flips s))] 1 s (snd (flip w s)).
Proof.
  split; [reflexivity|].
  unfold flip, extends. cbn. rewrite visual_trace_app. cbn.
  repeat split. lia.
Qed.

Lemma getTime_extends (w : world) (s : state) :
  extends [] 0 s (snd (getTime w s)).
Proof.
  unfold getTime. cbn [snd].
  apply (with_counters_extends (gen s) (polls s) (queries s)
                               (S (readings s)) s).
Qed.

Lemma clock_message_extends (w : world) (p : params) (identifier : string)
      (trial_counter : Z) (trial_type : string) (create_var : bool)
      (s : state) :
  String.eqb identifier "MAIN_STIM_OFFSET" = false ->
  extends [] 0 s
          (clock_message w p identifier trial_counter trial_type
                         create_var s).
Proof.
  intros Hid. unfold clock_message.
  destruct (practice p); [apply extends_refl|].
  pose proof (getTime_extends w s) as H1.
  destruct (getTime w s) as [t s1]. cbn [snd] in H1.
  eapply extends_cast;
    [eapply extends_trans; [exact H1|apply msg_eyetracker_extends]
    |cbn [visual]; now rewrite Hid|reflexivity].
Qed.

Lemma extends_flips (d : list vis) (k : nat) (s s' : state) :
  extends d k s s' -> flips s' = (flips s + k)%nat.
Proof. now intros (H & _). Qed.

Lemma extends_stim (d : list vis) (k : nat) (s s' : state) :
  extends d k s s' ->
  trial_stim s' = trial_stim s /\ oddball_name s' = oddball_name s.
Proof. now intros (_ & H1 & H2 & _). Qed.

Lemma extends_shows (d : list vis) (k : nat) (s s' : state) :
  extends d k s s' -> shows d k s s'.
Proof. now intros (H1 & _ & _ & H2). Qed.

Lemma shows_trans (d1 d2 : list vis) (k1 k2 : nat) (s1 s2 s3 : state) :
  shows d1 k1 s1 s2 -> shows d2 k2 s2 s3 ->
  shows (d1 ++ d2) (k1 + k2) s1 s3.
Proof.
  intros (A1 & A2) (B1 & B2). unfold shows.
  rewrite B1, A1, B2, A2, app_assoc. split; [lia|reflexivity].
Qed.

Lemma shows_cast (d d' : list vis) (k k' : nat) (s s' : state) :
  shows d k s s' -> d = d' -> k = k' -> shows d' k' s s'.
Proof. now intros H <- <-. Qed.

#[local] Opaque extends.

Lemma draw_stimulus_extends (p : params) (frameN : Z) (s s' : state) :
  draw_stimulus p frameN s = Done s' ->
  extends (if (frameN <? main_stim_frames p)%Z
           then match trial_stim s with
                | Some obj => [VStim obj]
                | None => []
                end
           else []) 0 s s'.
Proof.
  unfold draw_stimulus. destruct (frameN <? main_stim_frames p)%Z.
  - destruct (trial_stim s) as [obj|]; intros H; try discriminate;
      apply Done_inj in H as <-.
    apply (emit_extends (DrawStim obj)).
  - intros H; apply Done_inj in H as <-. apply extends_refl.
Qed.

Lemma report_onsets_extends (p : params) (trial_counter : Z)
      (trial_type : string) (frameN : Z) (t : Q) (s s' : state) :
  report_onsets p trial_counter trial_type frameN t s = Done s' ->
  extends [] 0 s s'.
Proof.
  unfold report_onsets. destruct (negb (practice p) && (frameN =? 0)%Z).
  - destruct (shown_name p trial_type s) as [name| |]; cbn [bind];
      intros H; try discriminate; apply Done_inj in H as <-.
    match goal with
    | |- extends _ _ _ (msg_eyetracker ?i2 ?m2 ?l2 ?v2 ?s1) =>
        eapply extends_cast;
        [eapply extends_trans;
         [apply msg_eyetracker_extends
         |apply (msg_eyetracker_extends i2 m2 l2 v2 s1)]
        |reflexivity|reflexivity]
    end.
  - intros H; apply Done_inj in H as <-. apply extends_refl.
Qed.

Lemma report_offset_extends (p : params) (trial_counter : Z)
      (trial_type : string) (frameN : Z) (t : Q) (s s' : state) :
  report_offset p trial_counter trial_type frameN t s = Done s' ->
  extends (if negb (practice p) && (frameN =? main_stim_frames p)%Z
           then [VOffset (Some t)] else []) 0 s s'.
Proof.
  unfold report_offset.
  destruct (negb (practice p) && (frameN =? main_stim_frames p)%Z).
  - destruct (shown_name p trial_type s) as [name| |]; cbn [bind];
      intros H; try discriminate; apply Done_inj in H as <-.
    eapply extends_cast;
      [apply msg_eyetracker_extends|reflexivity|reflexivity].
  - intros H; apply Done_inj in H as <-. apply extends_refl.
Qed.

Lemma report_probe_onset_extends (p : params) (trial_counter : Z)
      (trial_type : string) (frameN : Z) (t : Q) (s : state) :
  extends [] 0 s (report_probe_onset p trial_counter trial_type frameN t s).
Proof.
  unfold report_probe_onset.
  destruct (negb (practice p) && (frameN =? 0)%Z); [|apply extends_refl].
  eapply extends_cast;
    [apply msg_eyetracker_extends|reflexivity|reflexivity].
Qed.

(** One frame of the stimulus phase shows what the specification says
    of its index. *)
Lemma stimulus_frame_extends (w : world) (p : params) (trial_counter : Z)
      (trial_type : string) (frameN : Z) (s s' : state) :
  stimulus_frame w p trial_counter trial_type frameN s = Done s' ->
  extends (expected_frame p (trial_stim s) (flip_time w (flips s)) frameN)
          1 s s'.
Proof.
  unfold stimulus_frame.
  pose proof (check_recording_extends w p s) as H1.
  set (s1 := check_recording w p s) in *.
  destruct (draw_stimulus p frameN s1) as [s2| |] eqn:E2; cbn [bind];
    try discriminate.
  apply draw_stimulus_extends in E2.
  pose proof (emit_extends (DrawFixation (fixation_obj s2)) s2) as H3.
  set (s3 := emit (DrawFixation (fixation_obj s2)) s2) in *.
  destruct (flip_extends w s3) as [Ht H4].
  destruct (flip w s3) as [t s4]. cbn [fst snd] in Ht, H4.
  destruct (report_onsets p trial_counter trial_type frameN t s4)
    as [s5| |] eqn:E5; cbn [bind]; try discriminate.
  apply report_onsets_extends in E5.
  pose proof (poll_keys_extends w p trial_counter s5) as H6.
  set (s6 := poll_keys w p trial_counter s5) in *.
  intros E7. apply report_offset_extends in E7.
  assert (flips s3 = flips s) as Hf.
  { apply extends_flips in H1, E2, H3. lia. }
  assert (trial_stim s1 = trial_stim s) as Hs
      by (eapply extends_stim; exact H1).
  rewrite Hf in *. rewrite Hs in E2. subst t.
  eapply extends_cast.
  - eapply extends_trans; [exact H1|].
    eapply extends_trans; [exact E2|].
    eapply extends_trans; [exact H3|].
    eapply extends_trans; [exact H4|].
    eapply extends_trans; [exact E5|].
    eapply extends_trans; [exact H6|exact E7].
  - unfold expected_frame. cbn [visual app]. reflexivity.
  - reflexivity.
Qed.

(** One frame of an interim chunk shows the probe and commits. *)
Lemma interim_frame_extends (w : world) (p : params) (trial_counter : Z)
      (trial_type : string) (frameN : Z) (s : state) :
  exists s',
    interim_frame w p trial_counter trial_type frameN s = Done s'
    /\ extends [VProbe; VFlip (flip_time w (flips s))] 1 s s'.
Proof.
  unfold interim_frame.
  pose proof (check_recording_extends w p s) as H1.
  set (s1 := check_recording w p s) in *.
  pose proof (emit_extends (DrawFixation (fixation_obj s1)) s1) as H2.
  set (s2 := emit (DrawFixation (fixation_obj s1)) s1) in *.
  destruct (flip_extends w s2) as [Ht H3].
  destruct (flip w s2) as [t s3]. cbn [fst snd] in Ht, H3.
  pose proof (report_probe_onset_extends p trial_counter trial_type
                                         frameN t s3) as H4.
  set (s4 := report_probe_onset p trial_counter trial_type frameN t s3)
    in *.
  pose proof (poll_keys_extends w p trial_counter s4) as H5.
  eexists. split; [reflexivity|].
  assert (flips s2 = flips s) as Hf.
  { apply extends_flips in H1, H2. lia. }
  rewrite Hf in *.
  eapply extends_cast.
  - eapply extends_trans; [exact H1|].
    eapply extends_trans; [exact H2|].
    eapply extends_trans; [exact H3|].
    eapply extends_trans; [exact H4|exact H5].
  - cbn [visual app]. reflexivity.
  - reflexivity.
Qed.

(** The frames of a stimulus phase, from frame [i] on. *)
Lemma stimulus_frames_extends (w : world) (p : params) (trial_counter : Z)
      (trial_type : string) (n : nat) :
  forall (i : Z) (s s' : state),
    for_from (stimulus_frame w p trial_counter trial_type) i n s = Done s' ->
    extends (expected_frames w p (trial_stim s) (flips s) i n) n s s'.
Proof.
  induction n as [|n IH]; intros i s s' H; cbn [for_from] in H.
  - apply Done_inj in H as <-. apply extends_refl.
  - destruct (stimulus_frame w p trial_counter trial_type i s)
      as [s1| |] eqn:E1; cbn [bind] in H; try discriminate.
    apply stimulus_frame_extends in E1. apply IH in H.
    destruct (extends_stim _ _ _ _ E1) as [Hs _].
    rewrite Hs, (extends_flips _ _ _ _ E1), Nat.add_1_r in H.
    eapply extends_cast;
      [eapply extends_trans; [exact E1|exact H]|reflexivity|reflexivity].
Qed.

(** The frames of an interim chunk: the loop always returns. *)
Lemma interim_frames_extends (w : world) (p : params) (trial_counter : Z)
      (trial_type : string) (n : nat) :
  forall (i : Z) (s : state),
    exists s',
      for_from (interim_frame w p trial_counter trial_type) i n s = Done s'
      /\ extends (probe_frames w (flips s) n) n s s'.
Proof.
  induction n as [|n IH]; intros i s; cbn [for_from].
  - exists s. split; [reflexivity|apply extends_refl].
  - destruct (interim_frame_extends w p trial_counter trial_type i s)
      as (s1 & E1 & H1).
    rewrite E1. cbn [bind].
    destruct (IH (i + 1)%Z s1) as (s' & E2 & H2).
    exists s'. split; [exact E2|].
    rewrite (extends_flips _ _ _ _ H1), Nat.add_1_r in H2.
    eapply extends_cast;
      [eapply extends_trans; [exact H1|exact H2]|reflexivity|reflexivity].
Qed.

Lemma probe_frames_app (w : world) (a b : nat) :
  forall k,
    probe_frames w k (a + b)
    = probe_frames w k a ++ probe_frames w (k + a) b.
Proof.
  induction a as [|a IH]; intros k; cbn [probe_frames Nat.add].
  - now rewrite Nat.add_0_r.
  - rewrite IH. cbn [app]. now replace (S k + a)%nat with (k + S a)%nat
      by lia.
Qed.

Lemma offsets_app (a b : list vis) :
  offsets (a ++ b) = (offsets a + offsets b)%nat.
Proof. unfold offsets. now rewrite filter_app, length_app. Qed.

Lemma stim_draws_app (a b : list vis) :
  stim_draws (a ++ b) = (stim_draws a + stim_draws b)%nat.
Proof. unfold stim_draws. now rewrite filter_app, length_app. Qed.

Lemma probe_frames_quiet (w : world) (n : nat) :
  forall k, offsets (probe_frames w k n) = 0%nat
            /\ stim_draws (probe_frames w k n) = 0%nat.
Proof.
  induction n as [|n IH]; intros k; cbn [probe_frames].
  - now split.
  - rewrite offsets_app, stim_draws_app.
    destruct (IH (S k)) as [-> ->]. now split.
Qed.

(** A frame holds the offset marker when its index is
    [main_stim_frames] and the run is no practice. *)
Lemma expected_frame_offsets (p : params) (stim : option stimulus) (t : Q)
      (i : Z) :
  offsets (expected_frame p stim t i)
  = if negb (practice p) && (i =? main_stim_frames p)%Z
    then 1%nat else 0%nat.
Proof.
  unfold expected_frame. rewrite !offsets_app.
  replace (offsets (if (i <? main_stim_frames p)%Z
                    then match stim with
                         | Some obj => [VStim obj]
                         | None => []
                         end
                    else [])) with 0%nat
    by (destruct (i <? main_stim_frames p)%Z; [destruct stim|];
        reflexivity).
  now destruct (negb (practice p) && (i =? main_stim_frames p)%Z).
Qed.

(** Frames [i .. i + n - 1] hold one offset marker when
    [main_stim_frames] is among these indices and the run is no
    practice, and none otherwise. *)
Lemma expected_frames_offsets (w : world) (p : params)
      (stim : option stimulus) (n : nat) :
  forall (k : nat) (i : Z),
    offsets (expected_frames w p stim k i n)
    = if negb (practice p)
         && ((i <=? main_stim_frames p)%Z
             && (main_stim_frames p <? i + Z.of_nat n)%Z)
      then 1%nat else 0%nat.
Proof.
  induction n as [|n IH]; intros k i; cbn [expected_frames].
  - replace ((i <=? main_stim_frames p)%Z
             && (main_stim_frames p <? i + Z.of_nat 0)%Z) with false
      by (symmetry; apply andb_false_iff;
          destruct (Z.leb_spec i (main_stim_frames p));
          [right; apply Z.ltb_ge; lia|now left]).
    now rewrite andb_false_r.
  - rewrite offsets_app, expected_frame_offsets, IH.
    destruct (negb (practice p)); cbn [andb]; [|reflexivity].
    destruct (Z.eqb_spec i (main_stim_frames p)) as [->|Hne].
    + replace (main_stim_frames p + 1 <=? main_stim_frames p)%Z
        with false by (symmetry; apply Z.leb_gt; lia).
      rewrite Z.leb_refl.
      replace (main_stim_frames p
               <? main_stim_frames p + Z.of_nat (S n))%Z
        with true by (symmetry; apply Z.ltb_lt; lia).
      reflexivity.
    + replace (i + 1 <=? main_stim_frames p)%Z
        with (i <=? main_stim_frames p)%Z
        by (destruct (Z.leb_spec i (main_stim_frames p));
            symmetry; [apply Z.leb_le|apply Z.leb_gt]; lia).
      now replace (i + 1 + Z.of_nat n)%Z with (i + Z.of_nat (S n))%Z
        by lia.
Qed.

Lemma expected_frame_stim_draws (p : params) (obj : stimulus) (t : Q)
      (i : Z) :
  stim_draws (expected_frame p (Some obj) t i)
  = if (i <? main_stim_frames p)%Z then 1%nat else 0%nat.
Proof.
  unfold expected_frame. rewrite !stim_draws_app.
  destruct (i <? main_stim_frames p)%Z;
    destruct (negb (practice p) && (i =? main_stim_frames p)%Z);
    reflexivity.
Qed.

(** Frames [i .. i + n - 1] draw the primary stimulus, when one is
    bound, on the indices below [main_stim_frames]. *)
Lemma expected_frames_stim_draws (w : world) (p : params)
      (obj : stimulus) (n : nat) :
  forall (k : nat) (i : Z),
    stim_draws (expected_frames w p (Some obj) k i n)
    = Z.to_nat (Z.min (i + Z.of_nat n) (main_stim_frames p) - i).
Proof.
  induction n as [|n IH]; intros k i; cbn [expected_frames].
  - cbn [stim_draws filter List.length]. lia.
  - rewrite stim_draws_app, expected_frame_stim_draws, IH.
    rewrite Nat2Z.inj_succ.
    destruct (Z.ltb_spec i (main_stim_frames p)); lia.
Qed.

End RunnerSteps.

(* ================================================================== *)
(** * The runner, trial by trial *)
(* ================================================================== *)

Module RunnerTrials.

Import Selector Runner Scenarios Observations RunnerSteps.

Local Open Scope string_scope.
Local Open Scope list_scope.

(** A selection leaves flips, trace and stimulus variables alone. *)
Lemma select_extends (p : params) (trial_counter : Z) (idxs : list Z)
      (s s' : state) :
  select p trial_counter idxs s = Done s' -> extends [] 0 s s'.
Proof.
  unfold select.
  destruct (determine_attention_stimulus _ _ _ _ _ _ _ _ _ _ _ _ _ _)
    as [[x g]| |]; cbn [bind]; intros H; try discriminate.
  apply Done_inj in H as <-.
  unfold extends. cbn. rewrite Nat.add_0_r, app_nil_r. repeat split.
Qed.

#[local] Opaque extends.

(** The selector raises or returns; it has no loop to run out of. *)
Lemma select_no_timeout (p : params) (trial_counter : Z) (idxs : list Z)
      (s : state) :
  select p trial_counter idxs s <> Timeout.
Proof.
  unfold select, determine_attention_stimulus, get_letter, choice.
  repeat (cbn [bind]; cbv beta iota;
          match goal with
          | |- context [if ?b then _ else _] => destruct b
          | |- context [let (_, _) := ?x in _] => destruct x
          | |- context [match ?x with Some _ => _ | None => _ end] =>
              destruct x
          end);
    cbn [bind]; cbv beta iota; discriminate.
Qed.

Lemma select_attend (p : params) (trial_counter : Z) (idxs : list Z)
      (s : state) :
  condition p = "attend" ->
  exists s', select p trial_counter idxs s = Done s'.
Proof.
  intros Hc. unfold select. rewrite Hc.
  destruct (CountdownFacts.attend_returns
              trial_counter idxs (fixation_obj s) (norm_colour p)
              (att_colour p) (colour_change_chance p) (target_letter p)
              (distractor_letters p) (n_attention_targets s)
              (defined_response_delay p) (delay_countdown s)
              (prob_threshold p) (gen s)) as (x & g & H).
  rewrite H. cbn [bind]. eauto.
Qed.

(** The choice of the stimulus commits and shows nothing. *)
Lemma choose_stimulus_shows (p : params) (trial_type : string) (s : state) :
  shows [] 0 s (choose_stimulus p trial_type s).
Proof.
  unfold choose_stimulus, shows.
  destruct (String.eqb trial_type "s"); [|destruct (String.eqb trial_type "o")].
  - cbn. now rewrite Nat.add_0_r, app_nil_r.
  - unfold random. destruct (Qltb _ _); cbn;
      now rewrite Nat.add_0_r, app_nil_r.
  - cbn. rewrite visual_trace_app. cbn. now rewrite Nat.add_0_r, !app_nil_r.
Qed.

(** For a standard the standard object is bound, for an oddball one of
    the two oddball objects and its name. *)
Lemma choose_stimulus_binds (p : params) (trial_type : string) (s : state) :
  (trial_type = "s" ->
   trial_stim (choose_stimulus p trial_type s) = Some (standard_stim_obj p))
  /\ (trial_type = "o" ->
      (trial_stim (choose_stimulus p trial_type s) = Some (common_odd_obj p)
       \/ trial_stim (choose_stimulus p trial_type s)
          = Some (rare_odd_obj p))
      /\ oddball_name (choose_stimulus p trial_type s) <> None).
Proof.
  unfold choose_stimulus. split; intros ->; cbn.
  - reflexivity.
  - destruct (Qltb _ _); cbn; split; (auto || discriminate).
Qed.

Lemma choose_stimulus_bound (p : params) (trial_type : string) (s : state) :
  known_type trial_type ->
  stimulus_bound trial_type (choose_stimulus p trial_type s).
Proof.
  destruct (choose_stimulus_binds p trial_type s) as [Hs Ho].
  intros [E|E]; unfold stimulus_bound.
  - rewrite (Hs E). split; [discriminate|now left].
  - destruct (Ho E) as [[H|H] Hn]; rewrite H;
      (split; [discriminate|now right]).
Qed.

Lemma stimulus_bound_extends (trial_type : string) (d : list vis) (k : nat)
      (s s' : state) :
  extends d k s s' -> stimulus_bound trial_type s ->
  stimulus_bound trial_type s'.
Proof.
  intros H [H1 H2]. destruct (extends_stim _ _ _ _ H) as [E1 E2].
  unfold stimulus_bound. now rewrite E1, E2.
Qed.

(** With its variables bound a frame of the stimulus phase returns. *)
Lemma stimulus_frame_returns (w : world) (p : params) (trial_counter : Z)
      (trial_type : string) (frameN : Z) (s : state) :
  stimulus_bound trial_type s ->
  exists s', stimulus_frame w p trial_counter trial_type frameN s = Done s'.
Proof.
  intros Hb. unfold stimulus_frame.
  pose proof (stimulus_bound_extends trial_type _ _ _ _
                (check_recording_extends w p s) Hb) as Hb1.
  set (s1 := check_recording w p s) in *.
  assert (exists s2, draw_stimulus p frameN s1 = Done s2) as (s2 & E2).
  { unfold draw_stimulus. destruct (frameN <? main_stim_frames p)%Z;
      [|eauto]. destruct Hb1 as [Hn _].
    destruct (trial_stim s1); [eauto|congruence]. }
  rewrite E2. cbn [bind].
  pose proof (stimulus_bound_extends trial_type _ _ _ _
                (draw_stimulus_extends _ _ _ _ E2) Hb1) as Hb2.
  pose proof (stimulus_bound_extends trial_type _ _ _ _
                (emit_extends (DrawFixation (fixation_obj s2)) s2) Hb2)
    as Hb3.
  set (s3 := emit (DrawFixation (fixation_obj s2)) s2) in *.
  destruct (flip_extends w s3) as [_ H4].
  pose proof (stimulus_bound_extends trial_type _ _ _ _ H4 Hb3) as Hb4.
  destruct (flip w s3) as [t s4]. cbn [snd] in Hb4.
  assert (forall s, stimulus_bound trial_type s ->
                    exists name, shown_name p trial_type s = Done name)
    as Hname.
  { intros s0 [_ Hor]. unfold shown_name.
    destruct (String.eqb_spec trial_type "s") as [E|E]; [eauto|].
    destruct Hor as [Hs|Hn]; [contradiction|].
    destruct (oddball_name s0); [eauto|congruence]. }
  assert (exists s5, report_onsets p trial_counter trial_type frameN t s4
                     = Done s5) as (s5 & E5).
  { unfold report_onsets. destruct (_ && _); [|eauto].
    destruct (Hname s4 Hb4) as (name & ->). cbn [bind]. eauto. }
  rewrite E5. cbn [bind].
  pose proof (stimulus_bound_extends trial_type _ _ _ _
                (report_onsets_extends _ _ _ _ _ _ _ E5) Hb4) as Hb5.
  pose proof (stimulus_bound_extends trial_type _ _ _ _
                (poll_keys_extends w p trial_counter s5) Hb5) as Hb6.
  unfold report_offset. destruct (_ && _); [|eauto].
  destruct (Hname _ Hb6) as (name & ->). cbn [bind]. eauto.
Qed.

Lemma stimulus_frames_return (w : world) (p : params) (trial_counter : Z)
      (trial_type : string) (n : nat) :
  forall (i : Z) (s : state),
    stimulus_bound trial_type s ->
    exists s',
      for_from (stimulus_frame w p trial_counter trial_type) i n s = Done s'.
Proof.
  induction n as [|n IH]; intros i s Hb; cbn [for_from]; [eauto|].
  destruct (stimulus_frame_returns w p trial_counter trial_type i s Hb)
    as (s1 & E1).
  rewrite E1. cbn [bind]. apply IH.
  eapply stimulus_bound_extends; [|exact Hb].
  eapply stimulus_frame_extends; exact E1.
Qed.

(** An interim chunk shows the probe for [attention_frames] frames. *)
Lemma interim_chunk_extends (w : world) (p : params) (trial_counter : Z)
      (trial_type : string) (idxs : list Z) (i : Z) (s s' : state) :
  interim_chunk w p trial_counter trial_type idxs i s = Done s' ->
  extends (probe_frames w (flips s) (Z.to_nat (attention_frames p)))
          (Z.to_nat (attention_frames p)) s s'.
Proof.
  unfold interim_chunk, for_range.
  destruct (select p trial_counter idxs s) as [s1| |] eqn:E1; cbn [bind];
    try discriminate.
  apply select_extends in E1.
  destruct (interim_frames_extends w p trial_counter trial_type
              (Z.to_nat (attention_frames p)) 0%Z s1) as (s2 & E2 & H2).
  rewrite E2. intros H. apply Done_inj in H as <-.
  rewrite (extends_flips _ _ _ _ E1), Nat.add_0_r in H2.
  eapply extends_cast;
    [eapply extends_trans; [exact E1|exact H2]|reflexivity|reflexivity].
Qed.

Lemma interim_chunks_extends (w : world) (p : params) (trial_counter : Z)
      (trial_type : string) (idxs : list Z) (m : nat) :
  forall (i : Z) (s s' : state),
    for_from (interim_chunk w p trial_counter trial_type idxs) i m s
    = Done s' ->
    extends (probe_frames w (flips s)
                          (m * Z.to_nat (attention_frames p)))
            (m * Z.to_nat (attention_frames p)) s s'.
Proof.
  induction m as [|m IH]; intros i s s' H; cbn [for_from] in H.
  - apply Done_inj in H as <-. apply extends_refl.
  - destruct (interim_chunk w p trial_counter trial_type idxs i s)
      as [s1| |] eqn:E1; cbn [bind] in H; try discriminate.
    apply interim_chunk_extends in E1. apply IH in H.
    rewrite (extends_flips _ _ _ _ E1) in H.
    eapply extends_cast;
      [eapply extends_trans; [exact E1|exact H]
      |cbn [Nat.mul]; now rewrite probe_frames_app|reflexivity].
Qed.

Lemma interim_chunks_return (w : world) (p : params) (trial_counter : Z)
      (trial_type : string) (idxs : list Z) (m : nat) :
  condition p = "attend" ->
  forall (i : Z) (s : state),
    exists s',
      for_from (interim_chunk w p trial_counter trial_type idxs) i m s
      = Done s'.
Proof.
  intros Hc. induction m as [|m IH]; intros i s; cbn [for_from]; [eauto|].
  unfold interim_chunk at 1, for_range.
  destruct (select_attend p trial_counter idxs s Hc) as (s1 & ->).
  cbn [bind].
  destruct (interim_frames_extends w p trial_counter trial_type
              (Z.to_nat (attention_frames p)) 0%Z s1) as (s2 & -> & _).
  cbn [bind]. apply IH.
Qed.

(** What a trial commits and shows: the frames of its stimulus phase,
    then the probe alone for every frame of its interim chunks. *)
Lemma run_trial_shows (w : world) (p : params) (block_len trial_counter : Z)
      (trial_type : string) (s s' : state) :
  run_trial w p block_len trial_counter trial_type s = Done s' ->
  shows (expected_frames w p (trial_stim s') (flips s) 0
                         (Z.to_nat (attention_frames p))
           ++ probe_frames w (flips s + Z.to_nat (attention_frames p))
                           (Z.to_nat (interim_frames p / attention_frames p)
                            * Z.to_nat (attention_frames p)))
        (frames_per_trial p) s s'.
Proof.
  unfold run_trial, stimulus_phase, for_range, floordiv.
  pose proof (clock_message_extends w p "TRIALID" trial_counter trial_type
                                    true s eq_refl) as Ha.
  set (sa := clock_message w p "TRIALID" trial_counter trial_type true s)
    in *.
  pose proof (with_keypress_extends (n_attention_responses sa) [] sa) as Hb.
  set (sb := with_keypress (n_attention_responses sa) [] sa) in *.
  pose proof (choose_stimulus_shows p trial_type sb) as Hc.
  set (sc := choose_stimulus p trial_type sb) in *.
  destruct (select p trial_counter (arange 1 (block_len - 2)) sc)
    as [sd| |] eqn:Ed; cbn [bind]; try discriminate.
  apply select_extends in Ed.
  destruct (for_from (stimulus_frame w p trial_counter trial_type) 0
                     (Z.to_nat (attention_frames p)) sd)
    as [se| |] eqn:Ee; cbn [bind]; try discriminate.
  apply stimulus_frames_extends in Ee.
  pose proof (clock_message_extends w p "INTERIM_START" trial_counter
                                    trial_type false se eq_refl) as Hf.
  set (sf := clock_message w p "INTERIM_START" trial_counter trial_type
                           false se) in *.
  destruct (attention_frames p =? 0)%Z; cbn [bind]; try discriminate.
  destruct (for_from (interim_chunk w p trial_counter trial_type
                                    (arange 1 (block_len - 2))) 0
                     (Z.to_nat (interim_frames p / attention_frames p)) sf)
    as [sg| |] eqn:Eg; cbn [bind]; try discriminate.
  apply interim_chunks_extends in Eg.
  intros H. apply Done_inj in H as <-.
  pose proof (clock_message_extends w p "INTERIM_END" trial_counter
                                    trial_type false sg eq_refl) as Hh.
  set (sh := clock_message w p "INTERIM_END" trial_counter trial_type
                           false sg) in *.
  assert (flips sd = flips s) as Hflips.
  { apply extends_flips in Ha, Hb, Ed. destruct Hc as [Hc _]. lia. }
  assert (flips sf = (flips s + Z.to_nat (attention_frames p))%nat)
    as Hflips'.
  { apply extends_flips in Ee, Hf. lia. }
  assert (trial_stim sh = trial_stim sd) as Hstim.
  { apply extends_stim in Ee, Hf, Eg, Hh.
    destruct Ee as [E1 _], Hf as [E2 _], Eg as [E3 _], Hh as [E4 _].
    congruence. }
  rewrite Hflips in Ee. rewrite Hflips' in Eg. rewrite Hstim.
  eapply shows_cast.
  - eapply shows_trans; [apply extends_shows; exact Ha|].
    eapply shows_trans; [apply extends_shows; exact Hb|].
    eapply shows_trans; [exact Hc|].
    eapply shows_trans; [apply extends_shows; exact Ed|].
    eapply shows_trans; [apply extends_shows; exact Ee|].
    eapply shows_trans; [apply extends_shows; exact Hf|].
    eapply shows_trans; [apply extends_shows; exact Eg|].
    apply extends_shows; exact Hh.
  - cbn [app]. now rewrite !app_nil_r.
  - unfold frames_per_trial. lia.
Qed.

Lemma offset_due_frames (p : params) :
  negb (practice p)
  && ((0 <=? main_stim_frames p)%Z
      && (main_stim_frames p
          <? 0 + Z.of_nat (Z.to_nat (attention_frames p)))%Z)
  = offset_due p.
Proof.
  unfold offset_due. f_equal.
  destruct (Z.leb_spec 0 (main_stim_frames p)); cbn [andb]; [|reflexivity].
  destruct (Z.ltb_spec (main_stim_frames p) (attention_frames p));
    [apply Z.ltb_lt|apply Z.ltb_ge]; lia.
Qed.

(** A trial sends the offset marker once when it is due, and never
    otherwise. *)
Lemma run_trial_offsets (w : world) (p : params) (block_len trial_counter : Z)
      (trial_type : string) (s s' : state) :
  run_trial w p block_len trial_counter trial_type s = Done s' ->
  offsets (visual_trace (trace s'))
  = (offsets (visual_trace (trace s))
     + if offset_due p then 1 else 0)%nat.
Proof.
  intros H. apply run_trial_shows in H. destruct H as [_ ->].
  rewrite !offsets_app, expected_frames_offsets, offset_due_frames.
  destruct (probe_frames_quiet
              w (Z.to_nat (interim_frames p / attention_frames p)
                 * Z.to_nat (attention_frames p))
              (flips s + Z.to_nat (attention_frames p))) as [-> _].
  lia.
Qed.

Lemma run_trials_counts (w : world) (p : params) (block_len : Z)
      (rest : list string) :
  forall (trial_counter : Z) (s s' : state),
    run_trials w p block_len trial_counter rest s = Done s' ->
    flips s' = (flips s + List.length rest * frames_per_trial p)%nat
    /\ offsets (visual_trace (trace s'))
       = (offsets (visual_trace (trace s))
          + List.length rest * if offset_due p then 1 else 0)%nat.
Proof.
  induction rest as [|trial_type rest IH]; intros trial_counter s s' H;
    cbn [run_trials] in H.
  - apply Done_inj in H as <-. cbn [List.length]. lia.
  - destruct (run_trial w p block_len trial_counter trial_type s)
      as [s1| |] eqn:E1; cbn [bind] in H; try discriminate.
    apply IH in H. destruct H as [Hf Ho].
    pose proof (run_trial_offsets _ _ _ _ _ _ _ E1) as Ho1.
    apply run_trial_shows in E1. destruct E1 as [Hf1 _].
    cbn [List.length]. lia.
Qed.

(** In the attend condition, with a chunk of at least one frame, a
    trial of a known type returns. *)
Lemma run_trial_returns (w : world) (p : params) (block_len trial_counter : Z)
      (trial_type : string) (s : state) :
  condition p = "attend" -> attention_frames p <> 0%Z ->
  known_type trial_type ->
  exists s', run_trial w p block_len trial_counter trial_type s = Done s'.
Proof.
  intros Hc Haf Hk. unfold run_trial, stimulus_phase, for_range, floordiv.
  set (sa := clock_message w p "TRIALID" trial_counter trial_type true s).
  set (sb := with_keypress (n_attention_responses sa) [] sa).
  pose proof (choose_stimulus_bound p trial_type sb Hk) as Hb.
  set (sc := choose_stimulus p trial_type sb) in *.
  destruct (select_attend p trial_counter (arange 1 (block_len - 2)) sc Hc)
    as (sd & Ed).
  rewrite Ed. cbn [bind].
  pose proof (stimulus_bound_extends trial_type _ _ _ _
                (select_extends _ _ _ _ _ Ed) Hb) as Hd.
  destruct (stimulus_frames_return w p trial_counter trial_type
              (Z.to_nat (attention_frames p)) 0%Z sd Hd) as (se & ->).
  cbn [bind].
  replace (attention_frames p =? 0)%Z with false
    by (symmetry; now apply Z.eqb_neq).
  cbn [bind].
  destruct (interim_chunks_return
              w p trial_counter trial_type (arange 1 (block_len - 2))
              (Z.to_nat (interim_frames p / attention_frames p)) Hc 0%Z
              (clock_message w p "INTERIM_START" trial_counter trial_type
                             false se)) as (sg & ->).
  cbn [bind]. eauto.
Qed.

Lemma run_trials_return (w : world) (p : params) (block_len : Z)
      (rest : list string) :
  condition p = "attend" -> attention_frames p <> 0%Z ->
  Forall known_type rest ->
  forall (trial_counter : Z) (s : state),
    exists s', run_trials w p block_len trial_counter rest s = Done s'.
Proof.
  intros Hc Haf Hk. induction Hk as [|trial_type rest Hk Hrest IH];
    intros trial_counter s; cbn [run_trials]; [eauto|].
  destruct (run_trial_returns w p block_len trial_counter trial_type s
                              Hc Haf Hk) as (s1 & ->).
  cbn [bind]. apply IH.
Qed.

(** With a chunk of no frame the first division of the trial is by
    zero. *)
Lemma run_trial_zero_chunk (w : world) (p : params)
      (block_len trial_counter : Z) (trial_type : string) (s : state) :
  attention_frames p = 0%Z ->
  failed (run_trial w p block_len trial_counter trial_type s)
  /\ (condition p = "attend" ->
      run_trial w p block_len trial_counter trial_type s
      = Raises ZeroDivisionError).
Proof.
  intros Haf. unfold run_trial, stimulus_phase, for_range, floordiv.
  rewrite Haf. cbn [Z.to_nat for_from Z.eqb bind].
  set (sc := choose_stimulus p trial_type _).
  split.
  - destruct (select p trial_counter (arange 1 (block_len - 2)) sc)
      as [sd|e|] eqn:Ed; cbn [bind].
    + now exists ZeroDivisionError.
    + now exists e.
    + now apply select_no_timeout in Ed.
  - intros Hc.
    destruct (select_attend p trial_counter (arange 1 (block_len - 2)) sc
                            Hc) as (sd & ->).
    reflexivity.
Qed.

End RunnerTrials.

(* ================================================================== *)
(** * The runner: a whole block *)
(* ================================================================== *)

Module RunnerFacts.

Import Selector Runner Config Scenarios Observations RunnerSteps
       RunnerTrials.

Local Open Scope string_scope.
Local Open Scope list_scope.

(** What a block commits, and how many offset markers it sends. *)
Lemma run_block_counts (w : world) (p : params) (block : list string)
      (s s' : state) :
  run_block w p block s = Done s' ->
  flips s' = (flips s + List.length block * frames_per_trial p)%nat
  /\ offsets (visual_trace (trace s'))
     = (offsets (visual_trace (trace s))
        + List.length block * if offset_due p then 1 else 0)%nat.
Proof.
  unfold run_block. intros H. apply run_trials_counts in H.
  destruct (practice p); [exact H|].
  destruct H as [Hf Ho]. split; [exact Hf|]. rewrite Ho.
  unfold msg_eyetracker. cbn [emit enter trace].
  rewrite !visual_trace_app. cbn. now rewrite !app_nil_r.
Qed.

(** In the attend condition, with a chunk of at least one frame, a
    block of standards and oddballs runs to its end whatever keys are
    pressed, and commits every frame of every trial. *)
Lemma run_block_returns (w : world) (p : params) (block : list string)
      (s : state) :
  condition p = "attend" -> attention_frames p <> 0%Z ->
  Forall known_type block ->
  exists s',
    run_block w p block s = Done s'
    /\ flips s' = (flips s + List.length block * frames_per_trial p)%nat.
Proof.
  intros Hc Haf Hk.
  destruct (run_trials_return
              w p (Z.of_nat (List.length block)) block Hc Haf Hk 0%Z
              (let s1 := enter (gen s) (flips s) (polls s) (queries s)
                               (readings s) (trace s) (fixation_obj s)
                               (delay_countdown s) in
               if practice p then s1
               else msg_eyetracker
                      "BLOCK_START"
                      (mkMessage [(session_counter p + 1)%Z;
                                  (block_counter p + 1)%Z] None [])
                      true false s1)) as (s' & H).
  exists s'. split; [exact H|].
  now apply run_block_counts in H.
Qed.

Lemma offset_due_spec (p : params) :
  offset_due p = true
  <-> practice p = false
      /\ (0 <= main_stim_frames p < attention_frames p)%Z.
Proof.
  unfold offset_due. rewrite !andb_true_iff, negb_true_iff.
  rewrite Z.leb_le, Z.ltb_lt. tauto.
Qed.

(** C8, as the code has it. In the stimulus phase of a trial the
    primary stimulus is drawn on the frames of index below
    [main_stim_frames] only, and the probe on every frame. Outside
    practice the offset marker follows the commit of the frame of index
    [main_stim_frames] and carries the time of that commit; a trial
    sends it once when [0 <= main_stim_frames < attention_frames] and
    never otherwise, and a practice run sends none. For the block
    s s s s o with chunks of 5 frames and a stimulus of 3 frames, every
    trial draws the stimulus on frames 0 to 2 and sends the marker at
    the commit of frame 3. *)
Theorem offset_marker_once_per_trial (w : world) (p : params) :
  (forall trial_counter trial_type frame_index s s',
      stimulus_frame w p trial_counter trial_type frame_index s = Done s' ->
      shows (expected_frame p (trial_stim s) (flip_time w (flips s))
                            frame_index) 1 s s')
  /\ (forall trial_counter trial_type s s',
         stimulus_phase w p trial_counter trial_type s = Done s' ->
         shows (expected_frames w p (trial_stim s) (flips s) 0
                                (Z.to_nat (attention_frames p)))
               (Z.to_nat (attention_frames p)) s s')
  /\ (forall block_len trial_counter trial_type s s',
         run_trial w p block_len trial_counter trial_type s = Done s' ->
         offsets (visual_trace (trace s'))
         = (offsets (visual_trace (trace s))
            + if offset_due p then 1 else 0)%nat)
  /\ (forall block s s',
         run_block w p block s = Done s' ->
         offsets (visual_trace (trace s'))
         = (offsets (visual_trace (trace s))
            + List.length block * if offset_due p then 1 else 0)%nat)
  /\ (offset_due p = true
      <-> practice p = false
          /\ (0 <= main_stim_frames p < attention_frames p)%Z)
  /\ (exists s',
         run_block quiet_world (attend_params false) block5
                   (first_call always_hit) = Done s'
         /\ visual_trace (trace s') = scenario_run quiet_world).
Proof.
  split; [|split; [|split; [|split; [|split]]]].
  - intros trial_counter trial_type frame_index s s' H.
    apply extends_shows. eapply stimulus_frame_extends. exact H.
  - intros trial_counter trial_type s s' H.
    unfold stimulus_phase, for_range in H.
    apply extends_shows. now apply stimulus_frames_extends in H.
  - intros block_len trial_counter trial_type s s'.
    apply run_trial_offsets.
  - intros block s s' H. now apply run_block_counts in H.
  - apply offset_due_spec.
  - destruct (run_block quiet_world (attend_params false) block5
                        (first_call always_hit)) as [s'| |] eqn:E.
    + exists s'. split; [reflexivity|].
      apply (f_equal (fun r => match r with
                               | Done x => visual_trace (trace x)
                               | _ => []
                               end)) in E.
      rewrite <- E. vm_compute. reflexivity.
    + vm_compute in E. discriminate.
    + vm_compute in E. discriminate.
Qed.

(** The scenario outside practice: five trials, five offset markers. *)
Lemma offset_marker_once_per_trial_witness :
  exists s',
    run_block quiet_world (attend_params false) block5
              (first_call always_hit) = Done s'
    /\ offsets (visual_trace (trace s')) = 5%nat.
Proof.
  destruct (offset_marker_once_per_trial quiet_world (attend_params false))
    as (_ & _ & _ & Hblock & _ & (s' & Hrun & _)).
  exists s'. split; [exact Hrun|].
  rewrite (Hblock _ _ _ Hrun). reflexivity.
Defined.

(** The scenario in practice: [main_stim_frames < attention_frames],
    five trials, and no offset marker. *)
Lemma practice_run_sends_no_offset :
  ~ (forall w p block s s',
        run_block w p block s = Done s' ->
        (main_stim_frames p < attention_frames p)%Z ->
        offsets (visual_trace (trace s'))
        = (offsets (visual_trace (trace s)) + List.length block)%nat).
Proof.
  intros H.
  destruct (run_block_returns quiet_world (attend_params true) block5
                              (first_call always_hit))
    as (s' & Hrun & _).
  - reflexivity.
  - discriminate.
  - repeat constructor; (now left) || (now right).
  - pose proof (H _ _ _ _ _ Hrun eq_refl) as Hclaim.
    apply run_block_counts in Hrun. destruct Hrun as [_ Ho].
    rewrite Ho in Hclaim. cbn in Hclaim. lia.
Qed.

(** C7, at the escape key. [run_block] has no abort key: escape pressed
    during the first frame is recorded and reported as an unexpected
    key like any key other than space, and the run goes on to commit
    all 75 frames of the block. *)
Theorem escape_key_is_an_unexpected_key :
  (forall p trial_counter s t,
      handle_key p trial_counter s ("escape", t)
      = let s1 := with_keypress (n_attention_responses s)
                                (keypress_times s ++ [t]) s in
        if practice p then s1
        else msg_eyetracker
               "UNEXPECTED_KEY_RESPONSE"
               (mkMessage (trial_indices p trial_counter) (Some t)
                          [("Key", "escape")])
               true false s1)
  /\ (exists s',
         run_block escape_world (attend_params false) block5
                   (first_call always_hit) = Done s'
         /\ flips s' = 75%nat
         /\ n_attention_responses s' = 0%Z
         /\ In (SendMessage "UNEXPECTED_KEY_RESPONSE"
                            (mkMessage [1; 1; 1]%Z (Some (1 # 200))
                                       [("Key", "escape")]))
               (trace s')).
Proof.
  split; [reflexivity|].
  destruct (run_block escape_world (attend_params false) block5
                      (first_call always_hit)) as [s'| |] eqn:E.
  - exists s'. split; [reflexivity|].
    assert (flips s' = 75%nat) as Hf.
    { apply (f_equal (fun r => match r with
                               | Done x => flips x
                               | _ => 0%nat
                               end)) in E.
      rewrite <- E. vm_compute. reflexivity. }
    assert (n_attention_responses s' = 0%Z) as Hn.
    { apply (f_equal (fun r => match r with
                               | Done x => n_attention_responses x
                               | _ => 1%Z
                               end)) in E.
      rewrite <- E. vm_compute. reflexivity. }
    assert (nth_error (trace s') 12
            = Some (SendMessage "UNEXPECTED_KEY_RESPONSE"
                                (mkMessage [1; 1; 1]%Z (Some (1 # 200))
                                           [("Key", "escape")]))) as Hk.
    { apply (f_equal (fun r => match r with
                               | Done x => nth_error (trace x) 12
                               | _ => None
                               end)) in E.
      rewrite <- E. vm_compute. reflexivity. }
    split; [exact Hf|]. split; [exact Hn|].
    eapply nth_error_In. exact Hk.
  - vm_compute in E. discriminate.
  - vm_compute in E. discriminate.
Qed.

(** C10. With [attention_frames = 0], a count the frame clock gives for
    a refresh rate that is not positive or a negative duration,
    [run_block] fails on every block that has a trial: the number of
    interim chunks, [interim_frames // attention_frames], divides by
    zero. With [attention_frames >= 1], in the attend condition, a
    block of standards and oddballs runs to its end. *)
Theorem run_block_needs_a_frame (w : world) (p : params)
        (block : list string) (s : state) :
  (attention_frames p = 0%Z -> block <> [] ->
   failed (run_block w p block s))
  /\ (attention_frames p = 0%Z -> block <> [] ->
      condition p = "attend" ->
      run_block w p block s = Raises ZeroDivisionError)
  /\ ((1 <= attention_frames p)%Z -> condition p = "attend" ->
      Forall known_type block ->
      exists s', run_block w p block s = Done s')
  /\ (forall duration_seconds refresh_rate,
         (refresh_rate <= 0)%Q \/ (duration_seconds < 0)%Q ->
         FrameClock.get_nearest_frame duration_seconds refresh_rate = 0%Z).
Proof.
  split; [|split; [|split]].
  - intros Haf Hne. destruct block as [|trial_type rest]; [congruence|].
    unfold run_block. cbn [run_trials].
    match goal with
    | |- failed (bind (run_trial ?w ?p ?n ?i ?t ?x) _) =>
        destruct (run_trial_zero_chunk w p n i t x Haf) as [(e & ->) _]
    end.
    now exists e.
  - intros Haf Hne Hc. destruct block as [|trial_type rest]; [congruence|].
    unfold run_block. cbn [run_trials].
    match goal with
    | |- bind (run_trial ?w ?p ?n ?i ?t ?x) _ = _ =>
        destruct (run_trial_zero_chunk w p n i t x Haf) as [_ Hz]
    end.
    now rewrite (Hz Hc).
  - intros Haf Hc Hk.
    destruct (run_block_returns w p block s Hc) as (s' & H & _);
      [lia|exact Hk|eauto].
  - intros duration_seconds refresh_rate [H|H].
    + now apply FrameClockFacts.get_nearest_frame_bad_fps.
    + now apply FrameClockFacts.get_nearest_frame_negative.
Qed.

(** The scenario with chunks of no frame. *)
Lemma run_block_needs_a_frame_witness :
  run_block quiet_world zero_chunk_params block5 (first_call always_hit)
  = Raises ZeroDivisionError.
Proof.
  destruct (run_block_needs_a_frame quiet_world zero_chunk_params block5
                                    (first_call always_hit))
    as (_ & H & _).
  apply H; [reflexivity|discriminate|reflexivity].
Defined.

End RunnerFacts.

(* ================================================================== *)
(** * More on the block planner *)
(* ================================================================== *)

Module PlannerMore.

Import Planner Scenarios Shapes PlannerFacts.

Local Open Scope string_scope.
Local Open Scope list_scope.

(** What the loop of [create_block] returns, draw by draw. *)
Lemma create_block_loop_draws (chance : Q) (fuel : nat) :
  forall (blk : block) (g : rng) (b : block) (g' : rng),
    create_block_loop chance fuel blk g = Done (b, g') ->
    exists k,
      b = blk ++ standards_then_oddball k
      /\ g' = skip (S k) g
      /\ (uniform g (pos g + k) < chance)%Q
      /\ (forall j, (j < k)%nat -> (chance <= uniform g (pos g + j))%Q).
Proof.
  induction fuel as [|fuel IH]; intros blk g b g' H; simpl in H.
  - discriminate.
  - destruct (Qltb (uniform g (pos g)) chance) eqn:E.
    + apply Done_inj in H. inversion H; subst. exists 0%nat.
      rewrite Nat.add_0_r. apply Qltb_lt in E.
      repeat split; [exact E|]. intros j Hj. lia.
    + apply IH in H. destruct H as (k & -> & -> & Hlast & Hbefore).
      exists (S k). apply Qltb_ge in E.
      cbn [advance pos uniform] in Hlast, Hbefore.
      split; [|split; [|split]].
      * unfold standards_then_oddball. simpl. now rewrite <- app_assoc.
      * reflexivity.
      * now replace (pos g + S k)%nat with (S (pos g) + k)%nat by lia.
      * intros [|j] Hj; [now rewrite Nat.add_0_r|].
        replace (pos g + S j)%nat with (S (pos g) + j)%nat by lia.
        apply Hbefore. lia.
Qed.

(** X3. A block that [create_block] returns has its leading standards,
    then one more standard for every draw that was not below the
    chance, then the oddball for the first draw below it; the random
    source has moved on by exactly these draws. *)
Theorem create_block_geometric (min_standards : Z) (chance : Q)
        (fuel : nat) (g : rng) (b : block) (g' : rng) :
  create_block min_standards chance fuel g = Done (b, g') ->
  exists k,
    b = repeat "s" (Z.to_nat min_standards + k) ++ ["o"]
    /\ List.length b = (Z.to_nat min_standards + k + 1)%nat
    /\ pos g' = (pos g + k + 1)%nat
    /\ (uniform g (pos g + k) < chance)%Q
    /\ (forall j, (j < k)%nat -> (chance <= uniform g (pos g + j))%Q).
Proof.
  unfold create_block. intros H.
  apply create_block_loop_draws in H.
  destruct H as (k & -> & -> & Hlast & Hbefore).
  exists k. unfold standards_then_oddball.
  rewrite app_assoc, <- repeat_app.
  split; [reflexivity|]. split; [|split; [|split]].
  - rewrite length_app, repeat_length. simpl. lia.
  - rewrite pos_skip. lia.
  - exact Hlast.
  - exact Hbefore.
Qed.

Lemma create_block_geometric_witness :
  exists k,
    ["s"; "s"; "s"; "s"; "s"; "o"] = repeat "s" (Z.to_nat 2 + k) ++ ["o"]
    /\ pos (skip 4 late_hit) = (pos late_hit + k + 1)%nat.
Proof.
  destruct (create_block_geometric 2 (1 # 5) 10 late_hit
              ["s"; "s"; "s"; "s"; "s"; "o"] (skip 4 late_hit) eq_refl)
    as (k & Hb & _ & Hp & _).
  exists k. split; assumption.
Defined.

(** X4. With draws in [[0, 1)]: a chance of zero or less never ends
    the loop of [create_block], and a chance of one or more ends it at
    the first draw, so that the block is the leading standards and the
    oddball. *)
Theorem create_block_extreme_chance (min_standards : Z) (chance : Q)
        (g : rng) :
  unit_range g ->
  ((chance <= 0)%Q ->
   forall fuel, create_block min_standards chance fuel g = Timeout)
  /\ ((1 <= chance)%Q ->
      forall fuel,
        create_block min_standards chance (S fuel) g
        = Done (repeat "s" (Z.to_nat min_standards) ++ ["o"], advance g)).
Proof.
  intros Hu. split.
  - intros Hc fuel.
    destruct (create_block min_standards chance fuel g)
      as [[b g']|e|] eqn:E; [| |reflexivity].
    + apply create_block_geometric in E.
      destruct E as (k & _ & _ & _ & Hlast & _).
      destruct (Hu (pos g + k)%nat) as [H0 _]. lra.
    + unfold create_block in E.
      now apply create_block_loop_no_exception in E.
  - intros Hc fuel. unfold create_block. cbn [create_block_loop].
    unfold random.
    destruct (Hu (pos g)) as [_ H1].
    replace (Qltb (uniform g (pos g)) chance) with true
      by (symmetry; apply Qltb_lt; lra).
    reflexivity.
Qed.

Lemma always_hit_unit_range : unit_range always_hit.
Proof. intros n. split; [discriminate|reflexivity]. Qed.

Lemma create_block_extreme_chance_witness :
  create_block 2 0 7 always_hit = Timeout
  /\ create_block 2 1 1 always_hit
     = Done (["s"; "s"; "o"], advance always_hit).
Proof.
  destruct (create_block_extreme_chance 2 0 always_hit
                                        always_hit_unit_range) as [H0 _].
  destruct (create_block_extreme_chance 2 1 always_hit
                                        always_hit_unit_range) as [_ H1].
  split; [apply H0; discriminate|apply (H1 ltac:(discriminate) 0%nat)].
Defined.

Lemma phase1_well_formed (max_ses_seconds trial_duration : Q)
      (min_standards : Z) (chance : Q) (fuel bfuel : nat) :
  forall blocks est g blocks' est' g',
    Forall (well_formed min_standards) blocks ->
    phase1 max_ses_seconds trial_duration min_standards chance
           fuel bfuel blocks est g = Done (blocks', est', g') ->
    Forall (well_formed min_standards) blocks'.
Proof.
  induction fuel as [|fuel IH]; intros blocks est g blocks' est' g' Hwf H;
    cbn [phase1] in H.
  - discriminate.
  - destruct (create_block min_standards chance bfuel g)
      as [[b g1]| |] eqn:Eb; cbn [bind] in H; try discriminate.
    destruct (Qle_bool _ _).
    + apply IH in H; [exact H|].
      apply Forall_app. split; [exact Hwf|]. constructor; [|constructor].
      apply create_block_done in Eb. exact Eb.
    + apply Done_inj in H. inversion H; subst. exact Hwf.
Qed.

(** X5. Every block of a plan that [populate_session] returns, the
    filler block included, is at least [min_standards] standards
    followed by one oddball. *)
Theorem populate_session_well_formed
        (max_minutes attention_sec interim_sec : Q) (min_standards : Z)
        (chance : Q) (fuel : nat) (g : rng)
        (blocks : list block) (est : Q) (g' : rng) :
  populate_session max_minutes attention_sec interim_sec min_standards
                   chance fuel g = Done (blocks, est, g') ->
  Forall (well_formed min_standards) blocks.
Proof.
  unfold populate_session.
  destruct (phase1 _ _ _ _ _ _ _ _ _) as [[[bs e1] g1]| |] eqn:E1;
    cbn [bind]; try discriminate.
  apply phase1_well_formed in E1; [|constructor].
  destruct (Qeq_bool _ _); [discriminate|].
  remember (Qfloor _) as n eqn:En. clear En.
  destruct (min_standards + 1 <=? n)%Z eqn:E2; intros H;
    apply Done_inj in H; inversion H; subst; [|exact E1].
  apply Z.leb_le in E2.
  apply Forall_app. split; [exact E1|]. constructor; [|constructor].
  exists (Z.to_nat (n - 1) - Z.to_nat min_standards)%nat.
  unfold filler_block. f_equal. f_equal. lia.
Qed.

Lemma populate_session_well_formed_witness :
  exists blocks est g',
    populate_session (1 # 4) (1 # 5) 2 2 (1 # 5) 5 always_hit
    = Done (blocks, est, g')
    /\ Forall (well_formed 2) blocks.
Proof.
  destruct (populate_session (1 # 4) (1 # 5) 2 2 (1 # 5) 5 always_hit)
    as [[[blocks est] g']| |] eqn:E.
  - exists blocks, est, g'. split; [reflexivity|].
    exact (populate_session_well_formed _ _ _ _ _ _ _ _ _ _ E).
  - vm_compute in E. discriminate.
  - vm_compute in E. discriminate.
Defined.

Lemma phase1_zero_duration (max_ses_seconds trial_duration : Q)
      (min_standards : Z) (chance : Q) (fuel bfuel : nat) :
  (trial_duration == 0)%Q ->
  forall blocks est g,
    (est <= max_ses_seconds)%Q ->
    phase1 max_ses_seconds trial_duration min_standards chance
           fuel bfuel blocks est g = Timeout.
Proof.
  intros Htd. induction fuel as [|fuel IH]; intros blocks est g Hle;
    cbn [phase1]; [reflexivity|].
  destruct (create_block min_standards chance bfuel g)
    as [[b g1]|e|] eqn:Eb; cbn [bind]; [| |reflexivity].
  - assert (block_duration trial_duration b == 0)%Q as Hd
        by (unfold block_duration; rewrite Htd; ring).
    replace (Qle_bool (est + block_duration trial_duration b)
                      max_ses_seconds) with true
      by (symmetry; apply Qle_bool_iff; lra).
    apply IH. lra.
  - unfold create_block in Eb.
    now apply create_block_loop_no_exception in Eb.
Qed.

(** X7. When [attention_sec + interim_sec] is zero [populate_session]
    returns no plan: with a budget that is not negative every block
    fits and the first loop never ends, and in any case the division of
    the second phase is by zero. *)
Theorem populate_session_zero_duration
        (max_minutes attention_sec interim_sec : Q) (min_standards : Z)
        (chance : Q) (fuel : nat) (g : rng) :
  (attention_sec + interim_sec == 0)%Q ->
  (forall r,
      populate_session max_minutes attention_sec interim_sec
                       min_standards chance fuel g <> Done r)
  /\ ((0 <= max_minutes)%Q ->
      populate_session max_minutes attention_sec interim_sec
                       min_standards chance fuel g = Timeout).
Proof.
  intros Htd. split.
  - intros r. unfold populate_session.
    destruct (phase1 _ _ _ _ _ _ _ _ _) as [[[bs e1] g1]| |];
      cbn [bind]; try discriminate.
    replace (Qeq_bool (attention_sec + interim_sec) 0) with true
      by (symmetry; now apply Qeq_bool_iff).
    discriminate.
  - intros Hmax. unfold populate_session.
    rewrite phase1_zero_duration; [reflexivity|exact Htd|lra].
Qed.

Lemma populate_session_zero_duration_witness :
  populate_session 1 0 0 2 (1 # 5) 9 always_hit = Timeout.
Proof.
  apply (populate_session_zero_duration 1 0 0 2 (1 # 5) 9 always_hit);
    [reflexivity|discriminate].
Defined.

End PlannerMore.

(* ================================================================== *)
(** * More on the letter rule *)
(* ================================================================== *)

Module LetterMore.

Import Selector Config Scenarios SelectorFacts LetterFacts.

Local Open Scope string_scope.
Local Open Scope list_scope.

Lemma str_in_In (s : string) (l : list string) :
  str_in (Some s) l = true <-> In s l.
Proof.
  cbn [str_in]. rewrite existsb_exists. split.
  - intros (x & Hx & E). apply String.eqb_eq in E. now subst.
  - intros H. exists s. split; [exact H|apply String.eqb_refl].
Qed.

Lemma remove_first_In (s x : string) (l : list string) :
  In x (remove_first s l) -> In x l.
Proof.
  induction l as [|h t IH]; simpl; [auto|].
  destruct (String.eqb h s); [now right|].
  intros [->|H]; [now left|right; auto].
Qed.

Lemma remove_first_count (s : string) (l : list string) :
  In s l ->
  S (count_occ string_dec (remove_first s l) s)
  = count_occ string_dec l s.
Proof.
  induction l as [|h t IH]; simpl; [contradiction|].
  destruct (String.eqb_spec h s) as [->|Hne].
  - intros _. now destruct (string_dec s s).
  - intros [E|H]; [congruence|]. simpl.
    destruct (string_dec h s); [congruence|auto].
Qed.

(** The candidates that are left once the previous letter is out. *)
Lemma get_letter_choice (allow_target : bool) (target : string)
      (distractors : list string) (threshold countdown : Z)
      (avoid : option string) (g : rng) :
  get_letter allow_target target distractors threshold countdown avoid g
  = choice (let cands := candidate_letters allow_target target distractors
                                           threshold countdown in
            if str_in avoid cands then list_remove avoid cands else cands)
           g.
Proof. reflexivity. Qed.

Lemma get_letter_In (allow_target : bool) (target : string)
      (distractors : list string) (threshold countdown : Z)
      (avoid : option string) (g : rng) (letter : string) (g' : rng) :
  get_letter allow_target target distractors threshold countdown avoid g
  = Done (letter, g') ->
  In letter (candidate_letters allow_target target distractors threshold
                               countdown).
Proof.
  rewrite get_letter_choice. cbv zeta.
  set (cands := candidate_letters _ _ _ _ _). unfold choice.
  destruct (nth_error _ _) as [a|] eqn:En; [|discriminate].
  intros H. apply Done_inj in H. inversion H; subst a g'.
  apply nth_error_In in En.
  destruct (str_in avoid cands); [|exact En].
  destruct avoid as [a|]; cbn [list_remove] in En; [|exact En].
  now apply remove_first_In in En.
Qed.

(** X8. The letter rule of block_handler.py returns one of its
    candidates and makes one draw; it raises, and then [IndexError],
    exactly when there is no candidate or the single candidate is the
    letter to avoid. *)
Theorem get_letter_result (allow_target : bool) (target : string)
        (distractors : list string) (threshold countdown : Z)
        (avoid : option string) (g : rng) :
  let cands := candidate_letters allow_target target distractors
                                 threshold countdown in
  (forall letter g',
      get_letter allow_target target distractors threshold countdown
                 avoid g = Done (letter, g') ->
      In letter cands /\ g' = advance g)
  /\ (get_letter allow_target target distractors threshold countdown
                 avoid g = Raises IndexError
      <-> cands = [] \/ (exists a, avoid = Some a /\ cands = [a]))
  /\ get_letter allow_target target distractors threshold countdown
                avoid g <> Timeout
  /\ (forall e,
         get_letter allow_target target distractors threshold countdown
                    avoid g = Raises e -> e = IndexError).
Proof.
  intros cands. rewrite get_letter_choice. fold cands. cbv zeta.
  set (left := if str_in avoid cands then list_remove avoid cands
               else cands).
  assert (forall x, In x left -> In x cands) as Hsub.
  { unfold left. destruct (str_in avoid cands); [|auto].
    destruct avoid as [a|]; cbn [list_remove]; [|auto].
    intros x. apply remove_first_In. }
  assert (left = [] <-> cands = [] \/ (exists a, avoid = Some a
                                                 /\ cands = [a])) as Hempty.
  { unfold left. destruct avoid as [a|]; cbn [list_remove].
    - destruct (str_in (Some a) cands) eqn:Ein.
      + pose proof (remove_first_length a cands Ein) as Hlen. split.
        * intros E. rewrite E in Hlen. right. exists a. split; [auto|].
          destruct cands as [|h [|h2 t]]; try discriminate.
          cbn in Ein. rewrite orb_false_r in Ein.
          apply String.eqb_eq in Ein. now subst.
        * intros [E|(b & Eb & E)].
          -- rewrite E in Ein. discriminate.
          -- inversion Eb; subst b. rewrite E. cbn [remove_first].
             now rewrite String.eqb_refl.
      + split; [auto|]. intros [E|(b & Eb & E)]; [exact E|].
        inversion Eb; subst b. rewrite E in Ein.
        cbn [str_in existsb] in Ein.
        now rewrite String.eqb_refl in Ein.
    - cbn [str_in]. split; [auto|]. intros [E|(b & Eb & _)];
        [exact E|discriminate]. }
  destruct left as [|h t] eqn:El.
  - rewrite choice_empty. repeat split; try discriminate.
    + intros _. now apply Hempty.
    + intros e H. now inversion H.
  - destruct (choice_nonempty (h :: t) g) as (a & Ha & Hin);
      [discriminate|].
    rewrite Ha. repeat split; try discriminate.
    + inversion H; subst. auto.
    + now inversion H.
    + intros H. apply Hempty in H. discriminate.
Qed.

Lemma get_letter_result_witness :
  get_letter false "X" [] (-4) 0 (Some "Z") fifth = Raises IndexError.
Proof.
  destruct (get_letter_result false "X" [] (-4) 0 (Some "Z") fifth)
    as (_ & Hraise & _).
  apply Hraise. left. reflexivity.
Defined.

(** X9. When the letter to avoid is among the candidates at most once,
    the letter rule of block_handler.py does not return it. *)
Theorem get_letter_no_repeat (allow_target : bool) (target : string)
        (distractors : list string) (threshold countdown : Z)
        (avoid : string) (g : rng) (letter : string) (g' : rng) :
  (count_occ string_dec
             (candidate_letters allow_target target distractors
                                threshold countdown) avoid <= 1)%nat ->
  get_letter allow_target target distractors threshold countdown
             (Some avoid) g = Done (letter, g') ->
  letter <> avoid.
Proof.
  intros Hcount. rewrite get_letter_choice. cbv zeta.
  set (cands := candidate_letters _ _ _ _ _) in *.
  unfold choice.
  destruct (nth_error _ _) as [a|] eqn:En; [|discriminate].
  intros H. apply Done_inj in H. inversion H; subst a g'.
  apply nth_error_In in En.
  destruct (str_in (Some avoid) cands) eqn:Ein.
  - cbn [list_remove] in En. apply str_in_In in Ein.
    pose proof (remove_first_count avoid cands Ein) as Hc.
    intros ->. apply (count_occ_In string_dec) in En. lia.
  - intros ->. apply str_in_In in En. congruence.
Qed.

Lemma get_letter_no_repeat_witness :
  exists letter g',
    get_letter true TARGET_LETTER DISTRACTOR_LETTERS
               TARGET_PROB_INCREASE_THRESHOLD (-1) (Some "X") fifth
    = Done (letter, g')
    /\ letter <> "X".
Proof.
  destruct (get_letter true TARGET_LETTER DISTRACTOR_LETTERS
                       TARGET_PROB_INCREASE_THRESHOLD (-1) (Some "X") fifth)
    as [[letter g']| |] eqn:E.
  - exists letter, g'. split; [reflexivity|].
    apply (get_letter_no_repeat true TARGET_LETTER DISTRACTOR_LETTERS
                                TARGET_PROB_INCREASE_THRESHOLD (-1) "X"
                                fifth letter g'); [|exact E].
    vm_compute. lia.
  - vm_compute in E. discriminate.
  - vm_compute in E. discriminate.
Defined.

(** X10. The letter rule of trial_logic.py always returns: a candidate
    when there is one, and "?" otherwise. When the letter to avoid is
    among the candidates at most once it is returned only if it is the
    single candidate. *)
Theorem older_rule_result (allow_targets : bool) (avoid : option string)
        (target : string) (distractors : list string) (g : rng) :
  let cands := if allow_targets then distractors ++ [target]
               else distractors in
  exists letter g',
    TrialLogic.get_letter allow_targets avoid target distractors g
    = Done (letter, g')
    /\ (cands = [] -> letter = "?")
    /\ (cands <> [] -> In letter cands)
    /\ (forall a, avoid = Some a ->
                  (count_occ string_dec cands a <= 1)%nat ->
                  letter = a -> cands = [a] \/ cands = []).
Proof.
  intros cands. unfold TrialLogic.get_letter. fold cands.
  destruct cands as [|h t] eqn:Ec.
  - exists "?", g. destruct avoid as [a|]; cbn.
    + repeat split; auto; congruence.
    + repeat split; auto; congruence.
  - rewrite <- Ec.
    destruct (str_in avoid cands) eqn:Ein.
    + destruct avoid as [a|]; [|discriminate]. cbn [list_remove].
      pose proof (remove_first_length a cands Ein) as Hlen.
      destruct (1 <? Z.of_nat (List.length cands))%Z eqn:Egt.
      * apply Z.ltb_lt in Egt.
        destruct (remove_first a cands) as [|h2 t2] eqn:Er;
          [cbn in Hlen; lia|].
        destruct (choice_nonempty (h2 :: t2) g) as (x & Hx & Hin);
          [discriminate|].
        exists x, (advance g). cbv beta iota. rewrite Hx.
        split; [reflexivity|]. split; [congruence|].
        split; [intros _; apply (remove_first_In a); now rewrite Er|].
        intros b Hb Hcount ->. inversion Hb; subst b.
        apply str_in_In in Ein.
        pose proof (remove_first_count a cands Ein) as Hc.
        rewrite Er in Hc. apply (count_occ_In string_dec) in Hin. lia.
      * apply Z.ltb_ge in Egt. rewrite Ec.
        destruct (choice_nonempty (h :: t) g) as (x & Hx & Hin);
          [discriminate|].
        exists x, (advance g). cbv beta iota. rewrite Hx.
        split; [reflexivity|]. split; [discriminate|].
        split; [auto|]. intros b Hb _ Hxb. left.
        rewrite Ec in Egt, Ein.
        destruct t as [|h2 t2]; [|cbn in Egt; lia].
        cbn in Ein. rewrite orb_false_r in Ein.
        apply String.eqb_eq in Ein. inversion Hb; subst. reflexivity.
    + replace (Z.of_nat (List.length cands) =? 0)%Z with false
        by (rewrite Ec; reflexivity).
      rewrite Ec.
      destruct (choice_nonempty (h :: t) g) as (x & Hx & Hin);
        [discriminate|].
      exists x, (advance g). cbv beta iota. rewrite Hx.
      split; [reflexivity|]. split; [discriminate|].
      split; [auto|]. intros b Hb _ Hxb. exfalso.
      subst avoid x. rewrite <- Ec in Hin.
      apply str_in_In in Hin. congruence.
Qed.

Lemma older_rule_result_witness :
  exists letter g',
    TrialLogic.get_letter false (Some "Z") "X" ["Z"; "L"] fifth
    = Done (letter, g')
    /\ letter <> "Z".
Proof.
  destruct (older_rule_result false (Some "Z") "X" ["Z"; "L"] fifth)
    as (letter & g' & Hrun & _ & _ & Hrep).
  exists letter, g'. split; [exact Hrun|].
  intros E. destruct (Hrep "Z" eq_refl) as [H|H];
    [vm_compute; lia|exact E|discriminate|discriminate].
Defined.

End LetterMore.

(* ================================================================== *)
(** * More on the selector *)
(* ================================================================== *)

Module SelectorMore.

Import Selector Config Scenarios SelectorFacts CountdownFacts LetterMore.

Local Open Scope string_scope.
Local Open Scope list_scope.

(** With targets not allowed the divert branch shows a distractor. *)
Lemma divert_closed_gate
      (idx : Z) (idxs : list Z) (fobj : fixation) (nc ac : colour)
      (ch : Q) (target : string) (distractors : list string)
      (n drd cd thr : Z) (g : rng) (x : selection) (g' : rng) :
  ~ In target distractors ->
  allow_target_for idx idxs cd = false ->
  determine_attention_stimulus "divert" idx idxs fobj nc ac ch target
                               distractors n drd cd thr g = Done (x, g') ->
  sel_is_target x = false /\ sel_targets x = n
  /\ sel_countdown x = (cd - 1)%Z /\ In (sel_letter x) distractors.
Proof.
  intros Hnot Hgate. unfold determine_attention_stimulus.
  cbn [String.eqb Ascii.eqb Bool.eqb]. cbv beta iota. rewrite Hgate.
  destruct (get_letter false target distractors thr cd
                       (Some (text fobj)) g) as [[letter g1]| |] eqn:El;
    cbn [bind]; try discriminate.
  apply get_letter_In in El. cbn [candidate_letters] in El.
  cbn [set_text text].
  destruct (String.eqb_spec letter target) as [->|Hne]; [contradiction|].
  intros H. apply Done_inj in H. inversion H; subst. cbn. auto.
Qed.

(** X11. On a trial that is not eligible, the first trial and the last
    two of a block, no call of the selector produces a target, in
    either condition and whatever the countdown and the draws, as long
    as the target letter is no distractor: the target count stays and
    the countdown goes down by one. *)
Theorem no_target_near_block_ends
        (condition : string) (block_len idx : Z) (fobj : fixation)
        (nc ac : colour) (ch : Q) (target : string)
        (distractors : list string) (n drd cd thr : Z) (g : rng)
        (x : selection) (g' : rng) :
  ~ In target distractors ->
  ~ (1 <= idx < block_len - 2)%Z ->
  determine_attention_stimulus condition idx (arange 1 (block_len - 2))
                               fobj nc ac ch target distractors n drd cd
                               thr g = Done (x, g') ->
  sel_is_target x = false /\ sel_targets x = n
  /\ sel_countdown x = (cd - 1)%Z.
Proof.
  intros Hnot Hidx.
  assert (idx_in idx (arange 1 (block_len - 2)) = false) as Hin.
  { apply not_true_iff_false. intros H. apply idx_in_In in H.
    apply arange_In in H. contradiction. }
  destruct (String.eqb_spec condition "divert") as [->|Hd].
  - intros H. apply divert_closed_gate in H; [tauto|exact Hnot|].
    unfold allow_target_for. now rewrite Hin.
  - unfold determine_attention_stimulus. rewrite Hin. cbn [negb].
    destruct (String.eqb condition "attend").
    + intros H. apply Done_inj in H. inversion H; subst. now cbn.
    + apply String.eqb_neq in Hd. rewrite Hd.
      intros H. apply Done_inj in H. inversion H; subst. now cbn.
Qed.

Lemma no_target_near_block_ends_witness :
  exists x g',
    determine_attention_stimulus
      "attend" 0 (arange 1 (5 - 2)) grey_circle STANDARD_COLOUR
      RESPONSE_COLOUR CHANCE_OF_FIXATION_CHANGE TARGET_LETTER
      DISTRACTOR_LETTERS 0 RESPONSE_DELAY (-3)
      TARGET_PROB_INCREASE_THRESHOLD always_hit = Done (x, g')
    /\ sel_is_target x = false.
Proof.
  destruct (determine_attention_stimulus
              "attend" 0 (arange 1 (5 - 2)) grey_circle STANDARD_COLOUR
              RESPONSE_COLOUR CHANCE_OF_FIXATION_CHANGE TARGET_LETTER
              DISTRACTOR_LETTERS 0 RESPONSE_DELAY (-3)
              TARGET_PROB_INCREASE_THRESHOLD always_hit)
    as [[x g']| |] eqn:E.
  - exists x, g'. split; [reflexivity|].
    apply (no_target_near_block_ends
             "attend" 5 0 grey_circle STANDARD_COLOUR RESPONSE_COLOUR
             CHANCE_OF_FIXATION_CHANGE TARGET_LETTER DISTRACTOR_LETTERS
             0 RESPONSE_DELAY (-3) TARGET_PROB_INCREASE_THRESHOLD
             always_hit x g') in E.
    + apply E.
    + vm_compute. intros [H|[H|[H|[H|[]]]]]; discriminate.
    + lia.
  - vm_compute in E. discriminate.
  - vm_compute in E. discriminate.
Defined.

(** X12. In the divert condition a countdown of zero or more blocks
    targets: from a countdown [cd >= 0] none of the next [cd + 1] calls
    produces a target. A target leaves the countdown at 2, so the three
    letters after a target are no targets, and two targets never follow
    each other. The target letter is assumed to be no distractor. *)
Theorem divert_targets_spaced
        (nc ac : colour) (ch : Q) (target : string)
        (distractors : list string) (drd thr : Z)
        (calls : list (Z * list Z)) :
  ~ In target distractors ->
  (forall idx idxs fobj n cd g x g',
      determine_attention_stimulus "divert" idx idxs fobj nc ac ch target
                                   distractors n drd cd thr g
      = Done (x, g') ->
      sel_is_target x = true -> sel_countdown x = 2%Z)
  /\ (forall fobj n cd g flags fobj' n' cd' g',
         (Z.of_nat (List.length calls) <= cd + 1)%Z ->
         successive_calls "divert" nc ac ch target distractors drd thr
                          calls fobj n cd g
         = Done (flags, (fobj', n', cd'), g') ->
         flags = repeat false (List.length calls)
         /\ n' = n /\ cd' = (cd - Z.of_nat (List.length calls))%Z).
Proof.
  intros Hnot. split.
  - intros idx idxs fobj n cd g x g' H Ht.
    apply returned_countdown in H. rewrite Ht in H.
    cbn [String.eqb Ascii.eqb Bool.eqb] in H. lia.
  - induction calls as [|[idx idxs] rest IH];
      intros fobj n cd g flags fobj' n' cd' g' Hlen H;
      cbn [successive_calls] in H.
    + apply Done_inj in H. inversion H; subst. cbn. repeat split. lia.
    + cbn [List.length] in Hlen. rewrite Nat2Z.inj_succ in Hlen.
      destruct (determine_attention_stimulus _ _ _ _ _ _ _ _ _ _ _ _ _ _)
        as [[x g1]| |] eqn:E1; cbn [bind] in H; try discriminate.
      apply divert_closed_gate in E1; [|exact Hnot|].
      2:{ unfold allow_target_for. destruct (negb _); [reflexivity|].
          now replace (0 <=? cd)%Z with true
            by (symmetry; apply Z.leb_le; lia). }
      destruct E1 as (Ef & En & Ec & _).
      destruct (successive_calls _ _ _ _ _ _ _ _ rest _ _ _ _)
        as [[[fl fin] g2]| |] eqn:E2; cbn [bind] in H; try discriminate.
      apply Done_inj in H. inversion H; subst flags fin g2.
      rewrite En, Ec in E2. apply IH in E2; [|lia].
      destruct E2 as (-> & -> & ->). rewrite Ef.
      cbn [List.length repeat]. repeat split. lia.
Qed.

Lemma divert_targets_spaced_witness :
  exists flags final g',
    successive_calls "divert" STANDARD_COLOUR RESPONSE_COLOUR
                     CHANCE_OF_FIXATION_CHANGE TARGET_LETTER
                     DISTRACTOR_LETTERS RESPONSE_DELAY
                     TARGET_PROB_INCREASE_THRESHOLD
                     (repeat (1%Z, arange 1 3) 3) grey_circle 1 2 fifth
    = Done (flags, final, g')
    /\ flags = [false; false; false].
Proof.
  destruct (successive_calls "divert" STANDARD_COLOUR RESPONSE_COLOUR
                             CHANCE_OF_FIXATION_CHANGE TARGET_LETTER
                             DISTRACTOR_LETTERS RESPONSE_DELAY
                             TARGET_PROB_INCREASE_THRESHOLD
                             (repeat (1%Z, arange 1 3) 3) grey_circle 1 2
                             fifth)
    as [[[flags [[fobj' n'] cd']] g']| |] eqn:E.
  - exists flags, (fobj', n', cd'), g'. split; [reflexivity|].
    destruct (divert_targets_spaced
                STANDARD_COLOUR RESPONSE_COLOUR CHANCE_OF_FIXATION_CHANGE
                TARGET_LETTER DISTRACTOR_LETTERS RESPONSE_DELAY
                TARGET_PROB_INCREASE_THRESHOLD
                (repeat (1%Z, arange 1 3) 3)) as [_ Hcalls].
    + vm_compute. intros [H|[H|[H|[H|[]]]]]; discriminate.
    + apply Hcalls in E; [apply E|vm_compute; discriminate].
  - vm_compute in E. discriminate.
  - vm_compute in E. discriminate.
Defined.

(** What one call does to the target count. *)
Lemma target_count_step
      (condition : string) (idx : Z) (idxs : list Z) (fobj : fixation)
      (nc ac : colour) (ch : Q) (target : string)
      (distractors : list string) (n drd cd thr : Z) (g : rng)
      (x : selection) (g' : rng) :
  determine_attention_stimulus condition idx idxs fobj nc ac ch target
                               distractors n drd cd thr g = Done (x, g') ->
  sel_targets x = (n + if sel_is_target x then 1 else 0)%Z.
Proof.
  intros H. selector_cases H; inversion H; subst; cbn; lia.
Qed.

(** X13. Over any number of successive calls, in any condition, the
    target count grows by the number of calls that produced a target,
    and there is one flag for every call. *)
Theorem target_count_is_flag_count
        (condition : string) (nc ac : colour) (ch : Q) (target : string)
        (distractors : list string) (drd thr : Z)
        (calls : list (Z * list Z)) :
  forall fobj n cd g flags fobj' n' cd' g',
    successive_calls condition nc ac ch target distractors drd thr
                     calls fobj n cd g
    = Done (flags, (fobj', n', cd'), g') ->
    List.length flags = List.length calls
    /\ n' = (n + Z.of_nat (count_occ bool_dec flags true))%Z.
Proof.
  induction calls as [|[idx idxs] rest IH];
    intros fobj n cd g flags fobj' n' cd' g' H;
    cbn [successive_calls] in H.
  - apply Done_inj in H. inversion H; subst. cbn. split; [auto|lia].
  - destruct (determine_attention_stimulus _ _ _ _ _ _ _ _ _ _ _ _ _ _)
      as [[x g1]| |] eqn:E1; cbn [bind] in H; try discriminate.
    apply target_count_step in E1.
    destruct (successive_calls _ _ _ _ _ _ _ _ rest _ _ _ _)
      as [[[fl fin] g2]| |] eqn:E2; cbn [bind] in H; try discriminate.
    apply Done_inj in H. inversion H; subst flags fin g2.
    apply IH in E2. destruct E2 as [Hlen ->].
    cbn [List.length]. split; [lia|]. rewrite E1.
    destruct (sel_is_target x); cbn [count_occ];
      [destruct (bool_dec true true); [|congruence]
      |destruct (bool_dec false true); [discriminate|]]; lia.
Qed.

Lemma target_count_is_flag_count_witness :
  exists flags fobj' n' cd' g',
    successive_calls "attend" STANDARD_COLOUR RESPONSE_COLOUR
                     CHANCE_OF_FIXATION_CHANGE TARGET_LETTER
                     DISTRACTOR_LETTERS RESPONSE_DELAY
                     TARGET_PROB_INCREASE_THRESHOLD
                     (repeat (1%Z, arange 1 3) 3) grey_circle 0 0
                     always_hit
    = Done (flags, (fobj', n', cd'), g')
    /\ n' = (0 + Z.of_nat (count_occ bool_dec flags true))%Z.
Proof.
  destruct (successive_calls "attend" STANDARD_COLOUR RESPONSE_COLOUR
                             CHANCE_OF_FIXATION_CHANGE TARGET_LETTER
                             DISTRACTOR_LETTERS RESPONSE_DELAY
                             TARGET_PROB_INCREASE_THRESHOLD
                             (repeat (1%Z, arange 1 3) 3) grey_circle 0 0
                             always_hit)
    as [[[flags [[fobj' n'] cd']] g']| |] eqn:E.
  - exists flags, fobj', n', cd', g'. split; [reflexivity|].
    exact (proj2 (target_count_is_flag_count _ _ _ _ _ _ _ _ _ _ _ _ _
                                             _ _ _ _ _ E)).
  - vm_compute in E. discriminate.
  - vm_compute in E. discriminate.
Defined.

(** X14. The flag a call returns agrees with what it put on show. In
    the attend condition the circle has the target colour when the
    flag is set and the normal colour otherwise, and no letter is
    reported; in the divert condition the letter shown is the letter
    reported, and the flag is set exactly when it is the target
    letter. *)
Theorem flag_matches_display
        (idx : Z) (idxs : list Z) (fobj : fixation) (nc ac : colour)
        (ch : Q) (target : string) (distractors : list string)
        (n drd cd thr : Z) (g : rng) (x : selection) (g' : rng) :
  (determine_attention_stimulus "attend" idx idxs fobj nc ac ch target
                                distractors n drd cd thr g = Done (x, g') ->
   color (sel_fixation x) = (if sel_is_target x then ac else nc)
   /\ text (sel_fixation x) = text fobj
   /\ sel_letter x = "")
  /\ (determine_attention_stimulus "divert" idx idxs fobj nc ac ch target
                                   distractors n drd cd thr g
      = Done (x, g') ->
      text (sel_fixation x) = sel_letter x
      /\ color (sel_fixation x) = color fobj
      /\ sel_is_target x = String.eqb (sel_letter x) target).
Proof.
  split; intros H; selector_cases H; try discriminate;
    inversion H; subst; cbn; repeat split; try reflexivity;
    (symmetry; assumption) || idtac.
Qed.

Lemma flag_matches_display_witness :
  exists x g',
    determine_attention_stimulus
      "attend" 1 (arange 1 3) grey_circle STANDARD_COLOUR RESPONSE_COLOUR
      CHANCE_OF_FIXATION_CHANGE TARGET_LETTER DISTRACTOR_LETTERS 0
      RESPONSE_DELAY 0 TARGET_PROB_INCREASE_THRESHOLD always_hit
    = Done (x, g')
    /\ color (sel_fixation x) = RESPONSE_COLOUR.
Proof.
  destruct (determine_attention_stimulus
              "attend" 1 (arange 1 3) grey_circle STANDARD_COLOUR
              RESPONSE_COLOUR CHANCE_OF_FIXATION_CHANGE TARGET_LETTER
              DISTRACTOR_LETTERS 0 RESPONSE_DELAY 0
              TARGET_PROB_INCREASE_THRESHOLD always_hit)
    as [[x g']| |] eqn:E.
  - exists x, g'. split; [reflexivity|].
    destruct (flag_matches_display
                1 (arange 1 3) grey_circle STANDARD_COLOUR RESPONSE_COLOUR
                CHANCE_OF_FIXATION_CHANGE TARGET_LETTER DISTRACTOR_LETTERS
                0 RESPONSE_DELAY 0 TARGET_PROB_INCREASE_THRESHOLD
                always_hit x g') as [H _].
    destruct (H E) as [Hc _]. rewrite Hc.
    vm_compute in E. apply Done_inj in E. inversion E. reflexivity.
  - vm_compute in E. discriminate.
  - vm_compute in E. discriminate.
Defined.

End SelectorMore.

(* ================================================================== *)
(** * The runner: keys, tracker and counters *)
(* ================================================================== *)

Module RunnerHearing.

Import Selector Runner Scenarios Observations Hearing Keyboards.

Local Open Scope string_scope.
Local Open Scope list_scope.

Lemma spaces_app (w : world) (k1 k2 : nat) :
  forall a,
    spaces w a (k1 + k2) = (spaces w a k1 + spaces w (a + k1) k2)%Z.
Proof.
  induction k1 as [|k1 IH]; intros a; cbn [spaces Nat.add].
  - now rewrite Nat.add_0_r.
  - rewrite IH. replace (S a + k1)%nat with (a + S k1)%nat by lia. lia.
Qed.

Lemma moved_refl (p : params) (w : world) (s : state) :
  moved p w 0 0 0 s s.
Proof.
  unfold moved. rewrite !Nat.add_0_r. cbn [spaces].
  repeat split; try lia. exists []. now rewrite app_nil_r.
Qed.

Lemma moved_trans (p : params) (w : world) (f1 p1 q1 f2 p2 q2 : nat)
      (s1 s2 s3 : state) :
  moved p w f1 p1 q1 s1 s2 -> moved p w f2 p2 q2 s2 s3 ->
  moved p w (f1 + f2) (p1 + p2) (q1 + q2) s1 s3.
Proof.
  intros (A1 & A2 & A3 & A4 & A5 & d1 & A6 & A7)
         (B1 & B2 & B3 & B4 & B5 & d2 & B6 & B7).
  unfold moved. rewrite B1, A1, B3, A3, B4, A4, B2, A2, spaces_app.
  split; [lia|]. split; [lia|]. split; [lia|]. split; [lia|]. split.
  - intros Hp. rewrite (B5 Hp). now apply A5.
  - exists (d1 ++ d2). rewrite B6, A6, app_assoc. split; [reflexivity|].
    intros Hp. apply Forall_app. split; [now apply A7|now apply B7].
Qed.

Lemma moved_cast (p : params) (w : world) (f k q f' k' q' : nat)
      (s s' : state) :
  moved p w f k q s s' -> f = f' -> k = k' -> q = q' ->
  moved p w f' k' q' s s'.
Proof. now intros H <- <- <-. Qed.

Lemma emit_moved (p : params) (w : world) (e : event) (s : state) :
  (practice p = true -> local_only e) ->
  moved p w 0 0 0 s (emit e s).
Proof.
  intros He. unfold moved. cbn. rewrite !Nat.add_0_r.
  repeat split; try lia. exists [e]. split; [reflexivity|].
  intros Hp. constructor; [now apply He|constructor].
Qed.

Lemma msg_eyetracker_moved (p : params) (w : world) (identifier : string)
      (m : message) (log_msg create_var : bool) (s : state) :
  practice p = false ->
  moved p w 0 0 0 s (msg_eyetracker identifier m log_msg create_var s).
Proof.
  intros Hp. unfold msg_eyetracker.
  assert (forall e x, moved p w 0 0 0 x (emit e x)) as Hemit
      by (intros e x; apply emit_moved; congruence).
  pose proof (Hemit (SendMessage identifier m) s) as H1.
  set (s1 := emit (SendMessage identifier m) s) in *.
  assert (moved p w 0 0 0 s1 (if log_msg
                              then emit (LogInfo identifier m) s1 else s1))
    as H2 by (destruct log_msg; [apply Hemit|apply moved_refl]).
  set (s2 := if log_msg then _ else _) in *.
  assert (moved p w 0 0 0 s2 (if create_var
                              then emit (SendVariable identifier m) s2
                              else s2))
    as H3 by (destruct create_var; [apply Hemit|apply moved_refl]).
  exact (moved_trans _ _ _ _ _ _ _ _ _ _ _ H1
                     (moved_trans _ _ _ _ _ _ _ _ _ _ _ H2 H3)).
Qed.

Lemma check_recording_moved (p : params) (w : world) (s : state) :
  moved p w 0 0 (queries_per_frame p) s (check_recording w p s).
Proof.
  unfold check_recording, queries_per_frame.
  destruct (practice p) eqn:Hp; [apply moved_refl|].
  unfold isRecording.
  assert (moved p w 0 0 1 s
                (with_counters (gen s) (flips s) (polls s) (S (queries s))
                               (readings s) s)) as H1.
  { unfold moved. cbn. rewrite !Nat.add_0_r.
    repeat split; try lia. exists []. rewrite app_nil_r.
    split; [reflexivity|congruence]. }
  destruct (negb _); [|exact H1].
  eapply moved_cast;
    [eapply moved_trans; [exact H1|apply emit_moved; congruence]
    |reflexivity|reflexivity|reflexivity].
Qed.

Lemma flip_moved (p : params) (w : world) (s : state) :
  moved p w 1 0 0 s (snd (flip w s)).
Proof.
  unfold flip, moved. cbn. rewrite !Nat.add_0_r.
  repeat split; try lia. eexists. split; [reflexivity|].
  intros _. repeat constructor.
Qed.

(** One key: a press of the space bar counts, any other key does
    not. *)
Lemma handle_key_moved (p : params) (w : world) (trial_counter : Z)
      (s : state) (key : string * Q) :
  flips (handle_key p trial_counter s key) = flips s
  /\ polls (handle_key p trial_counter s key) = polls s
  /\ queries (handle_key p trial_counter s key) = queries s
  /\ n_attention_responses (handle_key p trial_counter s key)
     = (n_attention_responses s + count_space [key])%Z
  /\ readings (handle_key p trial_counter s key) = readings s
  /\ exists d, trace (handle_key p trial_counter s key) = trace s ++ d
               /\ (practice p = true -> Forall local_only d).
Proof.
  unfold handle_key, count_space. destruct key as [key_name t].
  cbn [filter fst].
  destruct (String.eqb key_name "space"); destruct (practice p) eqn:Hp;
    cbn; repeat split; try lia;
    try (exists []; rewrite app_nil_r; split; [reflexivity|constructor]);
    (eexists; split;
     [rewrite <- app_assoc; reflexivity|congruence]).
Qed.

Lemma count_space_cons (key : string * Q) (keys : list (string * Q)) :
  count_space (key :: keys) = (count_space [key] + count_space keys)%Z.
Proof.
  unfold count_space. cbn [filter].
  destruct (String.eqb (fst key) "space"); cbn [List.length]; lia.
Qed.

Lemma handle_keys_moved (p : params) (w : world) (trial_counter : Z)
      (keys : list (string * Q)) :
  forall s,
    let s' := fold_left (handle_key p trial_counter) keys s in
    flips s' = flips s /\ polls s' = polls s /\ queries s' = queries s
    /\ n_attention_responses s'
       = (n_attention_responses s + count_space keys)%Z
    /\ readings s' = readings s
    /\ exists d, trace s' = trace s ++ d
                 /\ (practice p = true -> Forall local_only d).
Proof.
  induction keys as [|key keys IH]; intros s; cbn [fold_left].
  - cbn. repeat split; try lia. exists []. rewrite app_nil_r.
    split; [reflexivity|constructor].
  - destruct (handle_key_moved p w trial_counter s key)
      as (A1 & A2 & A3 & A4 & A5 & d1 & A6 & A7).
    destruct (IH (handle_key p trial_counter s key))
      as (B1 & B2 & B3 & B4 & B5 & d2 & B6 & B7).
    cbv zeta. rewrite B1, B2, B3, B4, B5, A1, A2, A3, A4, A5.
    rewrite (count_space_cons key keys).
    repeat split; try lia.
    exists (d1 ++ d2). rewrite B6, A6, app_assoc. split; [reflexivity|].
    intros Hp. apply Forall_app. split; [now apply A7|now apply B7].
Qed.

Lemma poll_keys_moved (p : params) (w : world) (trial_counter : Z)
      (s : state) :
  moved p w 0 1 0 s (poll_keys w p trial_counter s).
Proof.
  unfold poll_keys, getKeys.
  destruct (handle_keys_moved
              p w trial_counter (keys_at w (polls s))
              (with_counters (gen s) (flips s) (S (polls s)) (queries s)
                             (readings s) s))
    as (B1 & B2 & B3 & B4 & B5 & d & B6 & B7).
  unfold moved. cbv zeta in B1, B2, B3, B4, B5, B6.
  rewrite B1, B2, B3, B4. cbn. rewrite !Nat.add_0_r.
  repeat split; try lia.
  - intros _. rewrite B5. reflexivity.
  - exists d. split; [rewrite B6; reflexivity|exact B7].
Qed.

Lemma clock_message_moved (p : params) (w : world) (identifier : string)
      (trial_counter : Z) (trial_type : string) (create_var : bool)
      (s : state) :
  moved p w 0 0 0 s
        (clock_message w p identifier trial_counter trial_type create_var s).
Proof.
  unfold clock_message. destruct (practice p) eqn:Hp;
    [apply moved_refl|].
  unfold getTime.
  assert (moved p w 0 0 0 s
                (with_counters (gen s) (flips s) (polls s) (queries s)
                               (S (readings s)) s)) as H1.
  { unfold moved. cbn. rewrite !Nat.add_0_r.
    repeat split; try lia; try congruence.
    exists []. rewrite app_nil_r. split; [reflexivity|congruence]. }
  eapply moved_cast;
    [eapply moved_trans; [exact H1|now apply msg_eyetracker_moved]
    |reflexivity|reflexivity|reflexivity].
Qed.

Lemma draw_stimulus_moved (p : params) (w : world) (frameN : Z)
      (s s' : state) :
  draw_stimulus p frameN s = Done s' -> moved p w 0 0 0 s s'.
Proof.
  unfold draw_stimulus. destruct (frameN <? main_stim_frames p)%Z.
  - destruct (trial_stim s) as [obj|]; intros H; try discriminate.
    apply Done_inj in H as <-. now apply emit_moved.
  - intros H. apply Done_inj in H as <-. apply moved_refl.
Qed.

Lemma report_onsets_moved (p : params) (w : world) (trial_counter : Z)
      (trial_type : string) (frameN : Z) (t : Q) (s s' : state) :
  report_onsets p trial_counter trial_type frameN t s = Done s' ->
  moved p w 0 0 0 s s'.
Proof.
  unfold report_onsets. destruct (practice p) eqn:Hp; cbn [negb andb].
  - intros H. apply Done_inj in H as <-. apply moved_refl.
  - destruct (frameN =? 0)%Z.
    + destruct (shown_name p trial_type s) as [name| |]; cbn [bind];
        intros H; try discriminate. apply Done_inj in H as <-.
      eapply moved_cast;
        [eapply moved_trans; now apply msg_eyetracker_moved
        |reflexivity|reflexivity|reflexivity].
    + intros H. apply Done_inj in H as <-. apply moved_refl.
Qed.

Lemma report_offset_moved (p : params) (w : world) (trial_counter : Z)
      (trial_type : string) (frameN : Z) (t : Q) (s s' : state) :
  report_offset p trial_counter trial_type frameN t s = Done s' ->
  moved p w 0 0 0 s s'.
Proof.
  unfold report_offset. destruct (practice p) eqn:Hp; cbn [negb andb].
  - intros H. apply Done_inj in H as <-. apply moved_refl.
  - destruct (frameN =? main_stim_frames p)%Z.
    + destruct (shown_name p trial_type s) as [name| |]; cbn [bind];
        intros H; try discriminate. apply Done_inj in H as <-.
      now apply msg_eyetracker_moved.
    + intros H. apply Done_inj in H as <-. apply moved_refl.
Qed.

Lemma report_probe_onset_moved (p : params) (w : world)
      (trial_counter : Z) (trial_type : string) (frameN : Z) (t : Q)
      (s : state) :
  moved p w 0 0 0 s
        (report_probe_onset p trial_counter trial_type frameN t s).
Proof.
  unfold report_probe_onset. destruct (practice p) eqn:Hp;
    cbn [negb andb]; [apply moved_refl|].
  destruct (frameN =? 0)%Z; [now apply msg_eyetracker_moved
                            |apply moved_refl].
Qed.

(** A frame of the stimulus phase: one commit, one poll, and outside
    practice one status query. *)
Lemma stimulus_frame_moved (w : world) (p : params) (trial_counter : Z)
      (trial_type : string) (frameN : Z) (s s' : state) :
  stimulus_frame w p trial_counter trial_type frameN s = Done s' ->
  moved p w 1 1 (queries_per_frame p) s s'.
Proof.
  unfold stimulus_frame.
  pose proof (check_recording_moved p w s) as H1.
  set (s1 := check_recording w p s) in *.
  destruct (draw_stimulus p frameN s1) as [s2| |] eqn:E2; cbn [bind];
    try discriminate.
  apply (draw_stimulus_moved p w) in E2.
  assert (moved p w 0 0 0 s2 (emit (DrawFixation (fixation_obj s2)) s2))
    as H3 by (now apply emit_moved).
  set (s3 := emit (DrawFixation (fixation_obj s2)) s2) in *.
  pose proof (flip_moved p w s3) as H4.
  destruct (flip w s3) as [t s4]. cbn [snd] in H4.
  destruct (report_onsets p trial_counter trial_type frameN t s4)
    as [s5| |] eqn:E5; cbn [bind]; try discriminate.
  apply (report_onsets_moved p w) in E5.
  pose proof (poll_keys_moved p w trial_counter s5) as H6.
  intros E7. apply (report_offset_moved p w) in E7.
  eapply moved_cast.
  - eapply moved_trans; [exact H1|].
    eapply moved_trans; [exact E2|].
    eapply moved_trans; [exact H3|].
    eapply moved_trans; [exact H4|].
    eapply moved_trans; [exact E5|].
    eapply moved_trans; [exact H6|exact E7].
  - reflexivity.
  - reflexivity.
  - lia.
Qed.

Lemma interim_frame_moved (w : world) (p : params) (trial_counter : Z)
      (trial_type : string) (frameN : Z) (s s' : state) :
  interim_frame w p trial_counter trial_type frameN s = Done s' ->
  moved p w 1 1 (queries_per_frame p) s s'.
Proof.
  unfold interim_frame.
  pose proof (check_recording_moved p w s) as H1.
  set (s1 := check_recording w p s) in *.
  assert (moved p w 0 0 0 s1 (emit (DrawFixation (fixation_obj s1)) s1))
    as H2 by (now apply emit_moved).
  set (s2 := emit (DrawFixation (fixation_obj s1)) s1) in *.
  pose proof (flip_moved p w s2) as H3.
  destruct (flip w s2) as [t s3]. cbn [snd] in H3.
  pose proof (report_probe_onset_moved p w trial_counter trial_type
                                       frameN t s3) as H4.
  set (s4 := report_probe_onset p trial_counter trial_type frameN t s3)
    in *.
  pose proof (poll_keys_moved p w trial_counter s4) as H5.
  intros H. apply Done_inj in H as <-.
  eapply moved_cast.
  - eapply moved_trans; [exact H1|].
    eapply moved_trans; [exact H2|].
    eapply moved_trans; [exact H3|].
    eapply moved_trans; [exact H4|exact H5].
  - reflexivity.
  - reflexivity.
  - lia.
Qed.

(** A loop of [n] frames. *)
Lemma frames_moved (w : world) (p : params)
      (body : Z -> state -> run state) :
  (forall i s s', body i s = Done s' ->
                  moved p w 1 1 (queries_per_frame p) s s') ->
  forall (n : nat) (i : Z) (s s' : state),
    for_from body i n s = Done s' ->
    moved p w n n (n * queries_per_frame p) s s'.
Proof.
  intros Hbody. induction n as [|n IH]; intros i s s' H;
    cbn [for_from] in H.
  - apply Done_inj in H as <-. apply moved_refl.
  - destruct (body i s) as [s1| |] eqn:E1; cbn [bind] in H;
      try discriminate.
    apply Hbody in E1. apply IH in H.
    eapply moved_cast;
      [eapply moved_trans; [exact E1|exact H]
      |reflexivity|reflexivity|cbn [Nat.mul]; lia].
Qed.

Lemma select_moved (p : params) (w : world) (trial_counter : Z)
      (idxs : list Z) (s s' : state) :
  select p trial_counter idxs s = Done s' -> moved p w 0 0 0 s s'.
Proof.
  unfold select.
  destruct (determine_attention_stimulus _ _ _ _ _ _ _ _ _ _ _ _ _ _)
    as [[x g]| |]; cbn [bind]; intros H; try discriminate.
  apply Done_inj in H as <-. unfold moved. cbn. rewrite !Nat.add_0_r.
  split; [lia|]. split; [lia|]. split; [lia|]. split; [lia|].
  split; [reflexivity|]. exists []. rewrite app_nil_r.
  split; [reflexivity|constructor].
Qed.

Lemma choose_stimulus_moved (p : params) (w : world) (trial_type : string)
      (s : state) :
  moved p w 0 0 0 s (choose_stimulus p trial_type s).
Proof.
  unfold choose_stimulus.
  destruct (String.eqb trial_type "s");
    [|destruct (String.eqb trial_type "o")].
  - unfold moved. cbn. rewrite !Nat.add_0_r.
    split; [lia|]. split; [lia|]. split; [lia|]. split; [lia|].
    split; [reflexivity|]. exists []. rewrite app_nil_r.
    split; [reflexivity|constructor].
  - unfold random. destruct (Qltb _ _); unfold moved; cbn;
      rewrite !Nat.add_0_r;
      (split; [lia|]; split; [lia|]; split; [lia|]; split; [lia|];
       split; [reflexivity|]; exists []; rewrite app_nil_r;
       split; [reflexivity|constructor]).
  - now apply emit_moved.
Qed.

Lemma reset_keypress_moved (p : params) (w : world) (s : state) :
  moved p w 0 0 0 s (with_keypress (n_attention_responses s) [] s).
Proof.
  unfold moved. cbn. rewrite !Nat.add_0_r.
  split; [lia|]. split; [lia|]. split; [lia|]. split; [lia|].
  split; [reflexivity|]. exists []. rewrite app_nil_r.
  split; [reflexivity|constructor].
Qed.

Lemma interim_chunk_moved (w : world) (p : params) (trial_counter : Z)
      (trial_type : string) (idxs : list Z) (i : Z) (s s' : state) :
  interim_chunk w p trial_counter trial_type idxs i s = Done s' ->
  moved p w (Z.to_nat (attention_frames p)) (Z.to_nat (attention_frames p))
        (Z.to_nat (attention_frames p) * queries_per_frame p) s s'.
Proof.
  unfold interim_chunk, for_range. intros H.
  destruct (select p trial_counter idxs s) as [s1| |] eqn:E1;
    cbn [bind] in H; try discriminate.
  apply (select_moved p w) in E1.
  apply (frames_moved w p _ (interim_frame_moved w p trial_counter
                                                 trial_type)) in H.
  exact (moved_trans _ _ _ _ _ _ _ _ _ _ _ E1 H).
Qed.

(** A loop whose every pass moves the devices by the same amounts. *)
Lemma loop_moved (w : world) (p : params) (df dp dq : nat)
      (body : Z -> state -> run state) :
  (forall i s s', body i s = Done s' -> moved p w df dp dq s s') ->
  forall (n : nat) (i : Z) (s s' : state),
    for_from body i n s = Done s' ->
    moved p w (n * df) (n * dp) (n * dq) s s'.
Proof.
  intros Hbody. induction n as [|n IH]; intros i s s' H;
    cbn [for_from] in H.
  - apply Done_inj in H as <-. apply moved_refl.
  - destruct (body i s) as [s1| |] eqn:E1; cbn [bind] in H;
      try discriminate.
    apply Hbody in E1. apply IH in H.
    eapply moved_cast;
      [eapply moved_trans; [exact E1|exact H]
      |cbn [Nat.mul]; lia|cbn [Nat.mul]; lia|cbn [Nat.mul]; lia].
Qed.

Lemma run_trial_moved (w : world) (p : params) (block_len : Z)
      (trial_counter : Z) (trial_type : string) (s s' : state) :
  run_trial w p block_len trial_counter trial_type s = Done s' ->
  moved p w (frames_per_trial p) (frames_per_trial p)
        (frames_per_trial p * queries_per_frame p) s s'.
Proof.
  unfold run_trial, stimulus_phase, for_range, floordiv.
  pose proof (clock_message_moved p w "TRIALID" trial_counter trial_type
                                  true s) as H1.
  set (s1 := clock_message w p "TRIALID" trial_counter trial_type true s)
    in *.
  pose proof (reset_keypress_moved p w s1) as H2.
  set (s2 := with_keypress (n_attention_responses s1) [] s1) in *.
  pose proof (choose_stimulus_moved p w trial_type s2) as H3.
  set (s3 := choose_stimulus p trial_type s2) in *.
  intros H.
  destruct (select p trial_counter _ s3) as [s4| |] eqn:E4;
    cbn [bind] in H; try discriminate.
  apply (select_moved p w) in E4.
  destruct (for_from (stimulus_frame w p trial_counter trial_type) 0
                     (Z.to_nat (attention_frames p)) s4)
    as [s5| |] eqn:E5; cbn [bind] in H; try discriminate.
  apply (frames_moved w p _ (stimulus_frame_moved w p trial_counter
                                                  trial_type)) in E5.
  pose proof (clock_message_moved p w "INTERIM_START" trial_counter
                                  trial_type false s5) as H6.
  set (s6 := clock_message w p "INTERIM_START" trial_counter trial_type
                           false s5) in *.
  destruct (attention_frames p =? 0)%Z; cbn [bind] in H;
    try discriminate.
  destruct (for_from _ 0 (Z.to_nat (interim_frames p / attention_frames p))
                     s6) as [s7| |] eqn:E7; cbn [bind] in H;
    try discriminate.
  apply (loop_moved w p _ _ _ _
                    (interim_chunk_moved w p trial_counter trial_type _))
    in E7.
  apply Done_inj in H as <-.
  pose proof (clock_message_moved p w "INTERIM_END" trial_counter
                                  trial_type false s7) as H8.
  eapply moved_cast.
  - eapply moved_trans; [exact H1|].
    eapply moved_trans; [exact H2|].
    eapply moved_trans; [exact H3|].
    eapply moved_trans; [exact E4|].
    eapply moved_trans; [exact E5|].
    eapply moved_trans; [exact H6|].
    eapply moved_trans; [exact E7|exact H8].
  - unfold frames_per_trial. lia.
  - unfold frames_per_trial. lia.
  - unfold frames_per_trial. lia.
Qed.

Lemma run_trials_moved (w : world) (p : params) (block_len : Z)
      (rest : list string) :
  forall (trial_counter : Z) (s s' : state),
    run_trials w p block_len trial_counter rest s = Done s' ->
    moved p w (List.length rest * frames_per_trial p)
          (List.length rest * frames_per_trial p)
          (List.length rest * (frames_per_trial p * queries_per_frame p))
          s s'.
Proof.
  induction rest as [|trial_type rest IH]; intros trial_counter s s' H;
    cbn [run_trials] in H.
  - apply Done_inj in H as <-. apply moved_refl.
  - destruct (run_trial w p block_len trial_counter trial_type s)
      as [s1| |] eqn:E1; cbn [bind] in H; try discriminate.
    apply run_trial_moved in E1. apply IH in H.
    eapply moved_cast;
      [eapply moved_trans; [exact E1|exact H]
      |cbn [List.length Nat.mul]; lia|cbn [List.length Nat.mul]; lia
      |cbn [List.length Nat.mul]; lia].
Qed.

(** A whole block, from the caller's state: the response count starts
    from zero. *)
Lemma run_block_moved (w : world) (p : params) (block : list string)
      (s s' : state) :
  run_block w p block s = Done s' ->
  flips s' = (flips s + List.length block * frames_per_trial p)%nat
  /\ polls s' = (polls s + List.length block * frames_per_trial p)%nat
  /\ queries s'
     = (queries s
        + List.length block * (frames_per_trial p * queries_per_frame p))%nat
  /\ n_attention_responses s'
     = spaces w (polls s) (List.length block * frames_per_trial p)
  /\ (practice p = true -> readings s' = readings s)
  /\ exists d, trace s' = trace s ++ d
               /\ (practice p = true -> Forall local_only d).
Proof.
  unfold run_block. intros H. apply (run_trials_moved w) in H.
  set (s1 := enter (gen s) (flips s) (polls s) (queries s) (readings s)
                   (trace s) (fixation_obj s) (delay_countdown s)) in *.
  assert (moved p w 0 0 0 s1
                (if practice p then s1
                 else msg_eyetracker
                        "BLOCK_START"
                        (mkMessage [(session_counter p + 1)%Z;
                                    (block_counter p + 1)%Z] None [])
                        true false s1)) as H0.
  { destruct (practice p) eqn:Hp;
      [apply moved_refl|now apply msg_eyetracker_moved]. }
  pose proof (moved_trans _ _ _ _ _ _ _ _ _ _ _ H0 H) as H1.
  destruct H1 as (A1 & A2 & A3 & A4 & A5 & d & A6 & A7).
  cbn [Nat.add] in *. subst s1. cbn [enter flips polls queries readings
                                     n_attention_responses trace] in *.
  split; [exact A1|]. split; [exact A2|]. split; [exact A3|].
  split; [rewrite A4; lia|]. split; [exact A5|].
  exists d. split; [exact A6|exact A7].
Qed.

(** X15. Whatever the block and the keys pressed, a block that runs to
    its end polls the keyboard once for every frame it commits, and the
    response count it returns is the number of presses of the space bar
    found by those polls: the count starts from zero at every call, and
    no other key adds to it. *)
Theorem responses_are_space_presses (w : world) (p : params)
        (block : list string) (s s' : state) :
  run_block w p block s = Done s' ->
  (polls s' - polls s = flips s' - flips s)%nat
  /\ polls s' = (polls s + List.length block * frames_per_trial p)%nat
  /\ n_attention_responses s'
     = spaces w (polls s) (List.length block * frames_per_trial p).
Proof.
  intros H. apply (run_block_moved w) in H.
  destruct H as (A1 & A2 & _ & A4 & _). split; [lia|]. split; assumption.
Qed.

(** With the space bar pressed during the frames 3, 7 and 20 and the
    key [a] during the frame 7, the practice block s s s s o returns
    three responses after 75 polls. *)
Lemma responses_are_space_presses_witness :
  exists s',
    run_block tapping_world (attend_params true) block5
              (first_call always_hit) = Done s'
    /\ polls s' = 75%nat /\ n_attention_responses s' = 3%Z.
Proof.
  destruct (run_block tapping_world (attend_params true) block5
                      (first_call always_hit)) as [s'| |] eqn:E;
    [|vm_compute in E; discriminate..].
  exists s'. split; [reflexivity|].
  destruct (responses_are_space_presses _ _ _ _ _ E) as (_ & H2 & H3).
  split; [rewrite H2; reflexivity|rewrite H3; reflexivity].
Defined.

(** X16. A practice block stays on the display computer: it never asks
    the tracker for its status, never reads the clock, and adds to the
    trace only draws, commits and entries of the error log, whatever
    keys are pressed. *)
Theorem practice_block_stays_local (w : world) (p : params)
        (block : list string) (s s' : state) :
  practice p = true ->
  run_block w p block s = Done s' ->
  queries s' = queries s
  /\ readings s' = readings s
  /\ exists d, trace s' = trace s ++ d /\ Forall local_only d.
Proof.
  intros Hp H. apply (run_block_moved w) in H.
  destruct H as (_ & _ & A3 & _ & A5 & d & A6 & A7).
  unfold queries_per_frame in A3. rewrite Hp in A3.
  split; [lia|]. split; [now apply A5|].
  exists d. split; [exact A6|now apply A7].
Qed.

Lemma practice_block_stays_local_witness :
  exists s',
    run_block tapping_world (attend_params true) block5
              (first_call always_hit) = Done s'
    /\ queries s' = 0%nat /\ readings s' = 0%nat
    /\ Forall local_only (trace s').
Proof.
  destruct (run_block tapping_world (attend_params true) block5
                      (first_call always_hit)) as [s'| |] eqn:E;
    [|vm_compute in E; discriminate..].
  exists s'. split; [reflexivity|].
  destruct (practice_block_stays_local tapping_world (attend_params true)
                                       block5 _ _ eq_refl E)
    as (H1 & H2 & d & H3 & H4).
  split; [exact H1|]. split; [exact H2|]. rewrite H3. exact H4.
Defined.

(** X17. Outside practice a block asks the tracker whether it is still
    recording once for every frame it commits, in the stimulus phase
    and in the interim alike. *)
Theorem recording_checked_every_frame (w : world) (p : params)
        (block : list string) (s s' : state) :
  practice p = false ->
  run_block w p block s = Done s' ->
  (queries s' - queries s = flips s' - flips s)%nat
  /\ queries s' = (queries s + List.length block * frames_per_trial p)%nat.
Proof.
  intros Hp H. apply (run_block_moved w) in H.
  destruct H as (A1 & _ & A3 & _).
  unfold queries_per_frame in A3. rewrite Hp in A3. split; lia.
Qed.

Lemma recording_checked_every_frame_witness :
  exists s',
    run_block tapping_world (attend_params false) block5
              (first_call always_hit) = Done s'
    /\ queries s' = 75%nat.
Proof.
  destruct (run_block tapping_world (attend_params false) block5
                      (first_call always_hit)) as [s'| |] eqn:E;
    [|vm_compute in E; discriminate..].
  exists s'. split; [reflexivity|].
  destruct (recording_checked_every_frame tapping_world
                                          (attend_params false) block5 _ _
                                          eq_refl E)
    as (_ & H2).
  rewrite H2. reflexivity.
Defined.

(** X18. The interim of a trial is cut into whole chunks of
    [attention_frames] frames: with a chunk of at least one frame and
    an interim of no negative length, a trial commits more than
    [interim_frames] and at most [attention_frames + interim_frames]
    frames, the full length exactly when the chunk divides the interim,
    and a block commits that many frames for each of its trials. *)
Theorem trial_length_bounds (w : world) (p : params)
        (block : list string) (s s' : state) :
  (0 < attention_frames p)%Z -> (0 <= interim_frames p)%Z ->
  run_block w p block s = Done s' ->
  flips s' = (flips s + List.length block * frames_per_trial p)%nat
  /\ (interim_frames p < Z.of_nat (frames_per_trial p)
                        <= attention_frames p + interim_frames p)%Z
  /\ (Z.of_nat (frames_per_trial p)
      = attention_frames p + interim_frames p
      <-> (interim_frames p mod attention_frames p = 0))%Z.
Proof.
  intros Ha Hi H. apply (run_block_moved w) in H.
  destruct H as (A1 & _). split; [exact A1|].
  unfold frames_per_trial.
  pose proof (Z.div_mod (interim_frames p) (attention_frames p)) as Hdm.
  pose proof (Z.mod_pos_bound (interim_frames p) (attention_frames p) Ha)
    as Hm.
  assert (0 <= interim_frames p / attention_frames p)%Z as Hq
      by (apply Z.div_pos; lia).
  rewrite Nat2Z.inj_add, Nat2Z.inj_mul, !Z2Nat.id by lia.
  split; [nia|]. split; nia.
Qed.

(** With chunks of 5 frames and an interim of 10, a trial commits 15
    frames and the block s s s s o commits 75. *)
Lemma trial_length_bounds_witness :
  exists s',
    run_block quiet_world (attend_params true) block5
              (first_call always_hit) = Done s'
    /\ flips s' = 75%nat.
Proof.
  destruct (run_block quiet_world (attend_params true) block5
                      (first_call always_hit)) as [s'| |] eqn:E;
    [|vm_compute in E; discriminate..].
  exists s'. split; [reflexivity|].
  assert (0 < attention_frames (attend_params true))%Z as Ha
      by (vm_compute; reflexivity).
  assert (0 <= interim_frames (attend_params true))%Z as Hi
      by (vm_compute; discriminate).
  destruct (trial_length_bounds _ _ _ _ _ Ha Hi E) as (H1 & _).
  rewrite H1. reflexivity.
Defined.

End RunnerHearing.

(* ================================================================== *)
(** * More on the practice gate *)
(* ================================================================== *)

Module PracticeMore.

Import Practice PracticeFacts.

Local Open Scope string_scope.




End PracticeMore.

(* ================================================================== *)
(** * The blocks of a practice round *)
(* ================================================================== *)

Module PracticeRun.

Import Selector Runner Practice Scenarios Observations Hearing Keyboards
       RunnerHearing.

Local Open Scope string_scope.
Local Open Scope list_scope.

(** X22. The response total that the practice gate judges is the
    number of presses of the space bar during the whole round: when
    every block runs with [practice=True], the loop over the practice
    blocks polls the keyboard once per committed frame, adds to the
    running total the presses of the space bar found by those polls and
    nothing else, never asks the tracker for its status, never reads
    the clock, and adds only local events to the trace. *)
Theorem practice_total_is_space_presses (w : world) (p : Z -> params)
        (s_blocks : list (list string)) :
  (forall k, practice (p k) = true) ->
  forall (block_counter n_responses n_targets : Z) (s : state)
         (n_responses' n_targets' : Z) (s' : state),
    practice_blocks w p block_counter s_blocks n_responses n_targets s
    = Done (n_responses', n_targets', s') ->
    (polls s <= polls s')%nat
    /\ (flips s' + polls s = flips s + polls s')%nat
    /\ n_responses'
       = (n_responses + spaces w (polls s) (polls s' - polls s))%Z
    /\ queries s' = queries s
    /\ readings s' = readings s
    /\ exists d, trace s' = trace s ++ d /\ Forall local_only d.
Proof.
  intros Hp. induction s_blocks as [|block rest IH];
    intros k r t s r' t' s' H; cbn [practice_blocks] in H.
  - apply Done_inj in H. injection H as <- <- <-.
    rewrite Nat.sub_diag. cbn [spaces].
    split; [lia|]. split; [lia|]. split; [lia|]. split; [reflexivity|].
    split; [reflexivity|]. exists []. rewrite app_nil_r.
    split; [reflexivity|constructor].
  - destruct (run_block w (p k) block s) as [s1| |] eqn:E1;
      cbn [bind] in H; try discriminate.
    apply (run_block_moved w) in E1.
    destruct E1 as (A1 & A2 & A3 & A4 & A5 & d1 & A6 & A7).
    unfold queries_per_frame in A3. rewrite (Hp k) in A3.
    apply IH in H. destruct H as (B0 & B1 & B2 & B3 & B4 & d2 & B5 & B6).
    split; [lia|]. split; [lia|]. split.
    + rewrite B2, A4.
      replace (polls s' - polls s)%nat
        with (List.length block * frames_per_trial (p k)
              + (polls s' - polls s1))%nat by lia.
      rewrite spaces_app. rewrite <- A2. lia.
    + split; [lia|]. split; [rewrite B4; now apply A5|].
      exists (d1 ++ d2). rewrite B5, A6, app_assoc.
      split; [reflexivity|]. apply Forall_app.
      split; [now apply A7|exact B6].
Qed.

(** A practice round of the blocks s s s s o and s o, the space bar
    pressed during the frames 3, 7 and 20: a total of three
    responses. *)
Lemma practice_total_is_space_presses_witness :
  exists n_targets' s',
    practice_blocks tapping_world (fun _ => attend_params true) 0
                    [block5; ["s"; "o"]] 0 0 (first_call always_hit)
    = Done (3%Z, n_targets', s').
Proof.
  destruct (practice_blocks tapping_world (fun _ => attend_params true) 0
                            [block5; ["s"; "o"]] 0 0
                            (first_call always_hit))
    as [[[r' t'] s']| |] eqn:E; [|vm_compute in E; discriminate..].
  pose proof (f_equal (fun x => match x with
                                | Done (_, _, y) => polls y
                                | _ => 0%nat
                                end) E) as Hpolls.
  vm_compute in Hpolls.
  match type of Hpolls with
  | ?n = _ => change (n = polls s') in Hpolls
  end.
  destruct (practice_total_is_space_presses
              tapping_world (fun _ => attend_params true)
              [block5; ["s"; "o"]] (fun _ => eq_refl) _ _ _ _ _ _ _ E)
    as (_ & _ & H & _).
  exists t', s'. rewrite H, <- Hpolls. reflexivity.
Defined.

End PracticeRun.

(* ================================================================== *)
(** * The attention task over a block *)
(* ================================================================== *)

Module RunnerAttention.

Import Selector Runner Scenarios Observations Hearing Eligibility
       SelectorFacts SelectorMore.

Local Open Scope string_scope.
Local Open Scope list_scope.

Lemma msg_eyetracker_attention (identifier : string) (m : message)
      (log_msg create_var : bool) (s : state) :
  attention (msg_eyetracker identifier m log_msg create_var s)
  = attention s.
Proof.
  unfold msg_eyetracker. now destruct log_msg, create_var.
Qed.

Lemma check_recording_attention (w : world) (p : params) (s : state) :
  attention (check_recording w p s) = attention s.
Proof.
  unfold check_recording, isRecording.
  destruct (practice p); [reflexivity|]. now destruct (negb _).
Qed.

Lemma handle_key_attention (p : params) (trial_counter : Z) (s : state)
      (key : string * Q) :
  attention (handle_key p trial_counter s key) = attention s.
Proof.
  unfold handle_key. destruct key as [key_name t].
  destruct (String.eqb key_name "space"); destruct (practice p);
    try reflexivity; now rewrite msg_eyetracker_attention.
Qed.

Lemma poll_keys_attention (w : world) (p : params) (trial_counter : Z)
      (s : state) :
  attention (poll_keys w p trial_counter s) = attention s.
Proof.
  unfold poll_keys, getKeys.
  set (s1 := with_counters _ _ _ _ _ s).
  change (attention s) with (attention s1).
  generalize s1. induction (keys_at w (polls s)) as [|key keys IH];
    intros x; cbn [fold_left]; [reflexivity|].
  rewrite IH. apply handle_key_attention.
Qed.

Lemma draw_stimulus_attention (p : params) (frameN : Z) (s s' : state) :
  draw_stimulus p frameN s = Done s' -> attention s' = attention s.
Proof.
  unfold draw_stimulus. destruct (frameN <? main_stim_frames p)%Z.
  - destruct (trial_stim s); [|discriminate].
    intros H. now apply Done_inj in H as <-.
  - intros H. now apply Done_inj in H as <-.
Qed.

Lemma report_onsets_attention (p : params) (trial_counter : Z)
      (trial_type : string) (frameN : Z) (t : Q) (s s' : state) :
  report_onsets p trial_counter trial_type frameN t s = Done s' ->
  attention s' = attention s.
Proof.
  unfold report_onsets. destruct (negb (practice p) && (frameN =? 0)%Z).
  - destruct (shown_name p trial_type s); cbn [bind]; try discriminate.
    intros H. apply Done_inj in H as <-.
    now rewrite !msg_eyetracker_attention.
  - intros H. now apply Done_inj in H as <-.
Qed.

Lemma report_offset_attention (p : params) (trial_counter : Z)
      (trial_type : string) (frameN : Z) (t : Q) (s s' : state) :
  report_offset p trial_counter trial_type frameN t s = Done s' ->
  attention s' = attention s.
Proof.
  unfold report_offset.
  destruct (negb (practice p) && (frameN =? main_stim_frames p)%Z).
  - destruct (shown_name p trial_type s); cbn [bind]; try discriminate.
    intros H. apply Done_inj in H as <-.
    now rewrite msg_eyetracker_attention.
  - intros H. now apply Done_inj in H as <-.
Qed.

Lemma report_probe_onset_attention (p : params) (trial_counter : Z)
      (trial_type : string) (frameN : Z) (t : Q) (s : state) :
  attention (report_probe_onset p trial_counter trial_type frameN t s)
  = attention s.
Proof.
  unfold report_probe_onset.
  destruct (negb (practice p) && (frameN =? 0)%Z); [|reflexivity].
  now rewrite msg_eyetracker_attention.
Qed.

Lemma clock_message_attention (w : world) (p : params)
      (identifier : string) (trial_counter : Z) (trial_type : string)
      (create_var : bool) (s : state) :
  attention (clock_message w p identifier trial_counter trial_type
                           create_var s)
  = attention s.
Proof.
  unfold clock_message, getTime. destruct (practice p); [reflexivity|].
  now rewrite msg_eyetracker_attention.
Qed.

Lemma choose_stimulus_attention (p : params) (trial_type : string)
      (s : state) :
  attention (choose_stimulus p trial_type s) = attention s.
Proof.
  unfold choose_stimulus, random.
  destruct (String.eqb trial_type "s"); [reflexivity|].
  destruct (String.eqb trial_type "o"); [|reflexivity].
  now destruct (Qltb _ _).
Qed.

(** No frame touches the variables of the attention task. *)
Lemma stimulus_frame_attention (w : world) (p : params)
      (trial_counter : Z) (trial_type : string) (frameN : Z)
      (s s' : state) :
  stimulus_frame w p trial_counter trial_type frameN s = Done s' ->
  attention s' = attention s.
Proof.
  unfold stimulus_frame.
  pose proof (check_recording_attention w p s) as H1.
  set (s1 := check_recording w p s) in *.
  destruct (draw_stimulus p frameN s1) as [s2| |] eqn:E2; cbn [bind];
    try discriminate.
  apply draw_stimulus_attention in E2.
  assert (attention (snd (flip w (emit (DrawFixation (fixation_obj s2))
                                       s2))) = attention s2)
    as H3 by reflexivity.
  destruct (flip w (emit (DrawFixation (fixation_obj s2)) s2)) as [t s4].
  cbn [snd] in H3.
  destruct (report_onsets p trial_counter trial_type frameN t s4)
    as [s5| |] eqn:E5; cbn [bind]; try discriminate.
  apply report_onsets_attention in E5.
  intros E7. apply report_offset_attention in E7.
  rewrite E7, poll_keys_attention. congruence.
Qed.

Lemma interim_frame_attention (w : world) (p : params)
      (trial_counter : Z) (trial_type : string) (frameN : Z)
      (s s' : state) :
  interim_frame w p trial_counter trial_type frameN s = Done s' ->
  attention s' = attention s.
Proof.
  unfold interim_frame.
  pose proof (check_recording_attention w p s) as H1.
  set (s1 := check_recording w p s) in *.
  assert (attention (snd (flip w (emit (DrawFixation (fixation_obj s1))
                                       s1))) = attention s1)
    as H3 by reflexivity.
  destruct (flip w (emit (DrawFixation (fixation_obj s1)) s1)) as [t s3].
  cbn [snd] in H3.
  intros H. apply Done_inj in H as <-.
  rewrite poll_keys_attention, report_probe_onset_attention. congruence.
Qed.

Lemma frames_attention (body : Z -> state -> run state) :
  (forall i s s', body i s = Done s' -> attention s' = attention s) ->
  forall (n : nat) (i : Z) (s s' : state),
    for_from body i n s = Done s' -> attention s' = attention s.
Proof.
  intros Hbody. induction n as [|n IH]; intros i s s' H;
    cbn [for_from] in H.
  - now apply Done_inj in H as <-.
  - destruct (body i s) as [s1| |] eqn:E1; cbn [bind] in H;
      try discriminate.
    apply Hbody in E1. apply IH in H. congruence.
Qed.

Lemma eligible_spec (block_len trial_counter : Z) :
  idx_in trial_counter (arange 1 (block_len - 2))
  = eligible block_len trial_counter.
Proof.
  unfold eligible.
  destruct (idx_in trial_counter (arange 1 (block_len - 2))) eqn:E.
  - apply idx_in_In in E. apply arange_In in E. symmetry.
    apply andb_true_iff. rewrite Z.leb_le, Z.ltb_lt. exact E.
  - symmetry. apply not_true_iff_false. intros H.
    apply andb_true_iff in H. rewrite Z.leb_le, Z.ltb_lt in H.
    apply arange_In in H. apply idx_in_In in H. congruence.
Qed.

(** A call of the selector on a trial that is not eligible: no target,
    and the countdown one lower. *)
Lemma ineligible_call
      (condition : string) (block_len idx : Z) (fobj : fixation)
      (nc ac : colour) (ch : Q) (target : string)
      (distractors : list string) (n drd cd thr : Z) (g : rng)
      (x : selection) (g' : rng) :
  ~ In target distractors ->
  eligible block_len idx = false ->
  determine_attention_stimulus condition idx (arange 1 (block_len - 2))
                               fobj nc ac ch target distractors n drd cd
                               thr g = Done (x, g') ->
  sel_targets x = n /\ sel_countdown x = (cd - 1)%Z.
Proof.
  intros Hnot Hidx. rewrite <- eligible_spec in Hidx.
  destruct (String.eqb_spec condition "divert") as [->|Hd].
  - intros H. apply divert_closed_gate in H; [tauto|exact Hnot|].
    unfold allow_target_for. now rewrite Hidx.
  - unfold determine_attention_stimulus. rewrite Hidx. cbn [negb].
    destruct (String.eqb condition "attend").
    + intros H. apply Done_inj in H. inversion H; subst. now cbn.
    + apply String.eqb_neq in Hd. rewrite Hd.
      intros H. apply Done_inj in H. inversion H; subst. now cbn.
Qed.

(** One selection of the runner: the count grows by at most one, and
    not at all on a trial that is not eligible. *)
Lemma select_count (p : params) (block_len trial_counter : Z)
      (s s' : state) :
  ~ In (target_letter p) (distractor_letters p) ->
  select p trial_counter (arange 1 (block_len - 2)) s = Done s' ->
  (n_attention_targets s <= n_attention_targets s'
   <= n_attention_targets s
      + (if eligible block_len trial_counter then 1 else 0))%Z
  /\ (eligible block_len trial_counter = false ->
      delay_countdown s' = (delay_countdown s - 1)%Z).
Proof.
  intros Hnot. unfold select.
  destruct (determine_attention_stimulus _ _ _ _ _ _ _ _ _ _ _ _ _ _)
    as [[x g]| |] eqn:E; cbn [bind]; intros H; try discriminate.
  apply Done_inj in H as <-. cbn [with_selection n_attention_targets
                                                 delay_countdown].
  pose proof (target_count_step _ _ _ _ _ _ _ _ _ _ _ _ _ _ _ _ E) as Hs.
  destruct (eligible block_len trial_counter) eqn:El.
  - split; [|discriminate]. destruct (sel_is_target x); lia.
  - destruct (ineligible_call _ _ _ _ _ _ _ _ _ _ _ _ _ _ _ _ Hnot El E)
      as [Hn Hc].
    split; [lia|]. intros _. exact Hc.
Qed.

Lemma counted_keep (block_len trial_counter : Z) (s s' : state) :
  attention s' = attention s -> counted block_len trial_counter 0 s s'.
Proof.
  unfold attention, counted. intros H. inversion H as [[Hn Hc Hf]].
  rewrite Hn, Hc. cbn [Z.of_nat].
  destruct (eligible block_len trial_counter); split; intros; lia.
Qed.

Lemma counted_trans (block_len trial_counter : Z) (k1 k2 : nat)
      (s1 s2 s3 : state) :
  counted block_len trial_counter k1 s1 s2 ->
  counted block_len trial_counter k2 s2 s3 ->
  counted block_len trial_counter (k1 + k2) s1 s3.
Proof.
  unfold counted. intros [A1 A2] [B1 B2]. rewrite Nat2Z.inj_add.
  destruct (eligible block_len trial_counter).
  - split; [lia|discriminate].
  - split; [lia|]. intros _. rewrite (B2 eq_refl), (A2 eq_refl). lia.
Qed.

Lemma counted_cast (block_len trial_counter : Z) (k k' : nat)
      (s s' : state) :
  counted block_len trial_counter k s s' -> k = k' ->
  counted block_len trial_counter k' s s'.
Proof. now intros H <-. Qed.

Lemma select_counted (p : params) (block_len trial_counter : Z)
      (s s' : state) :
  ~ In (target_letter p) (distractor_letters p) ->
  select p trial_counter (arange 1 (block_len - 2)) s = Done s' ->
  counted block_len trial_counter 1 s s'.
Proof.
  intros Hnot H. destruct (select_count p _ _ _ _ Hnot H) as [A B].
  unfold counted. cbn [Z.of_nat Pos.of_succ_nat]. split; [|exact B].
  destruct (eligible block_len trial_counter); lia.
Qed.

Lemma interim_chunk_counted (w : world) (p : params)
      (block_len trial_counter : Z) (trial_type : string) (i : Z)
      (s s' : state) :
  ~ In (target_letter p) (distractor_letters p) ->
  interim_chunk w p trial_counter trial_type (arange 1 (block_len - 2)) i s
  = Done s' ->
  counted block_len trial_counter 1 s s'.
Proof.
  intros Hnot. unfold interim_chunk, for_range. intros H.
  destruct (select p trial_counter _ s) as [s1| |] eqn:E1;
    cbn [bind] in H; try discriminate.
  apply (select_counted p block_len) in E1; [|exact Hnot].
  apply (frames_attention
           _ (interim_frame_attention w p trial_counter trial_type)) in H.
  apply (counted_keep block_len trial_counter) in H.
  exact (counted_cast _ _ _ _ _ _ (counted_trans _ _ _ _ _ _ _ E1 H)
                      eq_refl).
Qed.

Lemma chunks_counted (block_len trial_counter : Z)
      (body : Z -> state -> run state) :
  (forall i s s', body i s = Done s' ->
                  counted block_len trial_counter 1 s s') ->
  forall (n : nat) (i : Z) (s s' : state),
    for_from body i n s = Done s' ->
    counted block_len trial_counter n s s'.
Proof.
  intros Hbody. induction n as [|n IH]; intros i s s' H;
    cbn [for_from] in H.
  - apply Done_inj in H as <-. now apply counted_keep.
  - destruct (body i s) as [s1| |] eqn:E1; cbn [bind] in H;
      try discriminate.
    apply Hbody in E1. apply IH in H.
    exact (counted_cast _ _ _ _ _ _ (counted_trans _ _ _ _ _ _ _ E1 H)
                        eq_refl).
Qed.

(** One trial: as many calls of the selector as the trial has
    selections. *)
Lemma run_trial_counted (w : world) (p : params)
      (block_len trial_counter : Z) (trial_type : string)
      (s s' : state) :
  ~ In (target_letter p) (distractor_letters p) ->
  run_trial w p block_len trial_counter trial_type s = Done s' ->
  counted block_len trial_counter (selections_per_trial p) s s'.
Proof.
  intros Hnot. unfold run_trial, stimulus_phase, for_range, floordiv.
  set (s1 := clock_message w p "TRIALID" trial_counter trial_type true s).
  set (s2 := with_keypress (n_attention_responses s1) [] s1).
  set (s3 := choose_stimulus p trial_type s2).
  assert (attention s3 = attention s) as H3.
  { subst s3. rewrite choose_stimulus_attention. subst s2.
    change (attention (with_keypress (n_attention_responses s1) [] s1))
      with (attention s1).
    subst s1. apply clock_message_attention. }
  apply (counted_keep block_len trial_counter) in H3.
  intros H.
  destruct (select p trial_counter _ s3) as [s4| |] eqn:E4;
    cbn [bind] in H; try discriminate.
  apply (select_counted p block_len) in E4; [|exact Hnot].
  destruct (for_from (stimulus_frame w p trial_counter trial_type) 0
                     (Z.to_nat (attention_frames p)) s4)
    as [s5| |] eqn:E5; cbn [bind] in H; try discriminate.
  apply (frames_attention
           _ (stimulus_frame_attention w p trial_counter trial_type))
    in E5.
  set (s6 := clock_message w p "INTERIM_START" trial_counter trial_type
                           false s5) in *.
  assert (attention s6 = attention s4) as H6
      by (subst s6; now rewrite clock_message_attention).
  apply (counted_keep block_len trial_counter) in H6.
  destruct (attention_frames p =? 0)%Z; cbn [bind] in H;
    try discriminate.
  destruct (for_from _ 0 (Z.to_nat (interim_frames p / attention_frames p))
                     s6) as [s7| |] eqn:E7; cbn [bind] in H;
    try discriminate.
  apply (chunks_counted
           block_len trial_counter _
           (fun i x x' => interim_chunk_counted w p block_len trial_counter
                                                trial_type i x x' Hnot))
    in E7.
  apply Done_inj in H as <-.
  assert (counted block_len trial_counter 0 s7
                  (clock_message w p "INTERIM_END" trial_counter
                                 trial_type false s7)) as H8
      by (apply counted_keep; apply clock_message_attention).
  eapply counted_cast.
  - eapply counted_trans; [exact H3|].
    eapply counted_trans; [exact E4|].
    eapply counted_trans; [exact H6|].
    eapply counted_trans; [exact E7|exact H8].
  - unfold selections_per_trial. lia.
Qed.

(** The trials of a block from [trial_counter] on. *)
Lemma run_trials_counted (w : world) (p : params) (block_len : Z)
      (rest : list string) :
  ~ In (target_letter p) (distractor_letters p) ->
  forall (trial_counter : Z) (s s' : state),
    run_trials w p block_len trial_counter rest s = Done s' ->
    (n_attention_targets s <= n_attention_targets s'
     <= n_attention_targets s
        + Z.of_nat (eligible_trials block_len trial_counter
                                    (List.length rest)
                    * selections_per_trial p))%Z
    /\ (eligible_trials block_len trial_counter (List.length rest) = 0%nat
        -> delay_countdown s'
           = (delay_countdown s
              - Z.of_nat (List.length rest * selections_per_trial p))%Z).
Proof.
  intros Hnot. induction rest as [|trial_type rest IH];
    intros trial_counter s s' H; cbn [run_trials] in H.
  - apply Done_inj in H as <-. cbn. split; [lia|]. intros _. lia.
  - destruct (run_trial w p block_len trial_counter trial_type s)
      as [s1| |] eqn:E1; cbn [bind] in H; try discriminate.
    apply (run_trial_counted w p block_len) in E1; [|exact Hnot].
    apply IH in H. destruct H as [B1 B2]. destruct E1 as [A1 A2].
    cbn [List.length eligible_trials].
    destruct (eligible block_len trial_counter).
    + split; [nia|]. intros Hz. discriminate.
    + cbn [Nat.add]. split; [nia|]. intros Hz.
      rewrite (B2 Hz), (A2 eq_refl). lia.
Qed.

Lemma eligible_trials_count (block_len : Z) (n : nat) :
  forall trial_counter,
    Z.of_nat (eligible_trials block_len trial_counter n)
    = Z.max 0 (Z.min (trial_counter + Z.of_nat n) (block_len - 2)
               - Z.max trial_counter 1).
Proof.
  induction n as [|n IH]; intros k; cbn [eligible_trials].
  - cbn [Z.of_nat]. lia.
  - rewrite Nat2Z.inj_add, IH. unfold eligible.
    destruct (Z.leb_spec 1 k); destruct (Z.ltb_spec k (block_len - 2));
      cbn [andb]; lia.
Qed.

Lemma run_block_counted (w : world) (p : params) (block : list string)
      (s s' : state) :
  ~ In (target_letter p) (distractor_letters p) ->
  run_block w p block s = Done s' ->
  (0 <= n_attention_targets s'
   <= Z.of_nat (eligible_trials (Z.of_nat (List.length block)) 0
                                (List.length block)
                * selections_per_trial p))%Z
  /\ (eligible_trials (Z.of_nat (List.length block)) 0 (List.length block)
      = 0%nat ->
      delay_countdown s'
      = (delay_countdown s
         - Z.of_nat (List.length block * selections_per_trial p))%Z).
Proof.
  intros Hnot. unfold run_block.
  set (s1 := enter (gen s) (flips s) (polls s) (queries s) (readings s)
                   (trace s) (fixation_obj s) (delay_countdown s)).
  set (s2 := if practice p then s1 else _).
  assert (attention s2 = attention s1) as H2
      by (subst s2; destruct (practice p);
          [reflexivity|apply msg_eyetracker_attention]).
  pose proof (f_equal (fun x => fst (fst x)) H2) as Hn.
  pose proof (f_equal (fun x => snd (fst x)) H2) as Hc.
  cbn in Hn, Hc.
  intros H. apply (run_trials_counted w p _ _ Hnot) in H.
  rewrite Hn, Hc in H. destruct H as [A B]. split; [lia|exact B].
Qed.

(** X23. Targets appear on eligible trials only. A block never gives a
    target on its first trial or on its last two: with
    [1 + interim_frames // attention_frames] selections in a trial, the
    target count that a block of [n] trials returns lies between 0 and
    [(n - 3)] times that number, in either condition and whatever the
    draws and the keys. A block of at most three trials returns no
    target, and hands back the countdown it was given less one for
    every selection. The target letter is assumed to be no
    distractor. *)
Theorem targets_on_eligible_trials_only (w : world) (p : params)
        (block : list string) (s s' : state) :
  ~ In (target_letter p) (distractor_letters p) ->
  run_block w p block s = Done s' ->
  (0 <= n_attention_targets s'
   <= Z.of_nat ((List.length block - 3) * selections_per_trial p))%Z
  /\ ((List.length block <= 3)%nat ->
      n_attention_targets s' = 0%Z
      /\ delay_countdown s'
         = (delay_countdown s
            - Z.of_nat (List.length block * selections_per_trial p))%Z).
Proof.
  intros Hnot H. apply (run_block_counted w p _ _ _ Hnot) in H.
  destruct H as [A B].
  pose proof (eligible_trials_count (Z.of_nat (List.length block))
                                    (List.length block) 0%Z) as Hc.
  assert (eligible_trials (Z.of_nat (List.length block)) 0
                          (List.length block)
          = (List.length block - 3)%nat) as E by lia.
  rewrite E in A, B. split; [exact A|]. intros Hlen.
  replace (List.length block - 3)%nat with 0%nat in A, B by lia.
  cbn [Nat.mul Z.of_nat] in A. split; [lia|now apply B].
Qed.

(** The block s s s s o in the attend condition, every draw below the
    chance of a colour change: of its fifteen selections at most six
    fall on the two eligible trials. *)
Lemma targets_on_eligible_trials_only_witness :
  exists s',
    run_block quiet_world (attend_params true) block5
              (first_call always_hit) = Done s'
    /\ (0 <= n_attention_targets s' <= 6)%Z.
Proof.
  destruct (run_block quiet_world (attend_params true) block5
                      (first_call always_hit)) as [s'| |] eqn:E;
    [|vm_compute in E; discriminate..].
  exists s'. split; [reflexivity|].
  assert (~ In (target_letter (attend_params true))
               (distractor_letters (attend_params true))) as Hnot
      by (vm_compute; intros [H|[H|[H|[H|[]]]]]; discriminate).
  destruct (targets_on_eligible_trials_only _ _ _ _ _ Hnot E) as [H _].
  exact H.
Defined.

End RunnerAttention.

(* ================================================================== *)
(** * Order of the sessions *)
(* ================================================================== *)

Module SessionPlanFacts.

Import SessionPlan.

Local Open Scope string_scope.
Local Open Scope list_scope.

(** The two shuffles leave four orders. *)
Lemma sessions_cases (shuffled_options : list (list string))
      (shuffled_types : list string) :
  Permutation ses_options shuffled_options ->
  Permutation oddball_types shuffled_types ->
  exists c1 c2 a b,
    sessions shuffled_options shuffled_types
    = Done [(c1, a); (c1, b); (c2, a); (c2, b)]
    /\ Permutation ["attend"; "divert"] [c1; c2]
    /\ Permutation oddball_types [a; b]
    /\ assign_oddballs a = Some (a, b)
    /\ assign_oddballs b = Some (b, a).
Proof.
  intros H1 H2.
  apply Permutation_length_2_inv in H1, H2.
  assert (forall (x y : string), Permutation [x; y] [x; y]
                                 /\ Permutation [x; y] [y; x]) as Hp
      by (intros x y; split; [apply Permutation_refl|apply perm_swap]).
  destruct H1 as [->| ->]; destruct H2 as [->| ->];
    [exists "attend", "divert", "fine gabor", "noise disk"
    |exists "attend", "divert", "noise disk", "fine gabor"
    |exists "divert", "attend", "fine gabor", "noise disk"
    |exists "divert", "attend", "noise disk", "fine gabor"];
    (split; [reflexivity|]; split; [apply Hp|]; split; [apply Hp|];
     split; reflexivity).
Qed.

(** X24. The sessions are counterbalanced whatever the two shuffles
    give. With at least one session per condition planned, the main
    loop runs four sessions on the first four plans: the two sessions
    of a condition follow each other, each condition meets each of the
    two oddball types as its common oddball once, and the rare oddball
    of a session is the other type; plans beyond the fourth are never
    run. With no session per condition, or a negative number, nothing
    is planned and the lookup of the first session's blocks raises
    [IndexError]. *)
Theorem sessions_counterbalanced (shuffled_options : list (list string))
        (shuffled_types : list string)
        (run_sessions : list (list (list string)))
        (sessions_per_condition : Z) :
  Permutation ses_options shuffled_options ->
  Permutation oddball_types shuffled_types ->
  List.length run_sessions = Z.to_nat (num_sessions sessions_per_condition) ->
  ((1 <= sessions_per_condition)%Z ->
   exists c1 c2 a b b0 b1 b2 b3,
     main_sessions shuffled_options shuffled_types run_sessions
     = Done [(c1, a, b0); (c1, b, b1); (c2, a, b2); (c2, b, b3)]
     /\ firstn 4 run_sessions = [b0; b1; b2; b3]
     /\ Permutation ["attend"; "divert"] [c1; c2]
     /\ Permutation oddball_types [a; b]
     /\ assign_oddballs a = Some (a, b)
     /\ assign_oddballs b = Some (b, a))
  /\ ((sessions_per_condition <= 0)%Z ->
      main_sessions shuffled_options shuffled_types run_sessions
      = Raises IndexError).
Proof.
  intros H1 H2 Hlen.
  destruct (sessions_cases _ _ H1 H2)
    as (c1 & c2 & a & b & Hs & Hc & Ho & Ha & Hb).
  unfold main_sessions. rewrite Hs. cbn [bind]. unfold num_sessions in Hlen.
  split.
  - intros Hn.
    destruct run_sessions as [|b0 [|b1 [|b2 [|b3 rest]]]];
      cbn [List.length] in Hlen; try lia.
    exists c1, c2, a, b, b0, b1, b2, b3.
    split; [reflexivity|]. split; [reflexivity|].
    split; [exact Hc|]. split; [exact Ho|]. split; assumption.
  - intros Hn.
    destruct run_sessions as [|b0 rest];
      [reflexivity|cbn [List.length] in Hlen; lia].
Qed.

(** Both lists turned round by the shuffle, one session per condition
    planned. *)
Lemma sessions_counterbalanced_witness :
  exists c1 c2 a b b0 b1 b2 b3,
    main_sessions [["divert"; "divert"]; ["attend"; "attend"]]
                  ["noise disk"; "fine gabor"]
                  [[["s"; "o"]]; [["o"]]; []; [["s"; "s"; "o"]]]
    = Done [(c1, a, b0); (c1, b, b1); (c2, a, b2); (c2, b, b3)]
    /\ firstn 4 [[["s"; "o"]]; [["o"]]; []; [["s"; "s"; "o"]]]
       = [b0; b1; b2; b3]
    /\ assign_oddballs a = Some (a, b).
Proof.
  destruct (sessions_counterbalanced
              [["divert"; "divert"]; ["attend"; "attend"]]
              ["noise disk"; "fine gabor"]
              [[["s"; "o"]]; [["o"]]; []; [["s"; "s"; "o"]]] 1
              (perm_swap _ _ _) (perm_swap _ _ _) eq_refl)
    as [H _].
  destruct (H ltac:(lia))
    as (c1 & c2 & a & b & b0 & b1 & b2 & b3 & Hrun & Hplans & _ & _
        & Ha & _).
  exists c1, c2, a, b, b0, b1, b2, b3.
  split; [exact Hrun|]. split; [exact Hplans|exact Ha].
Defined.

End SessionPlanFacts.

(* ================================================================== *)
(** * Stimulus images *)
(* ================================================================== *)

Module StimuliFacts.

Import FrameClock Selector Stimuli.

Local Open Scope string_scope.
Local Open Scope list_scope.

Lemma arange_length (a b : Z) :
  List.length (arange a b) = Z.to_nat (b - a).
Proof. unfold arange. now rewrite length_map, length_seq. Qed.

Lemma arange_nth (a b d : Z) (i : nat) :
  (i < Z.to_nat (b - a))%nat -> nth i (arange a b) d = (a + Z.of_nat i)%Z.
Proof.
  intros H. unfold arange.
  rewrite (nth_indep _ d (a + Z.of_nat 0)%Z)
    by (now rewrite length_map, length_seq).
  rewrite (map_nth (fun i => (a + Z.of_nat i)%Z)).
  now rewrite seq_nth.
Qed.

Lemma size_pix_odd (size_deg pixels_per_degree : Q) :
  Z.odd (size_pix size_deg pixels_per_degree) = true.
Proof.
  unfold size_pix. set (m := py_round _).
  pose proof (Z.div_mod m 2) as Hdm.
  pose proof (Z.mod_pos_bound m 2) as Hb.
  apply Z.odd_spec.
  destruct (Z.eqb_spec (m mod 2) 0) as [E|E].
  - exists (m / 2)%Z. lia.
  - exists (m / 2)%Z. lia.
Qed.

Lemma axis_pix_arange (n : Z) :
  Z.odd n = true -> axis_pix n = arange (- (n / 2)) (n / 2 + 1).
Proof.
  intros Hodd. apply Z.odd_spec in Hodd as [k Hk].
  assert (n / 2 = k)%Z as Hh
      by (subst n; rewrite Z.mul_comm, Z.div_add_l by lia;
          change (1 / 2)%Z with 0%Z; lia).
  unfold axis_pix, arange. rewrite map_map, Hh.
  replace (Z.to_nat (k + 1 - - k)) with (Z.to_nat (n - 0)) by lia.
  apply map_ext. intros i. lia.
Qed.

Lemma arange_symmetric (h : Z) :
  map Z.opp (rev (arange (- h) (h + 1))) = arange (- h) (h + 1).
Proof.
  apply (nth_ext _ _ 0%Z 0%Z).
  - now rewrite length_map, length_rev.
  - intros i Hi. rewrite length_map, length_rev, arange_length in Hi.
    change 0%Z with (Z.opp 0) at 1. rewrite map_nth.
    rewrite rev_nth by (now rewrite arange_length).
    rewrite arange_length.
    rewrite !arange_nth by lia. lia.
Qed.

(** X25. The image has an odd side and its pixel axis is centred:
    whatever the size and the resolution, [size_pix] is odd and the
    axis runs from [-(size_pix // 2)] to [size_pix // 2], so that it is
    its own mirror image and holds the pixel 0 at its centre. *)
Theorem stimulus_grid_centred (size_deg pixels_per_degree : Q) :
  let n := size_pix size_deg pixels_per_degree in
  Z.odd n = true
  /\ List.length (axis_pix n) = Z.to_nat n
  /\ axis_pix n = arange (- (n / 2)) (n / 2 + 1)
  /\ map Z.opp (rev (axis_pix n)) = axis_pix n.
Proof.
  intros n. pose proof (size_pix_odd size_deg pixels_per_degree) as Hodd.
  fold n in Hodd. split; [exact Hodd|]. split.
  - unfold axis_pix. rewrite length_map, arange_length. f_equal. lia.
  - rewrite (axis_pix_arange n Hodd). split; [reflexivity|].
    apply arange_symmetric.
Qed.

(** X30. The frequency argument cannot make a Gabor patch of another
    name: the chain of tests on [stim_type] serves the three allowed
    names and rejects every other one with the first error, so that the
    branch for a custom frequency and the last error are never
    reached; for the two Gabor types [gabor_freq_cpd] replaces the
    configured frequency. *)
Theorem select_type_serves_three_names (stim_type : string) (size_deg : Q)
        (gabor_freq_cpd : option Q) :
  select_type stim_type size_deg gabor_freq_cpd
  = if String.eqb stim_type "gabor_coarse" then
      Ok (mkKind (Some (or_default gabor_freq_cpd FREQ_COARSE_CPD))
                 (Configured COARSE_GABOR_FILENAME))
    else if String.eqb stim_type "gabor_fine" then
      Ok (mkKind (Some (or_default gabor_freq_cpd FREQ_FINE_CPD))
                 (Configured FINE_GABOR_FILENAME))
    else if String.eqb stim_type "noise_disk" then
      Ok (mkKind None (Configured NOISE_DISK_FILENAME))
    else ValueError
      "stim_type must be one of: ['gabor_coarse', 'gabor_fine', 'noise_disk']".
Proof.
  unfold select_type, allowed_types. cbn [existsb].
  destruct (String.eqb_spec stim_type "gabor_coarse") as [->|H1];
    [reflexivity|].
  destruct (String.eqb_spec stim_type "gabor_fine") as [->|H2];
    [reflexivity|].
  destruct (String.eqb_spec stim_type "noise_disk") as [->|H3];
    [|reflexivity].
  cbn. now destruct gabor_freq_cpd.
Qed.

End StimuliFacts.

(* ================================================================== *)
(** * Floats made integers *)
(* ================================================================== *)

Module FloatFacts.

Import Float FrameClock FrameClockFacts.

(** A float is made an int exactly when it is finite, and then by the
    rounding of its value. *)
Lemma to_int_done (rounding : Q -> Z) (x : float) (n : Z) :
  to_int rounding x = Done n ->
  exists q, value x = Some q /\ n = rounding q.
Proof.
  destruct x as [s|s| |s m e]; cbn; intros H; try discriminate;
    apply Done_inj in H as <-; eauto.
Qed.



Lemma floor_bounds (x : float) (n : Z) :
  floor x = Done n ->
  exists q, value x = Some q
            /\ (inject_Z n <= q)%Q /\ (q < inject_Z n + 1)%Q.
Proof.
  intros H. apply to_int_done in H as (q & Hq & ->).
  exists q. split; [exact Hq|apply Qfloor_bounds].
Qed.

Lemma ceil_bounds (x : float) (n : Z) :
  ceil x = Done n ->
  exists q, value x = Some q
            /\ (inject_Z n - 1 < q)%Q /\ (q <= inject_Z n)%Q.
Proof.
  intros H. apply to_int_done in H as (q & Hq & ->).
  exists q. split; [exact Hq|apply Qceiling_bounds].
Qed.



End FloatFacts.

(* ================================================================== *)
(** * Frame clock on floats *)
(* ================================================================== *)

Module FloatFrameClockFacts.

Import Float FloatFrameClock FloatFacts.






End FloatFrameClockFacts.

(* ================================================================== *)
(** * Practice gate on floats *)
(* ================================================================== *)

Module FloatPracticeFacts.

Import Float Practice FloatPractice FloatFacts.

Local Open Scope string_scope.

(** The lower bound is the floor of the float product. *)
Lemma lower_bound_floor (expected : Z) (accuracy : float) (lower : Z) :
  lower_bound expected accuracy = Done lower ->
  exists e q,
    of_int expected = Done e
    /\ value (fmul e accuracy) = Some q
    /\ (inject_Z lower <= q)%Q /\ (q < inject_Z lower + 1)%Q.
Proof.
  unfold lower_bound.
  destruct (of_int expected) as [e| |]; cbn [bind]; try discriminate.
  intros H. apply floor_bounds in H as (q & Hq & Hb).
  exists e, q. split; [reflexivity|]. split; [exact Hq|exact Hb].
Qed.

(** The upper bound is the ceiling of the float product. *)
Lemma upper_bound_ceil (expected : Z) (accuracy : float) (upper : Z) :
  upper_bound expected accuracy = Done upper ->
  exists e q,
    of_int expected = Done e
    /\ value (fmul e (fsub (const 2) accuracy)) = Some q
    /\ (inject_Z upper - 1 < q)%Q /\ (q <= inject_Z upper)%Q.
Proof.
  unfold upper_bound.
  destruct (of_int expected) as [e| |]; cbn [bind]; try discriminate.
  intros H. apply ceil_bounds in H as (q & Hq & Hb).
  exists e, q. split; [reflexivity|]. split; [exact Hq|exact Hb].
Qed.

Lemma practice_gate_verdict (practice_condition : string)
      (targets observed expected lower upper : Z) (accuracy : float) :
  expected_responses practice_condition targets = Done expected ->
  lower_bound expected accuracy = Done lower ->
  upper_bound expected accuracy = Done upper ->
  practice_gate practice_condition targets observed accuracy
  = Done ((lower <=? observed)%Z && (observed <=? upper)%Z).
Proof.
  intros He Hl Hu. unfold practice_gate. rewrite He. cbn [bind].
  rewrite Hl. cbn [bind]. rewrite Hu. cbn [bind].
  now destruct (_ && _).
Qed.

(** C6. The gate expects [targets] responses in the attend condition
    and [targets // 3] in the divert condition. Its bounds are
    [lower = floor(expected * accuracy)] and
    [upper = ceil(expected * (2 - accuracy))], taken of the float
    products as Python computes them; with these it passes exactly when
    [lower <= observed <= upper] and fails exactly otherwise. When a
    bound cannot be taken, the product being NaN or infinite, the gate
    raises what the bound raises. For 10 targets at accuracy 0.7 in the
    attend condition the band is 7..13: 8 responses pass, 15 fail. The
    products are the rounded ones: for 90 targets at accuracy 0.7 the
    product is 62.99999999999999, the lower bound is 62 and 62
    responses pass. *)
Theorem practice_gate_spec (practice_condition : string)
        (targets observed : Z) (accuracy : float) :
  expected_responses "attend" targets = Done targets
  /\ expected_responses "divert" targets = Done (targets / 3)
  /\ (forall expected lower upper,
         expected_responses practice_condition targets = Done expected ->
         lower_bound expected accuracy = Done lower ->
         upper_bound expected accuracy = Done upper ->
         (exists e q,
             of_int expected = Done e
             /\ value (fmul e accuracy) = Some q
             /\ (inject_Z lower <= q)%Q /\ (q < inject_Z lower + 1)%Q)
         /\ (exists e q,
                of_int expected = Done e
                /\ value (fmul e (fsub (const 2) accuracy)) = Some q
                /\ (inject_Z upper - 1 < q)%Q /\ (q <= inject_Z upper)%Q)
         /\ (practice_gate practice_condition targets observed accuracy
             = Done true <-> lower <= observed <= upper)
         /\ (practice_gate practice_condition targets observed accuracy
             = Done false <-> ~ (lower <= observed <= upper)))
  /\ (forall expected e,
         expected_responses practice_condition targets = Done expected ->
         lower_bound expected accuracy = Raises e
         \/ ((exists lower, lower_bound expected accuracy = Done lower)
             /\ upper_bound expected accuracy = Raises e) ->
         practice_gate practice_condition targets observed accuracy
         = Raises e)
  /\ lower_bound 10 (literal 7 10) = Done 7
  /\ upper_bound 10 (literal 7 10) = Done 13
  /\ practice_gate "attend" 10 8 (literal 7 10) = Done true
  /\ practice_gate "attend" 10 15 (literal 7 10) = Done false
  /\ lower_bound 90 (literal 7 10) = Done 62
  /\ practice_gate "attend" 90 62 (literal 7 10) = Done true.
Proof.
  split; [reflexivity|]. split; [reflexivity|]. split; [|split].
  - intros expected lower upper He Hl Hu.
    split; [now apply lower_bound_floor|].
    split; [now apply upper_bound_ceil|].
    rewrite (practice_gate_verdict _ _ observed _ _ _ _ He Hl Hu).
    destruct (lower <=? observed)%Z eqn:E1;
      destruct (observed <=? upper)%Z eqn:E2; cbn [andb];
      try apply Z.leb_le in E1; try apply Z.leb_le in E2;
      try apply Z.leb_gt in E1; try apply Z.leb_gt in E2;
      (split; split; intros; try lia; try congruence; try reflexivity).
    all: exfalso; lia.
  - intros expected e He [Hl|[[lower Hl] Hu]]; unfold practice_gate;
      rewrite He; cbn [bind]; rewrite Hl; cbn [bind];
      [reflexivity|]. now rewrite Hu.
  - repeat split; vm_compute; reflexivity.
Qed.

(** Nine target letters in the divert condition make three expected
    responses; at accuracy 0.7 the band is 2..4 and 3 responses pass. *)
Lemma practice_gate_spec_witness :
  practice_gate "divert" 9 3 (literal 7 10) = Done true.
Proof.
  destruct (practice_gate_spec "divert" 9 3 (literal 7 10))
    as (_ & _ & H & _).
  destruct (H 3 2 4 eq_refl eq_refl eq_refl) as (_ & _ & Hpass & _).
  apply Hpass. lia.
Defined.

End FloatPracticeFacts.

(* ================================================================== *)
(** * Session planner on floats *)
(* ================================================================== *)

Module FloatPlannerFacts.

Import Float Planner FloatPlanner Scenarios.

Local Open Scope string_scope.
Local Open Scope list_scope.








(** A budget of -1 minute: nothing is accepted and the empty plan of
    0 s is above the budget of -60 s. *)
Lemma populate_session_negative_budget :
  exists g',
    populate_session (const (-1)) (literal 2 10) (const 2) 2 (2 # 10) 5
                     always_hit
    = Done ([], zero, g')
    /\ flt (fmul (const (-1)) (const 60)) zero = true.
Proof.
  destruct (populate_session (const (-1)) (literal 2 10) (const 2) 2
                             (2 # 10) 5 always_hit)
    as [[[blocks est] g']| |] eqn:E; [|vm_compute in E; discriminate..].
  vm_compute in E. apply Done_inj in E. inversion E; subst.
  eexists. split; reflexivity.
Qed.

End FloatPlannerFacts.
